(** * Campaign tracker: a shallow embedding of [campaign-tracker-v2.py]

    The script synchronises registrations from a MySQL source into Google
    Sheets, keeps a local counter ledger and CSV backups, and merges two
    sheets into a third.  This file embeds the functions of the script as
    Rocq functions and proves the properties its specification states.

    Conventions.
    - Python values that flow through sheet cells and database rows are
      [pyval]; text is [string] (one [ascii] per character, so the model
      speaks about ASCII text).
    - A Python call that can raise returns [res A]: [Ret a] or [Raise e].
    - Remote calls (Sheets API), the local files and [time.sleep] act on an
      explicit [world]; calls of the Sheets API, pauses and writes of the
      backups and of the counter file are also appended to the world's
      trace.  The functions report through the [logging] API; where the
      messages go is decided by [main], which installs the file handler, and
      is modelled there.
    - Dictionaries with dynamic keys are [gmap string _]; the insertion
      ordered dictionary of [merge_sheets] is an association list.  The
      order in which a [set] is iterated is a parameter ([SetOrder]). *)

From Stdlib Require Import ZArith String Ascii List Bool Lia.
From stdpp Require Import base tactics option list gmap strings pretty.

Local Open Scope string_scope.
Local Open Scope Z_scope.

(** ** Python values and exceptions *)

Inductive pyval : Type :=
| PNone
| PInt (z : Z)
| PStr (s : string).

Global Instance pyval_eq_dec : EqDecision pyval.
Proof. solve_decision. Defined.

Inductive exn : Type :=
| ValueError
| TypeError
| KeyError
| IndexError
| OverflowError
| HttpError
| AttributeError
| MySQLError
| OSError.

Global Instance exn_eq_dec : EqDecision exn.
Proof. solve_decision. Defined.

Inductive res (A : Type) : Type :=
| Ret (a : A)
| Raise (e : exn).
Arguments Ret {A} a.
Arguments Raise {A} e.

Definition rbind {A B : Type} (m : res A) (k : A -> res B) : res B :=
  match m with
  | Ret a => k a
  | Raise e => Raise e
  end.

Global Instance res_ret : MRet res := @Ret.
Global Instance res_bind : MBind res := fun A B k m => rbind m k.

(** [bool(v)] *)
Definition truthy (v : pyval) : bool :=
  match v with
  | PNone => false
  | PInt z => negb (z =? 0)
  | PStr s => negb (String.eqb s "")
  end.

(** [str(v)] *)
Definition py_str (v : pyval) : string :=
  match v with
  | PNone => "None"
  | PInt z => pretty z
  | PStr s => s
  end.

(** [a or b] for the values of a row *)
Definition py_or (a b : pyval) : pyval := if truthy a then a else b.

(** [str(v) if v else ""], used for the phone column *)
Definition phone_text (v : pyval) : pyval :=
  if truthy v then PStr (py_str v) else PStr "".

(** ** Text helpers *)

(** [sub in s] for two [str] operands. *)
Fixpoint py_in (sub s : string) : bool :=
  if String.prefix sub s then true
  else match s with
       | EmptyString => false
       | String _ s' => py_in sub s'
       end.

(** [sep.join(items)] *)
Fixpoint join (sep : string) (items : list string) : string :=
  match items with
  | [] => ""
  | [x] => x
  | x :: rest => x ++ sep ++ join sep rest
  end.

(** ** Registration type ([determine_reg_type]) *)

(** One of the two [for lp in landing_pages_list: if lp in page: ...; break]
    loops.  A non-string [lp] makes [lp in page] raise [TypeError]; the loop
    stops at the first hit, so later elements are not inspected. *)
Fixpoint lp_match (landing_pages_list : list pyval) (page : string) : res bool :=
  match landing_pages_list with
  | [] => Ret false
  | PStr lp :: rest => if py_in lp page then Ret true else lp_match rest page
  | _ :: _ => Raise TypeError
  end.

Definition determine_reg_type (first_page last_page : pyval)
    (landing_pages_list : list pyval) : string :=
  let first_page_str := match first_page with PNone => "" | v => py_str v end in
  let last_page_str := match last_page with PNone => "" | v => py_str v end in
  let body :=
    first_match ← lp_match landing_pages_list first_page_str;
    last_match ← lp_match landing_pages_list last_page_str;
    Ret (if String.eqb first_page_str last_page_str && first_match then "Direct"
         else if first_match && negb last_match then "Indirect"
         else if last_match then "Direct"
         else "Other")
  in
  match body with
  | Ret r => r
  | Raise _ => "Error"
  end.

(** ** Numbers in cells: [str.strip], [str.replace], [str.isdigit],
       [float] and [int] *)

Definition is_space (c : ascii) : bool :=
  let n := N.of_nat (nat_of_ascii c) in
  ((9 <=? n) && (n <=? 13) || (28 <=? n) && (n <=? 32))%N.

(** The white space that [float] ignores around an ASCII text: the space
    and the characters from tab to carriage return.  [str.strip] removes
    the four separators [0x1c] to [0x1f] as well, see [is_space]. *)
Definition is_float_space (c : ascii) : bool :=
  let n := N.of_nat (nat_of_ascii c) in
  ((9 <=? n) && (n <=? 13) || (n =? 32))%N.

Definition is_digit (c : ascii) : bool :=
  let n := N.of_nat (nat_of_ascii c) in
  ((48 <=? n) && (n <=? 57))%N.

Definition digit_val (c : ascii) : Z := Z.of_nat (nat_of_ascii c) - 48.

(** [s.lstrip(chars)], [s.rstrip(chars)], [s.strip(chars)], with the set
    of characters as a predicate. *)
Fixpoint lstrip_by (p : ascii -> bool) (s : string) : string :=
  match s with
  | String c s' => if p c then lstrip_by p s' else s
  | EmptyString => EmptyString
  end.

Fixpoint rstrip_by (p : ascii -> bool) (s : string) : string :=
  match s with
  | String c s' =>
      match rstrip_by p s' with
      | EmptyString => if p c then EmptyString else String c EmptyString
      | t => String c t
      end
  | EmptyString => EmptyString
  end.

Definition strip_by (p : ascii -> bool) (s : string) : string :=
  rstrip_by p (lstrip_by p s).

(** [s.strip()] *)
Definition strip (s : string) : string := strip_by is_space s.

(** [s.strip('/')] *)
Definition strip_slashes (s : string) : string := strip_by (Ascii.eqb "/") s.

(** [s.replace('.', '')] *)
Fixpoint remove_dots (s : string) : string :=
  match s with
  | String c s' => if Ascii.eqb c "." then remove_dots s' else String c (remove_dots s')
  | EmptyString => EmptyString
  end.

Fixpoint all_digits (s : string) : bool :=
  match s with
  | String c s' => is_digit c && all_digits s'
  | EmptyString => true
  end.

(** [s.isdigit()], for ASCII text: the digits are the ten ASCII digits. *)
Definition isdigit (s : string) : bool :=
  negb (String.eqb s "") && all_digits s.

(** A Python [float]: a finite binary64 value [(-1)^neg * m * 2^p], an
    infinity, or a NaN. *)
Inductive pyfloat : Type :=
| FFinite (neg : bool) (m p : Z)
| FInf (neg : bool)
| FNan.

Definition round_half_even (a b : Z) : Z :=
  let q := a / b in
  let r := a mod b in
  if 2 * r <? b then q
  else if b <? 2 * r then q + 1
  else if Z.even q then q else q + 1.

(** Nearest binary64 value of the rational [num / den] ([0 <= num],
    [0 < den]), ties to even: [Some (m, p)] stands for [m * 2^p] with
    [m <= 2^53] and [-1074 <= p]; [None] when the value rounds beyond the
    largest finite double. *)
Definition round_binary64 (num den : Z) : option (Z * Z) :=
  if num =? 0 then Some (0, 0)
  else
    let e0 := Z.log2 num - Z.log2 den in
    let below := if 0 <=? e0 then num <? den * 2 ^ e0
                 else num * 2 ^ (- e0) <? den in
    let e := if below then e0 - 1 else e0 in
    let p := Z.max (e - 52) (-1074) in
    let m := if 0 <=? p then round_half_even num (den * 2 ^ p)
             else round_half_even (num * 2 ^ (- p)) den in
    if (971 <? p) || ((p =? 971) && (2 ^ 53 <=? m)) then None
    else Some (m, p).

(** [digit (["_"] digit)*], read from the front of [s]: the value so far,
    the number of digits read, and the unread rest. *)
Fixpoint scan_digits (s : string) (n : Z) (k : nat) : Z * nat * string :=
  match s with
  | String c s' =>
      if is_digit c then scan_digits s' (10 * n + digit_val c) (S k)
      else if Ascii.eqb c "_" then
        match k, s' with
        | S _, String d s'' =>
            if is_digit d then scan_digits s'' (10 * n + digit_val d) (S k)
            else (n, k, s)
        | _, _ => (n, k, s)
        end
      else (n, k, s)
  | EmptyString => (n, k, s)
  end.

Definition scan_sign (s : string) : bool * string :=
  match s with
  | String "-" s' => (true, s')
  | String "+" s' => (false, s')
  | _ => (false, s)
  end.

Definition lower_ascii (c : ascii) : ascii :=
  let n := nat_of_ascii c in
  if ((65 <=? n) && (n <=? 90))%nat then ascii_of_nat (n + 32) else c.

Fixpoint lower (s : string) : string :=
  match s with
  | String c s' => String (lower_ascii c) (lower s')
  | EmptyString => EmptyString
  end.

(** [float(s)] for a [str]: optional sign, then [inf], [infinity], [nan]
    (any letter case) or a decimal number with an optional exponent, with
    surrounding white space ([is_float_space]) ignored. *)
Definition float_of_string (s : string) : res pyfloat :=
  let '(neg, body) := scan_sign (strip_by is_float_space s) in
  let lo := lower body in
  if String.eqb lo "inf" || String.eqb lo "infinity" then Ret (FInf neg)
  else if String.eqb lo "nan" then Ret FNan
  else
    let '(ip, ki, r1) := scan_digits body 0 0 in
    let '(fp, kf, r2) :=
      match r1 with
      | String "." r => scan_digits r 0 0
      | _ => (0, 0%nat, r1)
      end in
    if (ki + kf =? 0)%nat then Raise ValueError
    else
      let mant := ip * 10 ^ Z.of_nat kf + fp in
      let ex : option Z :=
        match r2 with
        | EmptyString => Some 0
        | String c r =>
            if Ascii.eqb c "e" || Ascii.eqb c "E" then
              let '(eneg, r') := scan_sign r in
              match scan_digits r' 0 0 with
              | (ev, S _, EmptyString) => Some (if eneg then - ev else ev)
              | _ => None
              end
            else None
        end in
      match ex with
      | None => Raise ValueError
      | Some e =>
          let sh := e - Z.of_nat kf in
          let rounded := if 0 <=? sh then round_binary64 (mant * 10 ^ sh) 1
                         else round_binary64 mant (10 ^ (- sh)) in
          match rounded with
          | Some (m, p) => Ret (FFinite neg m p)
          | None => Ret (FInf neg)
          end
      end.

(** [float(v)] *)
Definition py_float (v : pyval) : res pyfloat :=
  match v with
  | PNone => Raise TypeError
  | PInt z =>
      match round_binary64 (Z.abs z) 1 with
      | Some (m, p) => Ret (FFinite (z <? 0) m p)
      | None => Raise OverflowError
      end
  | PStr s => float_of_string s
  end.

(** [int(f)] for a [float]: truncation towards zero. *)
Definition py_int (f : pyfloat) : res Z :=
  match f with
  | FFinite neg m p =>
      let a := if 0 <=? p then m * 2 ^ p else m / 2 ^ (- p) in
      Ret (if neg then - a else a)
  | FInf _ => Raise OverflowError
  | FNan => Raise ValueError
  end.

(** [int(float(v))] *)
Definition int_float (v : pyval) : res Z :=
  f ← py_float v; py_int f.

(** ** The world: remote sheets, local files, clock, trace *)

(** A row of a sheet, of a batch to write, or of a CSV file. *)
Definition row : Type := list pyval.

(** Values of the counter ledger ([campaign_counters.json]).  [JTime t] is
    the text [datetime.now().isoformat()] taken at instant [t]. *)
Inductive jval : Type :=
| JInt (z : Z)
| JStr (s : string)
| JTime (t : Z).

Global Instance jval_eq_dec : EqDecision jval.
Proof. solve_decision. Defined.

(** What a local file holds: the rows of a CSV backup, a JSON object (the
    counter file as [json.dump] writes it), or text that [json.load]
    rejects.  A counter file that holds JSON of another kind than an
    object is not represented. *)
Inductive fcontent : Type :=
| FCsv (data : list row)
| FJson (d : gmap string jval)
| FText (s : string).

Inductive event : Type :=
| EGet (range : string)
| EAppend (range : string) (values : list row)
| EUpdate (range : string) (values : list row)
| EAddSheet (title : string)
| ESleep (seconds : Z)
| ECsvWrite (filename : string) (data : list row)
| ECounterSave (counters : gmap string jval).

(** The Sheets API client, for one spreadsheet: every call takes the
    service to its next state and returns or raises.  [values_get] is
    [spreadsheets().values().get(range=..).execute().get('values', [])]. *)
Class Sheets (svc : Type) : Type := {
  values_get : svc -> string -> svc * res (list row);
  values_append : svc -> string -> list row -> svc * res unit;
  values_update : svc -> string -> list row -> svc * res unit;
  add_sheet : svc -> string -> svc * res unit
}.

Record world (svc : Type) : Type := World {
  remote : svc;
  files : gmap string fcontent;
  readonly : gset string;
  now : Z;
  trace : list event
}.
Arguments World {svc} _ _ _ _ _.
Arguments remote {svc} _.
Arguments files {svc} _.
Arguments readonly {svc} _.
Arguments now {svc} _.
Arguments trace {svc} _.

(** Local backup and counter file paths *)
Definition COURSE_SUCCESS_CSV_BACKUP : string := "campaign_course_success_backup.csv".
Definition COURSE_FAILED_CSV_BACKUP : string := "campaign_course_failed_backup.csv".
Definition AD_SUCCESS_CSV_BACKUP : string := "campaign_ad_success_backup.csv".
Definition AD_FAILED_CSV_BACKUP : string := "campaign_ad_failed_backup.csv".
Definition CAMPAIGN_COUNTER_FILE : string := "campaign_counters.json".

(** The configuration module [config_campaign.py]: its dictionaries. *)
Record config : Type := Config {
  status_types : gmap string Z;
  course_types : gmap string (list Z);
  course_ids : gmap string (list Z);
  landing_pages : gmap string (list pyval);
  date_filters : gmap string string;
  exclude_filters : gmap string string;
  default_sheet_names : gmap string string;
  campaign_sheet_names : gmap string (gmap string string);
  merge_sheet : gmap string (gmap string string);
  juspay_status : gmap Z string
}.

(** [get_sheet_name]: the last line indexes [default_sheet_names] and
    raises [KeyError] on an unknown sheet type. *)
Definition get_sheet_name (cfg : config) (campaign sheet_type : string) : res string :=
  match campaign_sheet_names cfg !! campaign ≫= (.!! sheet_type) with
  | Some name => Ret name
  | None =>
      match default_sheet_names cfg !! sheet_type with
      | Some name => Ret name
      | None => Raise KeyError
      end
  end.

Section Effects.
Context {svc : Type} `{!Sheets svc}.

(** Computations of the script: a state transformer on the world that
    returns or raises. *)
Definition M (A : Type) : Type := world svc -> world svc * res A.

Definition ret {A : Type} (a : A) : M A := fun w => (w, Ret a).

Definition raise {A : Type} (e : exn) : M A := fun w => (w, Raise e).

Definition bind {A B : Type} (m : M A) (k : A -> M B) : M B :=
  fun w => match m w with
           | (w', Ret a) => k a w'
           | (w', Raise e) => (w', Raise e)
           end.

(** [try: m  except Exception as e: h e] *)
Definition try_except {A : Type} (m : M A) (h : exn -> M A) : M A :=
  fun w => match m w with
           | (w', Ret a) => (w', Ret a)
           | (w', Raise e) => h e w'
           end.

(** A pure step that may raise. *)
Definition lift {A : Type} (r : res A) : M A := fun w => (w, r).

Definition emit (e : event) : M unit :=
  fun w => (World (remote w) (files w) (readonly w) (now w) (trace w ++ [e]), Ret tt).

(** [time.sleep(seconds)] *)
Definition sleep (seconds : Z) : M unit :=
  fun w => (World (remote w) (files w) (readonly w) (now w + seconds)
              (trace w ++ [ESleep seconds]), Ret tt).

Definition api_get (range : string) : M (list row) :=
  fun w => let '(s, r) := values_get (remote w) range in
           (World s (files w) (readonly w) (now w) (trace w ++ [EGet range]), r).

Definition api_append (range : string) (values : list row) : M unit :=
  fun w => let '(s, r) := values_append (remote w) range values in
           (World s (files w) (readonly w) (now w) (trace w ++ [EAppend range values]), r).

Definition api_update (range : string) (values : list row) : M unit :=
  fun w => let '(s, r) := values_update (remote w) range values in
           (World s (files w) (readonly w) (now w) (trace w ++ [EUpdate range values]), r).

Definition api_add_sheet (title : string) : M unit :=
  fun w => let '(s, r) := add_sheet (remote w) title in
           (World s (files w) (readonly w) (now w) (trace w ++ [EAddSheet title]), r).

(** [open(filename, 'w')] followed by writing [c]: the file is replaced.
    Opening a read-only path raises. *)
Definition write_file (filename : string) (c : fcontent) (e : event) : M unit :=
  fun w => if decide (filename ∈ readonly w) then (w, Raise OSError)
           else (World (remote w) (<[filename := c]> (files w)) (readonly w) (now w)
                   (trace w ++ [e]), Ret tt).
End Effects.

Global Instance M_ret {svc : Type} : MRet (@M svc) := @ret svc.
Global Instance M_bind {svc : Type} : MBind (@M svc) := fun A B k m => bind m k.

(** ** Counter ledger *)

Definition zero_counters : gmap string jval :=
  {[ "course_success_count" := JInt 0; "course_failed_count" := JInt 0;
     "ad_success_count" := JInt 0; "ad_failed_count" := JInt 0;
     "total_processed" := JInt 0 ]}.

(** [counters.get(key, 0) + new_count] *)
Definition counter_add (counters : gmap string jval) (key : string) (new_count : Z)
    : res jval :=
  match default (JInt 0) (counters !! key) with
  | JInt z => Ret (JInt (z + new_count))
  | _ => Raise TypeError
  end.

Definition update_counters_after_processing (counters : gmap string jval)
    (sheet_type : string) (new_count : Z) (campaign environment : string) (t : Z)
    : res (gmap string jval) :=
  kind_count ← counter_add counters (sheet_type ++ "_count") new_count;
  total ← counter_add counters "total_processed" new_count;
  Ret (<["environment" := JStr environment]>
       (<["campaign" := JStr campaign]>
       (<["last_updated" := JTime t]>
       (<["total_processed" := total]>
       (<[sheet_type ++ "_count" := kind_count]> counters))))).

(** What one pass through a retry loop's body does to the loop. *)
Inductive loop_ctl (A : Type) : Type :=
| Return (a : A)
| Continue.
Arguments Return {A} a.
Arguments Continue {A}.

Section Pipeline.
Context {svc : Type} `{!Sheets svc}.

(** [load_local_counters]: a missing file, or one that [json.load]
    rejects, gives the zeroed ledger; a JSON object is returned as it is. *)
Definition load_local_counters : M (svc := svc) (gmap string jval) :=
  fun w => match files w !! CAMPAIGN_COUNTER_FILE with
           | Some (FJson counters) => (w, Ret counters)
           | _ => (w, Ret zero_counters)
           end.

(** [save_local_counters]: a failed write is logged and swallowed. *)
Definition save_local_counters (counters : gmap string jval) : M (svc := svc) unit :=
  try_except
    (write_file CAMPAIGN_COUNTER_FILE (FJson counters) (ECounterSave counters))
    (fun _ => ret tt).

(** [save_to_csv]: the file is opened in mode ['w']; a failure is logged
    and raised again. *)
Definition save_to_csv (data : list row) (filename : string) : M (svc := svc) unit :=
  if (0 <? length data)%nat
  then write_file filename (FCsv data) (ECsvWrite filename data)
  else ret tt.

(** *** Write verification ([verify_write_success]) *)

(** The loop over [values[1:]] that fills [current_ids]; the conversion
    is not guarded, so an exception leaves the loop. *)
Fixpoint current_ids_of (rows : list row) (current_ids : gset Z) : res (gset Z) :=
  match rows with
  | [] => Ret current_ids
  | r :: rest =>
      match r with
      | c :: _ =>
          if truthy c && isdigit (remove_dots (py_str c))
          then z ← int_float c; current_ids_of rest ({[z]} ∪ current_ids)
          else current_ids_of rest current_ids
      | [] => current_ids_of rest current_ids
      end
  end.

(** The loop over [written_data]; [ValueError] and [IndexError] are
    caught per row ([continue]), any other exception leaves the loop.
    The result is [verification_failed]. *)
Fixpoint check_written (written_data : list row) (current_ids : gset Z)
    (verification_failed : bool) : res bool :=
  match written_data with
  | [] => Ret verification_failed
  | r :: rest =>
      match r with
      | c :: _ =>
          match int_float c with
          | Ret record_id =>
              check_written rest current_ids
                (if decide (record_id ∈ current_ids) then verification_failed else true)
          | Raise ValueError | Raise IndexError =>
              check_written rest current_ids verification_failed
          | Raise e => Raise e
          end
      | [] => check_written rest current_ids verification_failed
      end
  end.

(** [current_ids] for the re-read [values]: the header is skipped when
    there is more than one row. *)
Definition reread_ids (values : list row) : res (gset Z) :=
  if (1 <? length values)%nat then current_ids_of (tail values) ∅ else Ret ∅.

Definition verify_write_success (sheet_name : string) (written_data : list row)
    : M (svc := svc) bool :=
  try_except
    (if (length written_data <=? 0)%nat then ret true
     else
       _ ← sleep 3;
       values ← api_get (sheet_name ++ "!A:A");
       current_ids ← lift (reread_ids values);
       verification_failed ← lift (check_written written_data current_ids false);
       ret (negb verification_failed))
    (fun _ => ret false).

(** *** Write with verification and retry ([write_to_google_sheets_robust]) *)

Definition write_attempt (sheet_name : string) (data : list row)
    (retries attempt : nat) : M (svc := svc) (loop_ctl bool) :=
  try_except
    (_ ← api_append (sheet_name ++ "!A2") data;
     verification_passed ← verify_write_success sheet_name data;
     if negb verification_passed then
       if (attempt <? retries - 1)%nat
       then _ ← sleep (2 ^ Z.of_nat attempt); ret Continue
       else ret (Return false)
     else ret (Return true))
    (fun _ =>
       if (attempt <? retries - 1)%nat
       then _ ← sleep (2 ^ Z.of_nat attempt); ret Continue
       else ret Continue).

Fixpoint write_attempts (sheet_name : string) (data : list row)
    (retries : nat) (attempts : list nat) : M (svc := svc) bool :=
  match attempts with
  | [] => ret false
  | attempt :: rest =>
      ctl ← write_attempt sheet_name data retries attempt;
      match ctl with
      | Return b => ret b
      | Continue => write_attempts sheet_name data retries rest
      end
  end.

Definition write_to_google_sheets_robust (sheet_name : string) (data : list row)
    (retries : nat) : M (svc := svc) bool :=
  match data with
  | [] => ret true
  | _ => write_attempts sheet_name data retries (seq 0 retries)
  end.

(** *** Append with backup and ledger update ([append_to_sheet]) *)

Definition backup_filename (sheet_type : string) : string :=
  if py_in "course" sheet_type && py_in "success" sheet_type then COURSE_SUCCESS_CSV_BACKUP
  else if py_in "course" sheet_type && py_in "failed" sheet_type then COURSE_FAILED_CSV_BACKUP
  else if py_in "ad" sheet_type && py_in "success" sheet_type then AD_SUCCESS_CSV_BACKUP
  else if py_in "ad" sheet_type && py_in "failed" sheet_type then AD_FAILED_CSV_BACKUP
  else "campaign_" ++ sheet_type ++ "_backup.csv".

(** [datetime.now()] *)
Definition get_now : M (svc := svc) Z := fun w => (w, Ret (now w)).

(** The result is the number of cells reported as updated. *)
Definition append_to_sheet (sheet_name : string) (data : list row)
    (sheet_type campaign environment : string) : M (svc := svc) Z :=
  match data with
  | [] => ret 0
  | first :: _ =>
      try_except
        (let csv_filename := backup_filename sheet_type in
         _ ← save_to_csv data csv_filename;
         sheets_success ← write_to_google_sheets_robust sheet_name data 3;
         if (sheets_success : bool) then
           counters ← load_local_counters;
           t ← get_now;
           updated_counters ← lift (update_counters_after_processing counters
                                      sheet_type (Z.of_nat (length data))
                                      campaign environment t);
           _ ← save_local_counters updated_counters;
           ret (Z.of_nat (length data) * Z.of_nat (length first))
         else ret 0)
        (fun _ => ret 0)
  end.

(** *** Key resolver ([get_existing_sheet_ids]) *)

(** The loop over the rows that follow the header.  [existing_ids] is the
    set being filled in place; [ValueError], [TypeError] and [IndexError]
    are caught per row, any other exception leaves the loop with the
    identifiers added so far. *)
Fixpoint extract_ids (values : list row) (existing_ids : gset Z)
    : gset Z * res unit :=
  match values with
  | [] => (existing_ids, Ret tt)
  | r :: rest =>
      match r with
      | c :: _ =>
          if truthy c then
            if isdigit (remove_dots (strip (py_str c))) then
              match int_float c with
              | Ret z => extract_ids rest ({[z]} ∪ existing_ids)
              | Raise ValueError | Raise TypeError | Raise IndexError =>
                  extract_ids rest existing_ids
              | Raise e => (existing_ids, Raise e)
              end
            else extract_ids rest existing_ids
          else extract_ids rest existing_ids
      | [] => extract_ids rest existing_ids
      end
  end.

Definition backoff (retries attempt : nat) : M (svc := svc) unit :=
  if (attempt <? retries - 1)%nat then sleep (2 ^ Z.of_nat attempt) else ret tt.

Fixpoint read_ids_attempts (sheet_name : string) (retries : nat)
    (attempts : list nat) (existing_ids : gset Z) : M (svc := svc) (gset Z) :=
  match attempts with
  | [] => ret existing_ids
  | attempt :: rest =>
      fun w =>
        match api_get (sheet_name ++ "!A:A") w with
        | (w1, Ret values) =>
            (* values.pop(0): the first row is always taken as the header *)
            match extract_ids (tail values) existing_ids with
            | (ids, Ret _) => (w1, Ret ids)
            | (ids, Raise _) =>
                bind (backoff retries attempt)
                  (fun _ => read_ids_attempts sheet_name retries rest ids) w1
            end
        | (w1, Raise _) =>
            bind (backoff retries attempt)
              (fun _ => read_ids_attempts sheet_name retries rest existing_ids) w1
        end
  end.

Definition get_existing_sheet_ids (sheet_name : string) (retries : nat)
    : M (svc := svc) (gset Z) :=
  read_ids_attempts sheet_name retries (seq 0 retries) ∅.
End Pipeline.

(** ** Filter builder ([build_course_query], [build_landing_page_query]) *)

(** The text of the query around its [WHERE] condition; both builders use
    the same text. *)
Definition sql_head : string := "
    SELECT 
        cpd.`id`,
        cpd.`entity_id`,
        ce.`event_type_id`,
        ce.`id` as eid,
        ce.`title`,
        pei.`accounting_course_id_201`,
        CONCAT(cpd.`first_name`, ' ', cpd.`last_name`) AS `name`,
        cpd.`participant_email`,
        cpd.`participant_phone`,
        cpd.`pincode`,
        cpd.`submitted_on`,
        cpd.`referal_site`,
        cpd.`reg_utm_url`,
        pt.`pg_res_msg`,
        pt.`pg_res_code`,
        pt.`id` AS ptid
    FROM 
        `civicrm_course_participants_details` cpd
    INNER JOIN 
        `civicrm_event` ce ON ce.`id` = cpd.`entity_id`
    INNER JOIN 
        `civicrm_value_private_event_information_33` pei ON pei.`entity_id` = ce.`id`
    INNER JOIN 
        `payment_transactions` pt ON pt.`participant_id` = cpd.`id`
    WHERE ".

Definition sql_tail : string := "
    GROUP BY cpd.`id`
    ORDER BY `submitted_on` ASC
    ".

(** [','.join(map(str, xs))] *)
Definition comma_join (xs : list Z) : string := join "," (pretty <$> xs).

(** The order in which Python iterates over a [set] of integers depends on
    the hash table behind it.  The model takes it as given: [set_iter s]
    lists the members of [s], each once, in some order. *)
Class SetOrder : Type := {
  set_iter : gset Z -> list Z;
  set_iter_perm : forall s : gset Z, set_iter s ≡ₚ elements s
}.

Section Builders.
Context {order : SetOrder}.

(** The clause that keeps already synchronised identifiers out:
    [','.join(map(str, existing_ids))] between the brackets. *)
Definition exclusion_clause (existing_ids : gset Z) : string :=
  "(cpd.`id` NOT IN (" ++ comma_join (set_iter existing_ids) ++ "))".

(** [if existing_ids: where_clauses.append(...)] *)
Definition existing_ids_filter (existing_ids : gset Z) : list string :=
  if decide (existing_ids = ∅) then [] else [exclusion_clause existing_ids].

Definition time_clause : string :=
  "cpd.`submitted_on` <= DATE_SUB(DATE_ADD(NOW(), INTERVAL 5.5 HOUR), INTERVAL 5 MINUTE)".

(** The participant status clause; an unknown status name raises
    [KeyError] at [status_types[status_type]]. *)
Definition status_clause (cfg : config) (status_type : string) : res string :=
  if String.eqb status_type "success" then Ret "cpd.`participant_status` IN (5, 19)"
  else match status_types cfg !! status_type with
       | Some status_code => Ret ("cpd.`participant_status` = " ++ pretty status_code)
       | None => Raise KeyError
       end.

(** A clause that is present when [campaign] is a key of [d]. *)
Definition clause_if_in {A : Type} (d : gmap string A) (campaign : string)
    (f : A -> string) : list string :=
  match d !! campaign with
  | Some a => [f a]
  | None => []
  end.

Definition course_where_clauses (cfg : config) (campaign status_type : string)
    (existing_ids : gset Z) : res (list string) :=
  let c1 := clause_if_in (course_types cfg) campaign
              (fun l => "ce.`event_type_id` IN (" ++ comma_join l ++ ")") in
  let c2 := clause_if_in (course_ids cfg) campaign
              (fun l => "cpd.`entity_id` IN (" ++ comma_join l ++ ")") in
  let c3 := existing_ids_filter existing_ids in
  let c4 := clause_if_in (date_filters cfg) campaign id in
  c5 ← status_clause cfg status_type;
  let c7 := match exclude_filters cfg !! campaign with
            | Some f => if negb (String.eqb f "") then [f] else []
            | None => []
            end in
  Ret (c1 ++ c2 ++ c3 ++ c4 ++ [c5] ++ [time_clause] ++ c7)%list.

Definition build_course_query (cfg : config) (campaign status_type : string)
    (existing_ids : gset Z) : res string :=
  where_clauses ← course_where_clauses cfg campaign status_type existing_ids;
  Ret (sql_head ++ join " AND " where_clauses ++ sql_tail).

(** The three ways a landing page is looked for in a record. *)
Definition landing_page_conditions (lps : list pyval) : list string :=
  lps ≫= (fun lp =>
    [ "cpd.`reg_utm_url` LIKE '%" ++ py_str lp ++ "%'";
      "cpd.`referal_site` LIKE '%" ++ py_str lp ++ "%'";
      "cpd.`reg_utm_url` LIKE '%greferrer=%" ++ py_str lp ++ "%'" ]).

Definition landing_page_where_clauses (cfg : config) (campaign status_type : string)
    (existing_ids : gset Z) : res (list string) :=
  let c1 := clause_if_in (landing_pages cfg) campaign
              (fun lps => "(" ++ join " OR " (landing_page_conditions lps) ++ ")") in
  let c2 := existing_ids_filter existing_ids in
  let c3 := clause_if_in (date_filters cfg) campaign id in
  c4 ← status_clause cfg status_type;
  Ret (c1 ++ c2 ++ c3 ++ [c4] ++ [time_clause])%list.

Definition build_landing_page_query (cfg : config) (campaign status_type : string)
    (existing_ids : gset Z) : res string :=
  where_clauses ← landing_page_where_clauses cfg campaign status_type existing_ids;
  Ret (sql_head ++ join " AND " where_clauses ++ sql_tail).
End Builders.

(** ** Record transformer ([extract_utm_parameters], [process_query_results]) *)

(** The two functions of [urllib.parse] the script calls:
    [urlparse url] gives the [path] and [query] of the parsed URL,
    [parse_qs query] the dictionary of the query's parameters. *)
Class UrlLib : Type := {
  urlparse : string -> res (string * string);
  parse_qs : string -> res (gmap string (list string))
}.

(** A row of the source, as [cursor(dictionary=True)] returns it. *)
Abbreviation dbrow := (gmap string pyval).

(** [row[key]] *)
Definition getitem (r : gmap string pyval) (key : string) : res pyval :=
  match r !! key with
  | Some v => Ret v
  | None => Raise KeyError
  end.

Definition param_keys : list string :=
  ["first_page"; "greferrer"; "utm_campaign"; "utm_id"; "utm_source";
   "utm_medium"; "utm_term"; "utm_content"; "fbclid"].

Definition default_params : gmap string pyval :=
  list_to_map ((fun key => (key, PStr "")) <$> param_keys).

(** [if key in query_params and query_params[key]: params[key] = query_params[key][0]] *)
Definition take_param (query_params : gmap string (list string))
    (params : gmap string pyval) (key : string) : gmap string pyval :=
  match query_params !! key with
  | Some (v :: _) => <[key := PStr v]> params
  | _ => params
  end.

Section Transformer.
Context `{!UrlLib}.

(** The [try] block of [extract_utm_parameters]; an exception of the
    library leaves [params] as they were. *)
Definition params_from_url (url : pyval) (params : gmap string pyval)
    : res (gmap string pyval) :=
  match url with
  | PStr u =>
      '(path, query) ← urlparse u;
      query_params ← parse_qs query;
      let params := foldl (take_param query_params) params param_keys in
      let params := take_param query_params params "greferrer" in
      first_page ← getitem params "first_page";
      Ret (if negb (truthy first_page) && negb (String.eqb path "")
           then <["first_page" := PStr (strip_slashes path)]> params
           else params)
  | _ => Raise AttributeError
  end.

Definition extract_utm_parameters (url referal_site : pyval) : res (gmap string pyval) :=
  let params := default_params in
  let params :=
    if truthy url then
      match params_from_url url params with
      | Ret params' => params'
      | Raise _ => params
      end
    else params in
  greferrer ← getitem params "greferrer";
  Ret (if negb (truthy greferrer) && truthy referal_site
       then <["greferrer" := referal_site]> params
       else params).

(** The null-coalescing assignments at the top of the loop body; they
    are outside the row's [try]. *)
Definition coalesce (r : dbrow) (key : string) (f : pyval -> pyval) : res dbrow :=
  v ← getitem r key; Ret (<[key := f v]> r).

Definition coalesce_row (r : dbrow) : res dbrow :=
  r ← coalesce r "participant_email" (fun v => py_or v (PStr ""));
  r ← coalesce r "participant_phone" phone_text;
  r ← coalesce r "name" (fun v => py_or v (PStr ""));
  r ← coalesce r "pincode" (fun v => py_or v (PStr ""));
  r ← coalesce r "referal_site" (fun v => py_or v (PStr ""));
  coalesce r "reg_utm_url" (fun v => py_or v (PStr "")).

(** [juspay_status.get(code, '')] *)
Definition juspay_lookup (cfg : config) (code : pyval) : string :=
  match code with
  | PInt z => default "" (juspay_status cfg !! z)
  | _ => ""
  end.

Definition status_text_of (cfg : config) (status_type : string) (r : dbrow) : res string :=
  let status_text := if String.eqb status_type "success" then "Success" else "Failed" in
  if String.eqb status_type "failed" then
    pg_res_msg ← getitem r "pg_res_msg";
    if truthy pg_res_msg then
      pg_res_code ← getitem r "pg_res_code";
      Ret ("Failed: " ++ py_str pg_res_msg ++ " (" ++ juspay_lookup cfg pg_res_code ++ ")")
    else Ret status_text
  else Ret status_text.

(** The body of the row's [try]. *)
Definition format_row (cfg : config) (campaign_landing_pages : list pyval)
    (status_type : string) (r : dbrow) : res row :=
  reg_utm_url ← getitem r "reg_utm_url";
  referal_site ← getitem r "referal_site";
  utm_params ← extract_utm_parameters reg_utm_url referal_site;
  status_text ← status_text_of cfg status_type r;
  first_page ← getitem utm_params "first_page";
  greferrer ← getitem utm_params "greferrer";
  let reg_type := determine_reg_type first_page greferrer campaign_landing_pages in
  ref ← getitem r "id";
  course_id ← getitem r "accounting_course_id_201";
  title ← getitem r "title";
  name ← getitem r "name";
  email ← getitem r "participant_email";
  phone ← getitem r "participant_phone";
  submitted_on ← getitem r "submitted_on";
  utm_campaign ← getitem utm_params "utm_campaign";
  utm_id ← getitem utm_params "utm_id";
  utm_source ← getitem utm_params "utm_source";
  utm_medium ← getitem utm_params "utm_medium";
  utm_term ← getitem utm_params "utm_term";
  utm_content ← getitem utm_params "utm_content";
  fbclid ← getitem utm_params "fbclid";
  Ret [ref; course_id; title; name; email; phone; PStr (py_str submitted_on);
       PStr status_text; referal_site; reg_utm_url; first_page; greferrer;
       utm_campaign; utm_id; utm_source; utm_medium; utm_term; utm_content;
       fbclid; PStr reg_type].

(** The body of the row's [except Exception]. *)
Definition fallback_row (r : dbrow) : res row :=
  ref ← getitem r "id";
  course_id ← getitem r "accounting_course_id_201";
  title ← getitem r "title";
  name ← getitem r "name";
  email ← getitem r "participant_email";
  phone ← getitem r "participant_phone";
  submitted_on ← getitem r "submitted_on";
  referal_site ← getitem r "referal_site";
  reg_utm_url ← getitem r "reg_utm_url";
  Ret [ref; course_id; title; name; email; phone_text phone;
       PStr (py_str submitted_on); PStr "Error"; referal_site; reg_utm_url;
       PStr ""; referal_site; PStr ""; PStr ""; PStr ""; PStr ""; PStr "";
       PStr ""; PStr ""; PStr "Error"].

(** One pass through the loop body: the output row of a source row. *)
Definition process_row (cfg : config) (campaign_landing_pages : list pyval)
    (status_type : string) (r : dbrow) : res row :=
  r ← coalesce_row r;
  match format_row cfg campaign_landing_pages status_type r with
  | Ret formatted_row => Ret formatted_row
  | Raise _ => fallback_row r
  end.

(** The loop over the rows; [data] is the list being appended to. *)
Fixpoint process_rows (cfg : config) (campaign_landing_pages : list pyval)
    (status_type : string) (rows : list dbrow) (data : list row) : res (list row) :=
  match rows with
  | [] => Ret data
  | r :: rest =>
      formatted_row ← process_row cfg campaign_landing_pages status_type r;
      process_rows cfg campaign_landing_pages status_type rest (data ++ [formatted_row])%list
  end.

(** [cursor sql] is [cursor.execute(sql)] followed by [cursor.fetchall()].
    Only the connector's own error is caught by the function. *)
Definition process_query_results (cursor : string -> res (list dbrow)) (cfg : config)
    (campaign status_type sheet_type sql : string) : res (list row) :=
  match cursor sql with
  | Ret [] => Ret []
  | Ret rows =>
      let campaign_landing_pages := default [] (landing_pages cfg !! campaign) in
      process_rows cfg campaign_landing_pages status_type rows []
  | Raise MySQLError => Ret []
  | Raise e => Raise e
  end.
End Transformer.

(** ** Merge reconciler ([merge_sheets]) *)

(** [new_merged_data]: a Python dictionary keeps its keys in insertion
    order, and assigning to a key that is present keeps its place. *)
Definition odict : Type := list (string * row).

Fixpoint dict_set (key : string) (v : row) (d : odict) : odict :=
  match d with
  | [] => [(key, v)]
  | (k, v') :: rest =>
      if decide (key = k) then (key, v) :: rest else (k, v') :: dict_set key v rest
  end.

(** [list(d.values())] *)
Definition dict_values (d : odict) : list row := snd <$> d.

(** [while len(row) < len(headers): row.append("")] *)
Definition pad_row (headers r : row) : row :=
  (r ++ replicate (length headers - length r) (PStr ""))%list.

(** The key of a row: [str(row[0])] when the row has a first cell that is
    not empty. *)
Definition row_key (r : row) : option string :=
  match r with
  | c :: _ => if truthy c then Some (py_str c) else None
  | [] => None
  end.

(** The set of keys already in the merge target. *)
Fixpoint existing_keys_of (existing_data : list row) (existing_keys : gset string)
    : gset string :=
  match existing_data with
  | [] => existing_keys
  | r :: rest =>
      match row_key r with
      | Some key => existing_keys_of rest ({[key]} ∪ existing_keys)
      | None => existing_keys_of rest existing_keys
      end
  end.

(** One of the two loops that fill [new_merged_data] from a source table.
    The row stored under the key is the source row itself, padded in
    place; nothing else refers to it afterwards. *)
Fixpoint add_rows (headers : row) (existing_keys : gset string) (data : list row)
    (new_merged_data : odict) : odict :=
  match data with
  | [] => new_merged_data
  | r :: rest =>
      match row_key r with
      | Some key =>
          if decide (key ∈ existing_keys)
          then add_rows headers existing_keys rest new_merged_data
          else add_rows headers existing_keys rest
                 (dict_set key (pad_row headers r) new_merged_data)
      | None => add_rows headers existing_keys rest new_merged_data
      end
  end.

Definition new_merged_rows (headers : row) (existing_keys : gset string)
    (course_data ad_data : list row) : list row :=
  dict_values (add_rows headers existing_keys ad_data
                 (add_rows headers existing_keys course_data [])).

(** Header and data of a table that was read ([rows[0]], [rows[1:]]). *)
Definition split_table (rows : list row) : row * list row :=
  match rows with
  | [] => ([], [])
  | h :: data => (h, data)
  end.

Section Merge.
Context {svc : Type} `{!Sheets svc}.

(** The retry loop around a read or a header write of [merge_sheets]:
    only [HttpError] is caught. *)
Fixpoint http_retry {A : Type} (call : M (svc := svc) A) (attempts : list nat)
    : M (svc := svc) (option A) :=
  match attempts with
  | [] => ret None
  | attempt :: rest =>
      fun w =>
        match call w with
        | (w1, Ret a) => (w1, Ret (Some a))
        | (w1, Raise HttpError) =>
            bind (if (attempt <? 2)%nat then sleep (2 ^ Z.of_nat attempt) else ret tt)
              (fun _ => http_retry call rest) w1
        | (w1, Raise e) => (w1, Raise e)
        end
  end.

(** Reading the merge target: its header and the keys of its data rows.
    When the read raises, the sheet is taken not to exist and is
    created; a failure to create it is ignored. *)
Definition read_merge_target (merge_sheet_name : string)
    : M (svc := svc) (row * gset string) :=
  try_except
    (merge_rows ← api_get (merge_sheet_name ++ "!A:T");
     let '(existing_headers, existing_data) := split_table merge_rows in
     ret (existing_headers, existing_keys_of existing_data ∅))
    (fun _ =>
       _ ← try_except (api_add_sheet merge_sheet_name) (fun _ => ret tt);
       ret ([], ∅)).

(** The body of the loop over the merge classes; the result is what the
    class adds to [total_new_merges]. *)
Definition merge_class (cfg : config) (campaign : string)
    (merge_sheets_config : gmap string string) (merge_type : string)
    : M (svc := svc) Z :=
  course_sheet_name ← lift (get_sheet_name cfg campaign ("course_" ++ merge_type));
  ad_sheet_name ← lift (get_sheet_name cfg campaign ("ad_" ++ merge_type));
  match merge_sheets_config !! ("merge_" ++ merge_type) with
  | None | Some "" => ret 0
  | Some merge_sheet_name =>
      course_result ← http_retry (api_get (course_sheet_name ++ "!A:T")) [0; 1; 2]%nat;
      let '(course_headers, course_data) := split_table (default [] course_result) in
      ad_result ← http_retry (api_get (ad_sheet_name ++ "!A:T")) [0; 1; 2]%nat;
      let '(ad_headers, ad_data) := split_table (default [] ad_result) in
      let headers := match course_headers with [] => ad_headers | _ => course_headers end in
      match headers with
      | [] => ret 0
      | _ =>
          '(existing_headers, existing_keys) ← read_merge_target merge_sheet_name;
          let rows := new_merged_rows headers existing_keys course_data ad_data in
          match rows with
          | [] => ret 0
          | _ =>
              _ ← match existing_headers with
                  | [] => http_retry (api_update (merge_sheet_name ++ "!A1") [headers])
                            [0; 1; 2]%nat
                  | _ => ret None
                  end;
              sheets_success ← write_to_google_sheets_robust merge_sheet_name rows 3;
              if (sheets_success : bool) then ret (Z.of_nat (length rows)) else ret 0
          end
      end
  end.

Definition merge_sheets (cfg : config) (campaign : string) : M (svc := svc) Z :=
  match merge_sheet cfg !! campaign with
  | None => ret 0
  | Some merge_sheets_config =>
      fun w =>
        match merge_class cfg campaign merge_sheets_config "success" w with
        | (w1, Ret n1) =>
            match merge_class cfg campaign merge_sheets_config "failed" w1 with
            | (w2, Ret n2) => (w2, Ret (n1 + n2))
            | (w2, Raise _) => (w2, Ret n1)
            end
        | (w1, Raise _) => (w1, Ret 0)
        end
  end.
End Merge.

(** ** Vocabulary of the specification *)

(** [sub] occurs in [s]. *)
Definition substring_of (sub s : string) : Prop :=
  exists pre post : string, s = pre ++ sub ++ post.

(** The four-branch rule of the classifier, over the two match flags. *)
Definition classifier_rule (first_page last_page : string)
    (first_match last_match : Prop) (reg_type : string) : Prop :=
  (first_page = last_page /\ first_match -> reg_type = "Direct") /\
  (~ (first_page = last_page /\ first_match) ->
     first_match /\ ~ last_match -> reg_type = "Indirect") /\
  (~ (first_page = last_page /\ first_match) -> ~ (first_match /\ ~ last_match) ->
     last_match -> reg_type = "Direct") /\
  (~ (first_page = last_page /\ first_match) -> ~ (first_match /\ ~ last_match) ->
     ~ last_match -> reg_type = "Other").

(** Two texts that differ only in letter case. *)
Definition case_variant (a b : string) : Prop := lower a = lower b /\ a <> b.

(** The white space that [str.strip] removes from an ASCII text, by
    character code: tab to carriage return, the four separators, space. *)
Definition blank (c : ascii) : Prop :=
  nat_of_ascii c ∈ [9; 10; 11; 12; 13; 28; 29; 30; 31; 32]%nat.

(** One of the ten decimal digits. *)
Definition decimal_digit (c : ascii) : Prop :=
  c ∈ list_ascii_of_string "0123456789".

(** A cell that looks like a decimal number: between leading and trailing
    white space it is made of digits and dots, with one digit at least. *)
Definition decimal_looking (s : string) : Prop :=
  exists pre body post : string,
    s = pre ++ body ++ post /\
    Forall blank (list_ascii_of_string pre) /\
    Forall blank (list_ascii_of_string post) /\
    Forall (fun c => decimal_digit c \/ c = "."%char) (list_ascii_of_string body) /\
    Exists decimal_digit (list_ascii_of_string body).

(** A cell that is not empty: not [None], not the empty text, not zero. *)
Definition filled (c : pyval) : Prop :=
  c <> PNone /\ c <> PStr "" /\ c <> PInt 0.

(** The row's first cell is not empty, looks decimal and converts to [z]. *)
Definition numeric_id (r : row) (z : Z) : Prop :=
  exists c rest, r = c :: rest /\ filled c /\
                 decimal_looking (py_str c) /\ int_float c = Ret z.

(** The row's first cell is not empty and looks decimal, but stands for a
    number beyond the range of a double, so that its conversion
    overflows. *)
Definition stops (r : row) : Prop :=
  exists c rest, r = c :: rest /\ filled c /\
                 decimal_looking (py_str c) /\ int_float c = Raise OverflowError.

(** The conversion of the row's first cell overflows. *)
Definition overflows (r : row) : Prop :=
  exists c rest, r = c :: rest /\ int_float c = Raise OverflowError.

(** A written row that the presence check skips: it has no cell, or its
    first cell is not a number for [float]. *)
Definition unverifiable (r : row) : Prop :=
  r = [] \/ exists c rest, r = c :: rest /\ int_float c = Raise ValueError.

(** The ledger as the next [load_local_counters] would read it. *)
Definition ledger_of {svc : Type} (w : world svc) : gmap string jval :=
  match files w !! CAMPAIGN_COUNTER_FILE with
  | Some (FJson counters) => counters
  | _ => zero_counters
  end.

(** The count stored under [key], as [counters.get(key, 0)] reads it. *)
Definition count_of (counters : gmap string jval) (key : string) : option Z :=
  match default (JInt 0) (counters !! key) with
  | JInt z => Some z
  | _ => None
  end.

(** Events of the remote side and of the clock, as opposed to writes of
    local files. *)
Definition is_remote (e : event) : bool :=
  match e with
  | ECsvWrite _ _ | ECounterSave _ => false
  | _ => true
  end.

(** [w'] is reached from [w] without touching the local files: the files
    are the same and the trace grew by remote events only. *)
Definition frame {svc : Type} (w w' : world svc) : Prop :=
  files w' = files w /\ readonly w' = readonly w /\
  exists evs, trace w' = (trace w ++ evs)%list /\ forallb is_remote evs = true.

(** A computation that leaves the local files alone. *)
Definition remote_only {svc A : Type} (m : M (svc := svc) A) : Prop :=
  forall w, frame w (m w).1.

(** One append followed by its verification: the cycle that each attempt
    of [write_to_google_sheets_robust] runs. *)
Definition append_verify_cycle {svc : Type} `{!Sheets svc} (sheet_name : string)
    (data : list row) : M (svc := svc) bool :=
  _ ← api_append (sheet_name ++ "!A2") data;
  verify_write_success sheet_name data.







(** ** Test doubles *)

(** A scripted Sheets service: the answers of the successive reads, the
    answers of the successive appends; header writes and sheet creation
    succeed.  A call beyond the script fails with [HttpError]. *)
Record script : Type := Script {
  reads : list (res (list row));
  appends : list (res unit)
}.

Global Instance script_sheets : Sheets script := {
  values_get s _ :=
    match reads s with
    | r :: rest => (Script rest (appends s), r)
    | [] => (s, Raise HttpError)
    end;
  values_append s _ _ :=
    match appends s with
    | r :: rest => (Script (reads s) rest, r)
    | [] => (s, Raise HttpError)
    end;
  values_update s _ _ := (s, Ret tt);
  add_sheet s _ := (s, Ret tt)
}.

(** A world that starts with the given script and local files. *)
Definition world_of (s : script) (fs : gmap string fcontent) : world script :=
  World s fs ∅ 0 [].

(** A URL library whose calls raise, as [urlparse] does on a malformed
    address such as [http://[::1]. *)
Definition failing_urllib : UrlLib :=
  {| urlparse := fun _ => Raise ValueError; parse_qs := fun _ => Raise ValueError |}.

(** A small configuration in the shape of [config_campaign.py]. *)
Definition sample_config : config :=
  {| status_types := {[ "success" := 5; "failed" := 1 ]};
     course_types := {[ "whd-mar2025" := [684] ]};
     course_ids := {[ "whd-mar2025" := [834855; 834856]; "ombw-voucher" := [805191] ]};
     landing_pages := {[ "whd-mar2025" := [PStr "lp/happiness-program/whd";
                                            PStr "lp/world-happiness-day"];
                         "anand-utsav-2025" := [PStr "lp/anand-utsav"] ]};
     date_filters := {[ "whd-mar2025" := "cpd.`submitted_on` > '2025-03-03'" ]};
     exclude_filters := ∅;
     default_sheet_names := {[ "course_success" := "Ctr Course Success";
                               "course_failed" := "Ctr Course Failed";
                               "ad_success" := "Ad LP Success";
                               "ad_failed" := "Ad LP Failed" ]};
     campaign_sheet_names := ∅;
     merge_sheet := {[ "anand-utsav-2025" :=
                         {[ "merge_success" := "AU 2025 All Success";
                            "merge_failed" := "AU 2025 All Failed" ]} ]};
     juspay_status := {[ 21 := "Successful transaction" ]} |}.

(** A batch of one output row, reference 7. *)
Definition sample_batch : list row :=
  [[PInt 7; PStr "C-201"; PStr "Happiness Program"; PStr "Asha"; PStr "asha@example.org";
    PStr "9800000000"; PStr "2025-03-04 10:00:00"; PStr "Success"; PStr "";
    PStr "https://example.org/lp/world-happiness-day"; PStr "lp/world-happiness-day";
    PStr ""; PStr ""; PStr ""; PStr ""; PStr ""; PStr ""; PStr ""; PStr "";
    PStr "Indirect"]].

(** The identifier column as a re-read returns it when reference 7 did not
    arrive: the header and one older reference. *)
Definition column_without_7 : list row := [[PStr "Ref"]; [PStr "1"]].

(** The identifier column once reference 7 is there. *)
Definition column_with_7 : list row := [[PStr "Ref"]; [PStr "1"]; [PStr "7"]].

(** A ledger with four records written so far. *)
Definition sample_ledger : gmap string jval :=
  <["course_success_count" := JInt 4]> (<["total_processed" := JInt 4]> zero_counters).

(** Every append is accepted but the written reference never shows up. *)
Definition world_write_lost : world script :=
  world_of (Script [Ret column_without_7; Ret column_without_7; Ret column_without_7]
              [Ret tt; Ret tt; Ret tt])
    {[ CAMPAIGN_COUNTER_FILE := FJson sample_ledger ]}.

(** The append is accepted and the reference shows up at the first re-read;
    an older backup is on disk. *)
Definition world_write_ok : world script :=
  world_of (Script [Ret column_with_7] [Ret tt])
    {[ CAMPAIGN_COUNTER_FILE := FJson sample_ledger;
       COURSE_SUCCESS_CSV_BACKUP := FCsv [[PInt 1; PStr "C-201"]] ]}.

(** A batch whose first cells are text, not numbers. *)
Definition text_batch : list row :=
  [[PStr "pending"; PStr "C-201"]; [PStr "n/a"; PStr "C-202"]].

(** The identifier column with a cell that passes the digits-and-dots test
    and is no number. *)
Definition column_with_dotted_cell : list row := [[PStr "Ref"]; [PStr "1.2.3"]].

(** Every append is accepted; every re-read returns the dotted cell. *)
Definition world_dotted_cell : world script :=
  world_of (Script [Ret column_with_dotted_cell; Ret column_with_dotted_cell;
                    Ret column_with_dotted_cell] [Ret tt; Ret tt; Ret tt]) ∅.

(** The append is accepted and the re-read returns a plain column. *)
Definition world_plain_column : world script :=
  world_of (Script [Ret column_without_7] [Ret tt]) ∅.







(** A service whose sheets hold fixed tables: a read returns the table of
    its range, and every write is accepted. *)
Record fixed_tables : Type := FixedTables { table_at : string -> list row }.

Global Instance fixed_tables_sheets : Sheets fixed_tables := {
  values_get s range := (s, Ret (table_at s range));
  values_append s _ _ := (s, Ret tt);
  values_update s _ _ := (s, Ret tt);
  add_sheet s _ := (s, Ret tt)
}.


(** What the specification asks of a query builder, [build] giving the
    query as a function of the keys that are known at the destination.
    There are two texts, the same for every set of keys, such that the
    query for no key is the one followed by the other, and the query for a
    set of keys that is not empty has between them the exclusion clause
    followed by [AND].  The clause lists the decimal numerals of the keys,
    each key once, with commas in between, and stands in the [WHERE]
    condition of the query, as its first conjunct or after an [AND]. *)
Definition excludes_known_keys (build : gset Z -> res string) : Prop :=
  exists before after : string,
    (before = "" \/ exists c, before = c ++ " AND ") /\
    build ∅ = Ret (sql_head ++ before ++ after ++ sql_tail) /\
    forall known_keys : gset Z, known_keys <> ∅ ->
      exists keys : list Z,
        keys ≡ₚ elements known_keys /\
        build known_keys
        = Ret (sql_head ++ before
               ++ "(cpd.`id` NOT IN (" ++ String.concat "," (pretty <$> keys) ++ "))"
               ++ " AND " ++ after ++ sql_tail).

(** The iteration order of the sets of the finite map library, for the
    worked examples. *)
Definition library_order : SetOrder :=
  {| set_iter := elements; set_iter_perm := fun s => Permutation_refl (elements s) |}.

(** A source row as the query of the script returns it, with a
    registration address that [urlparse] rejects. *)
Definition row_bad_url : dbrow :=
  {[ "id" := PInt 7; "accounting_course_id_201" := PStr "C-201";
     "title" := PStr "Happiness Program"; "name" := PStr "Asha";
     "participant_email" := PStr "asha@example.org";
     "participant_phone" := PInt 9800000000; "pincode" := PNone;
     "submitted_on" := PStr "2025-03-04 10:00:00";
     "referal_site" := PNone; "reg_utm_url" := PStr "http://[::1";
     "pg_res_msg" := PNone; "pg_res_code" := PNone ]}.

(** A source row without the payment columns, as another query could
    return it. *)
Definition row_no_payment : dbrow :=
  {[ "id" := PInt 8; "accounting_course_id_201" := PStr "C-201";
     "title" := PStr "Happiness Program"; "name" := PNone;
     "participant_email" := PStr "ravi@example.org";
     "participant_phone" := PInt 9811111111; "pincode" := PNone;
     "submitted_on" := PStr "2025-03-04 11:00:00";
     "referal_site" := PStr "https://partner.example/article";
     "reg_utm_url" := PNone ]}.

(** The output row of the [except] branch, from the cells of the row after
    the null-coalescing step. *)
Definition degraded_row (ref course_id title name email phone submitted_on
    referal_site reg_utm_url : pyval) : row :=
  [ref; course_id; title; name; email; phone; PStr (py_str submitted_on);
   PStr "Error"; referal_site; reg_utm_url; PStr ""; referal_site;
   PStr ""; PStr ""; PStr ""; PStr ""; PStr ""; PStr ""; PStr ""; PStr "Error"].

(** A cell of 310 digits: a number beyond the range of a double. *)
Definition huge_cell : string :=
  "1000000000000000000000000000000000000000000000000000000000000000000000000000000000000000000000000000000000000000000000000000000000000000000000000000000000000000000000000000000000000000000000000000000000000000000000000000000000000000000000000000000000000000000000000000000000000000000000000000000000000000000000".

(** The identifier column with the huge cell before reference 7, returned
    by each of three reads. *)
Definition column_with_huge_cell : list row :=
  [[PStr "Ref"]; [PStr "3"]; [PStr huge_cell]; [PStr "7"]].

Definition world_huge_cell : world script :=
  world_of (Script [Ret column_with_huge_cell; Ret column_with_huge_cell;
                    Ret column_with_huge_cell] []) ∅.

(** ** Count verification ([verify_sheet_counts_against_local]) *)

(** [len(existing_ids)] against [counters.get(f'{sheet_type}_count', 0)].
    A stored value that is not a number makes the subtraction raise; the
    function's handler turns that into [False]. *)
Definition verify_sheet_counts_against_local (existing_ids : gset Z)
    (counters : gmap string jval) (sheet_type : string) : bool :=
  let sheet_count := Z.of_nat (size existing_ids) in
  match default (JInt 0) (counters !! (sheet_type ++ "_count")) with
  | JInt local_count =>
      let diff := Z.abs (sheet_count - local_count) in
      if 0 <? diff then false else true
  | _ => false
  end.

(** The four sheet kinds that [main] processes. *)
Definition sheet_kinds : list string :=
  ["course_success"; "course_failed"; "ad_success"; "ad_failed"].

(** A ledger whose total is the sum of its four per-kind counts. *)
Definition ledger_balanced (counters : gmap string jval) : Prop :=
  exists a b c d : Z,
    count_of counters "course_success_count" = Some a /\
    count_of counters "course_failed_count" = Some b /\
    count_of counters "ad_success_count" = Some c /\
    count_of counters "ad_failed_count" = Some d /\
    count_of counters "total_processed" = Some (a + b + c + d).

(** ** Vocabulary for traces *)

(** An append of rows, as opposed to the other events. *)
Definition is_append (e : event) : bool :=
  match e with
  | EAppend _ _ => true
  | _ => false
  end.

(** An event that the write pipeline for [sheet_name] and [data] may
    leave: the append of the batch, the re-read of the identifier column,
    a pause. *)
Definition pipeline_event (sheet_name : string) (data : list row) (e : event) : Prop :=
  e = EAppend (sheet_name ++ "!A2") data \/ e = EGet (sheet_name ++ "!A:A") \/
  exists seconds, e = ESleep seconds.

(** ** A service that is out of reach *)

(** Every call fails with [HttpError], as during an outage. *)
Inductive offline : Type := Offline.

Global Instance offline_sheets : Sheets offline := {
  values_get s _ := (s, Raise HttpError);
  values_append s _ _ := (s, Raise HttpError);
  values_update s _ _ := (s, Raise HttpError);
  add_sheet s _ := (s, Raise HttpError)
}.

(** A world whose service is out of reach, with the sample ledger on disk. *)
Definition world_offline : world offline :=
  World Offline {[ CAMPAIGN_COUNTER_FILE := FJson sample_ledger ]} ∅ 0 [].

(** A written row whose reference is an integer that a double holds
    exactly. *)
Definition int_row (r : row) : Prop :=
  exists z rest, r = PInt z :: rest /\ - 2 ^ 53 < z < 2 ^ 53.

(** The reference [z] is the first cell of a row of [data]. *)
Definition written_ref (data : list row) (z : Z) : Prop :=
  exists rest, PInt z :: rest ∈ data.

(** The append is accepted and the reference shows up, but the ledger on
    disk holds a total that is not a number. *)
Definition world_corrupt_ledger : world script :=
  world_of (Script [Ret column_with_7] [Ret tt])
    {[ CAMPAIGN_COUNTER_FILE := FJson (<["total_processed" := JStr "many"]> zero_counters) ]}.

(** A read of a range, as opposed to the other events. *)
Definition is_get (e : event) : bool :=
  match e with
  | EGet _ => true
  | _ => false
  end.

(** An event that the key resolver for [sheet_name] may leave. *)
Definition resolver_event (sheet_name : string) (e : event) : Prop :=
  e = EGet (sheet_name ++ "!A:A") \/ exists seconds, e = ESleep seconds.

(** ** Vocabulary for URL parameters *)

(** [query_params[key][0]] when the key is there with a value, as the
    text it stands for in a row (blank when absent). *)
Definition first_value (query_params : gmap string (list string)) (key : string) : string :=
  match query_params !! key with
  | Some (v :: _) => v
  | _ => ""
  end.

(** The parameters are the nine of [param_keys], each a text. *)
Definition nine_texts (params : gmap string pyval) : Prop :=
  dom params = list_to_set param_keys /\
  forall key v, params !! key = Some v -> exists s, v = PStr s.

(** A URL library that answers every call as [urllib.parse] answers for
    the address [https://example.org/lp/world-happiness-day/?utm_source=fb]. *)
Definition sample_urllib : UrlLib :=
  {| urlparse := fun _ => Ret ("/lp/world-happiness-day/", "utm_source=fb");
     parse_qs := fun _ => Ret {[ "utm_source" := ["fb"] ]} |}.

(** ** Vocabulary for the record transformer *)

(** [column_headers['common']] of the configuration: the columns of an
    output row. *)
Definition column_headers : list string :=
  ["Ref"; "Course ID"; "Course name"; "Name"; "Email"; "Phone"; "Submitted on"; "Status";
   "referal_site"; "reg_utm_url"; "first_page"; "last_page(greferrer)";
   "utm_campaign"; "utm_id"; "utm_source"; "utm_medium"; "utm_term";
   "utm_content"; "fbclid"; "reg_type"].

(** The labels of the registration type column. *)
Definition reg_types : list string := ["Direct"; "Indirect"; "Other"; "Error"].

(** The columns that the null-coalescing step of the loop reads. *)
Definition coalesced_columns : list string :=
  ["participant_email"; "participant_phone"; "name"; "pincode"; "referal_site";
   "reg_utm_url"].

(** The columns that identify a record in an output row. *)
Definition identifying_columns : list string :=
  ["id"; "accounting_course_id_201"; "title"; "submitted_on"].

(** A source row with the columns that the loop body reads outside of its
    [try]. *)
Definition has_columns (r : gmap string pyval) : Prop :=
  forall key, key ∈ (coalesced_columns ++ identifying_columns)%list -> is_Some (r !! key).

(** The shape of an output row made from the source row [src]. *)
Definition output_of (src : gmap string pyval) (out : row) : Prop :=
  length out = length column_headers /\
  head out = src !! "id" /\
  exists reg_type, last out = Some (PStr reg_type) /\ reg_type ∈ reg_types.

(** ** Vocabulary for the merge *)

(** The keys of [keys] that are not in [seen], each once, in the order in
    which they first occur. *)
Fixpoint first_occurrences (seen keys : list string) : list string :=
  match keys with
  | [] => []
  | key :: rest =>
      if decide (key ∈ seen) then first_occurrences seen rest
      else key :: first_occurrences (seen ++ [key]) rest
  end.

(** The keys of the rows of a source table that the merge may take, in
    the order of the rows. *)
Definition eligible_keys (existing_keys : gset string) (data : list row) : list string :=
  omap (fun r => match row_key r with
                 | Some key => if decide (key ∈ existing_keys) then None else Some key
                 | None => None
                 end) data.

(** A computation whose result, when there is one, is not negative. *)
Definition nonneg_result {svc : Type} (m : M (svc := svc) Z) : Prop :=
  forall w n, (m w).2 = Ret n -> 0 <= n.

(** ** The run of the script ([main]) *)

(** The log file that [setup_logging] names. *)
Definition LOG_FILE : string := "campaign_tracker.log".

Section Main.
Context {svc : Type} `{!Sheets svc} `{!UrlLib} {order : SetOrder}.

(** The body of the loop of [main] over the status names: the course
    sheet, then the landing page sheet.  The result is what the pass adds
    to [total_updates].  The outcome of the count verification is logged
    and the run proceeds whatever it is. *)
Definition main_status (cursor : string -> res (list dbrow)) (cfg : config)
    (campaign environment : string) (counters : gmap string jval) (status : string)
    : M (svc := svc) Z :=
  let course_sheet_type := "course_" ++ status in
  course_sheet_name ← lift (get_sheet_name cfg campaign course_sheet_type);
  existing_ids ← get_existing_sheet_ids course_sheet_name 3;
  let count_verification_passed :=
    verify_sheet_counts_against_local existing_ids counters course_sheet_type in
  query ← lift (build_course_query cfg campaign status existing_ids);
  data ← lift (process_query_results cursor cfg campaign status "course" query);
  updated ← append_to_sheet course_sheet_name data course_sheet_type campaign environment;
  let ad_sheet_type := "ad_" ++ status in
  ad_sheet_name ← lift (get_sheet_name cfg campaign ad_sheet_type);
  existing_ids ← get_existing_sheet_ids ad_sheet_name 3;
  let count_verification_passed :=
    verify_sheet_counts_against_local existing_ids counters ad_sheet_type in
  query ← lift (build_landing_page_query cfg campaign status existing_ids);
  data ← lift (process_query_results cursor cfg campaign status "ad" query);
  updated' ← append_to_sheet ad_sheet_name data ad_sheet_type campaign environment;
  ret (updated + updated').

(** [sheet_ids[campaign]] *)
Definition spreadsheet_of (sheet_ids : gmap string string) (campaign : string)
    : res string :=
  match sheet_ids !! campaign with
  | Some spreadsheet_id => Ret spreadsheet_id
  | None => Raise KeyError
  end.

(** The [try] block of [main] from the look-up of the spreadsheet on; the
    result is [total_updates].  The service of the model stands for the
    spreadsheet that the look-up names. *)
Definition main_body (sheet_ids : gmap string string)
    (cursor : string -> res (list dbrow)) (cfg : config)
    (campaign environment : string) : M (svc := svc) Z :=
  spreadsheet_id ← lift (spreadsheet_of sheet_ids campaign);
  counters ← load_local_counters;
  updated_success ← main_status cursor cfg campaign environment counters "success";
  updated_failed ← main_status cursor cfg campaign environment counters "failed";
  total_merges ← match merge_sheet cfg !! campaign with
                 | Some _ => merge_sheets cfg campaign
                 | None => ret 0
                 end;
  ret (updated_success + updated_failed).

(** The [try] block with its handler: the exit status is 1 when an
    exception leaves the block, 0 otherwise. *)
Definition main_try (sheet_ids : gmap string string)
    (cursor : string -> res (list dbrow)) (cfg : config)
    (campaign environment : string) : M (svc := svc) Z :=
  try_except
    (_ ← main_body sheet_ids cursor cfg campaign environment; ret 0)
    (fun _ => ret 1).

(** The messages of a run.  The handler that [setup_logging] installs adds
    every message of the script to [LOG_FILE]; it holds the file open, so
    that a message cannot fail on the path.  The text of the messages is
    not modelled: [logged before] stands for what the file holds at the end
    of the run when it held [before] at its start.  The log is no part of
    the trace. *)
Definition write_log (logged : option fcontent -> fcontent) : M (svc := svc) unit :=
  fun w => (World (remote w) (<[LOG_FILE := logged (files w !! LOG_FILE)]> (files w))
              (readonly w) (now w) (trace w), Ret tt).

(** [main], from the point where [setup_logging], [parse_arguments],
    [connect_to_database] and [setup_google_sheets] have returned: the
    [try] block from the look-up of the spreadsheet on, its handler, which
    gives the exit status 1, and the [finally] block.  [close] is the
    outcome of closing the cursor and the connection there: an exception
    of theirs leaves [main] in place of the exit status. *)
Definition main (logged : option fcontent -> fcontent) (close : res unit)
    (sheet_ids : gmap string string) (cursor : string -> res (list dbrow))
    (cfg : config) (campaign environment : string) : M (svc := svc) Z :=
  fun w =>
    let '(w1, status) := main_try sheet_ids cursor cfg campaign environment w in
    let '(w2, _) := write_log logged w1 in
    match close with
    | Ret _ => (w2, status)
    | Raise e => (w2, Raise e)
    end.
End Main.

(** [w'] is reached from [w] by calls of the remote side, pauses and
    messages to the log: but for the log the files are the same, and the
    trace grew by remote events only. *)
Definition frame_but_log {svc : Type} (w w' : world svc) : Prop :=
  (forall f, f <> LOG_FILE -> files w' !! f = files w !! f) /\
  readonly w' = readonly w /\
  exists evs, trace w' = (trace w ++ evs)%list /\ forallb is_remote evs = true.

(** The spreadsheets of the sample configuration. *)
Definition sample_sheet_ids : gmap string string :=
  {[ "whd-mar2025" := "sheet-1"; "anand-utsav-2025" := "sheet-2" ]}.

(** A log that grows by one line at each run. *)
Definition sample_logged (before : option fcontent) : fcontent :=
  match before with
  | Some (FText text) => FText (text ++ "Script execution completed")
  | _ => FText "Script execution completed"
  end.

(** The data files of the script: the four backups and the ledger. *)
Definition script_files : list string :=
  [COURSE_SUCCESS_CSV_BACKUP; COURSE_FAILED_CSV_BACKUP; AD_SUCCESS_CSV_BACKUP;
   AD_FAILED_CSV_BACKUP; CAMPAIGN_COUNTER_FILE].

(** A computation that writes no file outside of [allowed]. *)
Definition writes_within {svc A : Type} (allowed : list string) (m : M (svc := svc) A)
    : Prop :=
  forall w f, f ∉ allowed -> files (m w).1 !! f = files w !! f.

(** A computation that keeps the ledger balanced. *)
Definition keeps_balance {svc A : Type} (m : M (svc := svc) A) : Prop :=
  forall w, ledger_balanced (ledger_of w) -> ledger_balanced (ledger_of (m w).1).

(** A computation that adds only events of [P] to the trace. *)
Definition adds_only {svc A : Type} (P : event -> Prop) (m : M (svc := svc) A) : Prop :=
  forall w, exists evs, trace (m w).1 = (trace w ++ evs)%list /\ Forall P evs.

(** An event that a merge may leave when [is_target] tells the names of
    the merge sheets: reads and pauses, and, for a merge sheet, its
    creation, the write of its header in [A1] and appends of rows. *)
Definition merge_event (is_target : string -> Prop) (e : event) : Prop :=
  match e with
  | EGet _ | ESleep _ => True
  | EAddSheet title => is_target title
  | EUpdate range _ => exists name, is_target name /\ range = name ++ "!A1"
  | EAppend range _ => exists name, is_target name /\ range = name ++ "!A2"
  | ECsvWrite _ _ | ECounterSave _ => False
  end.

(** The merge sheets that the configuration names for a campaign. *)
Definition merge_target (cfg : config) (campaign name : string) : Prop :=
  exists (merge_sheets_config : gmap string string) (key : string),
    merge_sheet cfg !! campaign = Some merge_sheets_config /\
    merge_sheets_config !! key = Some name.

(** The append is accepted and the reference shows up, but the ledger
    file cannot be written. *)
Definition world_readonly_ledger : world script :=
  World (Script [Ret column_with_7] [Ret tt])
    {[ CAMPAIGN_COUNTER_FILE := FJson sample_ledger ]} {[ CAMPAIGN_COUNTER_FILE ]} 0 [].

(** * Properties *)

Lemma append_cons (c : ascii) (s t : string) : String c s ++ t = String c (s ++ t).
Proof. reflexivity. Qed.

Lemma append_nil_l (t : string) : "" ++ t = t.
Proof. reflexivity. Qed.

Lemma prefix_spec (p s : string) :
  String.prefix p s = true <-> exists post, s = p ++ post.
Proof.
  revert s. induction p as [|c p IH]; intros s.
  - destruct s; simpl; (split; [intros _; eauto | done]).
  - destruct s as [|d s]; simpl.
    + split; [done | intros [post H]; discriminate].
    + setoid_rewrite append_cons.
      destruct (ascii_dec c d) as [->|Hne].
      * rewrite IH. split; intros [post H]; exists post; congruence.
      * split; [done | intros [post H]; congruence].
Qed.

Lemma py_in_unfold (sub s : string) :
  py_in sub s = if String.prefix sub s then true
                else match s with "" => false | String _ s' => py_in sub s' end.
Proof. by destruct s. Qed.

Lemma py_in_spec (sub s : string) : py_in sub s = true <-> substring_of sub s.
Proof.
  unfold substring_of. induction s as [|c s IH]; rewrite py_in_unfold.
  - destruct (String.prefix sub "") eqn:E.
    + split; [intros _ | done]. apply prefix_spec in E as [post E]. by exists "", post.
    + split; [done |]. intros ([|d pre] & post & H); [|discriminate].
      assert (String.prefix sub "" = true) by (apply prefix_spec; eauto). congruence.
  - destruct (String.prefix sub (String c s)) eqn:E.
    + split; [intros _ | done]. apply prefix_spec in E as [post E]. by exists "", post.
    + rewrite IH. split.
      * intros (pre & post & ->). by exists (String c pre), post.
      * intros ([|d pre] & post & H).
        -- assert (String.prefix sub (String c s) = true) by (apply prefix_spec; eauto).
           congruence.
        -- rewrite append_cons in H. injection H as -> ->. eauto.
Qed.

Lemma length_append (s t : string) :
  String.length (s ++ t) = (String.length s + String.length t)%nat.
Proof. induction s as [|c s IH]; [done|]. rewrite append_cons. simpl. by rewrite IH. Qed.

Lemma append_nil_r (s : string) : s ++ "" = s.
Proof. induction s as [|c s IH]; [done|]. by rewrite append_cons, IH. Qed.

Lemma length_zero (s : string) : String.length s = 0%nat -> s = "".
Proof. by destruct s. Qed.

Lemma substring_same_length (sub s : string) :
  substring_of sub s -> String.length sub = String.length s -> sub = s.
Proof.
  intros (pre & post & ->) Hlen. rewrite !length_append in Hlen.
  assert (pre = "") as -> by (apply length_zero; lia).
  assert (post = "") as -> by (apply length_zero; lia).
  by rewrite append_nil_l, append_nil_r.
Qed.

Lemma length_lower (s : string) : String.length (lower s) = String.length s.
Proof. induction s as [|c s IH]; simpl; congruence. Qed.

(** The loop of the classifier computes the match flag. *)
Lemma lp_match_strings (ids : list string) (page : string) :
  exists b : bool, lp_match (PStr <$> ids) page = Ret b /\
    (b = true <-> exists lp, lp ∈ ids /\ substring_of lp page).
Proof.
  induction ids as [|lp ids (b & Hb & IH)]; simpl.
  - exists false. split; [done|]. split; [done|]. intros (lp & Hin & _). by apply elem_of_nil in Hin.
  - destruct (py_in lp page) eqn:E.
    + exists true. split; [done|]. split; [|done]. intros _. exists lp.
      split; [left|]. by apply py_in_spec.
    + exists b. split; [done|]. rewrite IH. split.
      * intros (lp' & Hin & Hs). exists lp'. split; [by right | done].
      * intros (lp' & Hin & Hs). apply elem_of_cons in Hin as [->|Hin]; [|eauto].
        apply py_in_spec in Hs. congruence.
Qed.

Lemma determine_reg_type_total (first_page last_page : pyval) (lps : list pyval) :
  determine_reg_type first_page last_page lps ∈ ["Direct"; "Indirect"; "Other"; "Error"].
Proof.
  unfold determine_reg_type.
  generalize (match first_page with PNone => "" | _ => py_str first_page end).
  generalize (match last_page with PNone => "" | _ => py_str last_page end).
  intros l f. unfold mbind, res_bind, rbind.
  destruct (lp_match lps f) as [fm|]; [|set_solver].
  destruct (lp_match lps l) as [lm|]; [|set_solver].
  destruct (f =? l)%string, fm, lm; simpl; set_solver.
Qed.

(** C1. For all string inputs and identifier lists [determine_reg_type]
    follows the four-branch rule over the two match flags (an identifier
    occurs in [first_page], an identifier occurs in [last_page]); for all
    inputs whatsoever its result is one of the four literals [Direct],
    [Indirect], [Other], [Error], which are pairwise distinct. *)
Theorem determine_reg_type_rule :
  (forall (first_page last_page : string) (ids : list string),
     classifier_rule first_page last_page
       (exists lp, lp ∈ ids /\ substring_of lp first_page)
       (exists lp, lp ∈ ids /\ substring_of lp last_page)
       (determine_reg_type (PStr first_page) (PStr last_page) (PStr <$> ids))) /\
  (forall (first_page last_page : pyval) (landing_pages_list : list pyval),
     determine_reg_type first_page last_page landing_pages_list
       ∈ ["Direct"; "Indirect"; "Other"; "Error"]) /\
  NoDup ["Direct"; "Indirect"; "Other"; "Error"].
Proof.
  split; [|split; [apply determine_reg_type_total|]].
  - intros fp lp ids. unfold determine_reg_type, classifier_rule. simpl.
    destruct (lp_match_strings ids fp) as (fm & -> & Hfm).
    destruct (lp_match_strings ids lp) as (lm & -> & Hlm). simpl.
    rewrite <- Hfm, <- Hlm.
    destruct (String.eqb_spec fp lp) as [->|Hne]; destruct fm, lm; simpl;
      repeat split; try done; naive_solver.
  - repeat constructor; set_solver.
Qed.

(** C1, an instance: equal pages without a landing-page hit are [Other],
    and the four examples of the specification. *)
Lemma determine_reg_type_rule_witness :
  determine_reg_type (PStr "a/b") (PStr "a/b") (PStr <$> ["lp/x"]) = "Other" /\
  determine_reg_type (PStr "lp/x") (PStr "lp/x") (PStr <$> ["lp/x"]) = "Direct" /\
  determine_reg_type (PStr "lp/x") (PStr "other") (PStr <$> ["lp/x"]) = "Indirect" /\
  determine_reg_type (PStr "a") (PStr "lp/x") (PStr <$> ["lp/x"]) = "Direct" /\
  determine_reg_type (PStr "a") (PStr "b") (PStr <$> ["lp/x"]) = "Other".
Proof.
  pose proof (proj1 determine_reg_type_rule) as H.
  split; [|by vm_compute].
  destruct (H "a/b" "a/b" ["lp/x"]) as (_ & _ & _ & Hother).
  apply Hother.
  - intros [_ (lp & Hin & Hs)]. apply list_elem_of_singleton in Hin as ->.
    apply py_in_spec in Hs. by vm_compute in Hs.
  - intros [(lp & Hin & Hs) _]. apply list_elem_of_singleton in Hin as ->.
    apply py_in_spec in Hs. by vm_compute in Hs.
  - intros (lp & Hin & Hs). apply list_elem_of_singleton in Hin as ->.
    apply py_in_spec in Hs. by vm_compute in Hs.
Defined.

(** C10. Matching is case sensitive: when [first_page] and [last_page]
    differ from every configured identifier only in letter case, neither
    loop finds a match and the classification is [Other]. *)
Theorem determine_reg_type_case_sensitive (first_page last_page : string)
    (ids : list string) :
  (forall lp, lp ∈ ids -> case_variant first_page lp /\ case_variant last_page lp) ->
  lp_match (PStr <$> ids) first_page = Ret false /\
  lp_match (PStr <$> ids) last_page = Ret false /\
  determine_reg_type (PStr first_page) (PStr last_page) (PStr <$> ids) = "Other".
Proof.
  intros Hcase.
  assert (forall page, (forall lp, lp ∈ ids -> case_variant page lp) ->
                       lp_match (PStr <$> ids) page = Ret false) as Hno.
  { intros page Hpage. destruct (lp_match_strings ids page) as ([] & Hb & Hspec); [|done].
    destruct (proj1 Hspec eq_refl) as (lp & Hin & Hsub).
    destruct (Hpage lp Hin) as [Hlow Hne]. exfalso. apply Hne. symmetry.
    apply substring_same_length; [done|].
    by rewrite <- (length_lower lp), <- Hlow, length_lower. }
  assert (lp_match (PStr <$> ids) first_page = Ret false) as Hf
    by (apply Hno; intros lp Hin; by apply Hcase).
  assert (lp_match (PStr <$> ids) last_page = Ret false) as Hl
    by (apply Hno; intros lp Hin; by apply Hcase).
  repeat split; [done..|].
  unfold determine_reg_type. simpl. rewrite Hf, Hl. simpl.
  by rewrite andb_false_r.
Qed.

Lemma determine_reg_type_case_sensitive_witness :
  determine_reg_type (PStr "LP/Anand-Utsav") (PStr "lp/ANAND-utsav")
    (PStr <$> ["lp/anand-utsav"]) = "Other".
Proof.
  apply (determine_reg_type_case_sensitive "LP/Anand-Utsav" "lp/ANAND-utsav"
           ["lp/anand-utsav"]).
  intros lp Hin. apply list_elem_of_singleton in Hin as ->.
  split; (split; [by vm_compute | discriminate]).
Defined.

(** ** Suffixes *)

Lemma append_assoc (s t u : string) : (s ++ t) ++ u = s ++ t ++ u.
Proof. induction s as [|c s IH]; [done|]. by rewrite !append_cons, IH. Qed.

Lemma append_suffix_inj (s s' t t' : string) :
  s ++ t = s' ++ t' -> String.length t = String.length t' -> t = t'.
Proof.
  revert s'. induction s as [|c s IH]; intros [|c' s'] Heq Hlen.
  - done.
  - rewrite append_nil_l in Heq. subst t. rewrite length_append in Hlen. simpl in Hlen. lia.
  - rewrite append_nil_l in Heq. subst t'. rewrite length_append in Hlen. simpl in Hlen. lia.
  - rewrite !append_cons in Heq. injection Heq as _ Heq. by eapply IH.
Qed.

(** The backup files and the counter file are different files. *)
Lemma backup_filename_not_counter_file (sheet_type : string) :
  backup_filename sheet_type <> CAMPAIGN_COUNTER_FILE.
Proof.
  unfold backup_filename.
  repeat (match goal with |- context [if ?b then _ else _] => destruct b end);
    try discriminate.
  intros H. rewrite <- append_assoc in H.
  apply (append_suffix_inj _ "campaign_co" _ "unters.json") in H; [discriminate | done].
Qed.

(** The per-kind key of the ledger is none of its fixed keys. *)
Lemma kind_key_fresh (sheet_type : string) :
  sheet_type ++ "_count" <> "total_processed" /\
  sheet_type ++ "_count" <> "last_updated" /\
  sheet_type ++ "_count" <> "campaign" /\
  sheet_type ++ "_count" <> "environment".
Proof.
  repeat split; intros H.
  - apply (append_suffix_inj _ "total_pro" _ "cessed") in H; [discriminate | done].
  - apply (append_suffix_inj _ "last_u" _ "pdated") in H; [discriminate | done].
  - apply (append_suffix_inj _ "ca" _ "mpaign") in H; [discriminate | done].
  - apply (append_suffix_inj _ "envir" _ "onment") in H; [discriminate | done].
Qed.

(** ** The effect monad *)

Section EffectFacts.
Context {svc : Type} `{!Sheets svc}.
Implicit Types w : world svc.

Lemma bind_unfold {A B : Type} (m : M (svc := svc) A) (k : A -> M (svc := svc) B) w :
  (m ≫= k) w = match m w with
               | (w', Ret a) => k a w'
               | (w', Raise e) => (w', Raise e)
               end.
Proof. reflexivity. Qed.

Lemma frame_refl w : frame w w.
Proof. repeat split. exists []. by rewrite app_nil_r. Qed.

Lemma frame_trans w1 w2 w3 : frame w1 w2 -> frame w2 w3 -> frame w1 w3.
Proof.
  intros (Hf1 & Hr1 & evs1 & Ht1 & He1) (Hf2 & Hr2 & evs2 & Ht2 & He2).
  repeat split; [congruence..|]. exists (evs1 ++ evs2)%list.
  rewrite Ht2, Ht1, app_assoc, forallb_app, He1, He2. done.
Qed.

Lemma remote_only_ret {A : Type} (a : A) : remote_only (ret (svc := svc) a).
Proof. intros w. apply frame_refl. Qed.

Lemma remote_only_lift {A : Type} (r : res A) : remote_only (lift (svc := svc) r).
Proof. intros w. apply frame_refl. Qed.

Lemma frame_event w s t (e : event) :
  is_remote e = true ->
  frame w (World s (files w) (readonly w) t (trace w ++ [e])).
Proof. intros He. repeat split. exists [e]. simpl. by rewrite He. Qed.

Lemma remote_only_sleep (n : Z) : remote_only (sleep (svc := svc) n).
Proof. intros w. by apply frame_event. Qed.

Lemma remote_only_api_get (range : string) : remote_only (api_get range).
Proof. intros w. unfold api_get. destruct (values_get _ _). by apply frame_event. Qed.

Lemma remote_only_api_append (range : string) (values : list row) :
  remote_only (api_append range values).
Proof. intros w. unfold api_append. destruct (values_append _ _ _). by apply frame_event. Qed.

Lemma remote_only_api_update (range : string) (values : list row) :
  remote_only (api_update range values).
Proof. intros w. unfold api_update. destruct (values_update _ _ _). by apply frame_event. Qed.

Lemma remote_only_api_add_sheet (title : string) : remote_only (api_add_sheet title).
Proof. intros w. unfold api_add_sheet. destruct (add_sheet _ _). by apply frame_event. Qed.

Lemma remote_only_bind {A B : Type} (m : M (svc := svc) A) (k : A -> M (svc := svc) B) :
  remote_only m -> (forall a, remote_only (k a)) -> remote_only (m ≫= k).
Proof.
  intros Hm Hk w. rewrite bind_unfold. specialize (Hm w).
  destruct (m w) as [w1 [a|e]]; [|done].
  eapply frame_trans; [exact Hm | apply Hk].
Qed.

Lemma remote_only_try_except {A : Type} (m : M (svc := svc) A) (h : exn -> M (svc := svc) A) :
  remote_only m -> (forall e, remote_only (h e)) -> remote_only (try_except m h).
Proof.
  intros Hm Hh w. unfold try_except. specialize (Hm w).
  destruct (m w) as [w1 [a|e]]; [done|].
  eapply frame_trans; [exact Hm | apply Hh].
Qed.

Lemma remote_only_if {A : Type} (b : bool) (m1 m2 : M (svc := svc) A) :
  remote_only m1 -> remote_only m2 -> remote_only (if b then m1 else m2).
Proof. by destruct b. Qed.
End EffectFacts.

Create HintDb remote.
Global Hint Resolve remote_only_ret remote_only_lift remote_only_sleep
  remote_only_api_get remote_only_api_append remote_only_api_update
  remote_only_api_add_sheet : remote.

Ltac remote_only_step :=
  first [ apply remote_only_bind; [|intros ?]
        | apply remote_only_try_except; [|intros ?]
        | apply remote_only_if
        | solve [eauto with remote] ].

(** ** Write verification and retry *)

Section PipelineFacts.
Context {svc : Type} `{!Sheets svc}.
Implicit Types w : world svc.

Lemma remote_only_verify (sheet_name : string) (data : list row) :
  remote_only (verify_write_success sheet_name data).
Proof. unfold verify_write_success. repeat remote_only_step. Qed.

Lemma remote_only_cycle (sheet_name : string) (data : list row) :
  remote_only (append_verify_cycle sheet_name data).
Proof.
  unfold append_verify_cycle. remote_only_step; [eauto with remote|].
  apply remote_only_verify.
Qed.

(** The verification returns a verdict, whatever the remote side does. *)
Lemma verify_returns (sheet_name : string) (data : list row) w :
  exists b, (verify_write_success sheet_name data w).2 = Ret b.
Proof.
  unfold verify_write_success, try_except.
  destruct (_ w) as [w1 [b|e]]; simpl; eauto.
Qed.

(** One pass of the retry loop, in terms of the append-verify cycle. *)
Lemma write_attempt_cycle (sheet_name : string) (data : list row)
    (retries attempt : nat) w :
  write_attempt sheet_name data retries attempt w =
  match append_verify_cycle sheet_name data w with
  | (w1, Ret true) => (w1, Ret (Return true))
  | (w1, Ret false) =>
      if (attempt <? retries - 1)%nat
      then ((sleep (2 ^ Z.of_nat attempt) w1).1, Ret Continue)
      else (w1, Ret (Return false))
  | (w1, Raise _) =>
      if (attempt <? retries - 1)%nat
      then ((sleep (2 ^ Z.of_nat attempt) w1).1, Ret Continue)
      else (w1, Ret Continue)
  end.
Proof.
  unfold write_attempt, append_verify_cycle, try_except. rewrite !bind_unfold.
  destruct (api_append _ _ w) as [w0 [[]|e]].
  - rewrite bind_unfold.
    destruct (verify_returns sheet_name data w0) as [b Hb].
    destruct (verify_write_success sheet_name data w0) as [w1 r]. simpl in Hb. subst r.
    destruct b; simpl; [done|]. by destruct (attempt <? retries - 1)%nat.
  - by destruct (attempt <? retries - 1)%nat.
Qed.

Lemma write_attempts_cons (sheet_name : string) (data : list row) (retries attempt : nat)
    (rest : list nat) w :
  write_attempts sheet_name data retries (attempt :: rest) w =
  match write_attempt sheet_name data retries attempt w with
  | (w1, Ret (Return b)) => (w1, Ret b)
  | (w1, Ret Continue) => write_attempts sheet_name data retries rest w1
  | (w1, Raise e) => (w1, Raise e)
  end.
Proof.
  simpl. rewrite bind_unfold.
  by destruct (write_attempt _ _ _ _ w) as [w1 [[b|]|e]].
Qed.

Lemma remote_only_write_attempts (sheet_name : string) (data : list row) (retries : nat)
    (attempts : list nat) :
  remote_only (write_attempts sheet_name data retries attempts).
Proof.
  induction attempts as [|attempt rest IH]; intros w; [apply frame_refl|].
  rewrite write_attempts_cons, write_attempt_cycle.
  pose proof (remote_only_cycle sheet_name data w) as Hc.
  destruct (append_verify_cycle sheet_name data w) as [w1 [[]|e]]; simpl in Hc; [done|..];
    (destruct (attempt <? retries - 1)%nat; [|by (done || (eapply frame_trans; [exact Hc|apply IH]))];
     eapply frame_trans; [exact Hc|];
     eapply frame_trans; [apply remote_only_sleep|apply IH]).
Qed.

Lemma remote_only_write_robust (sheet_name : string) (data : list row) (retries : nat) :
  remote_only (write_to_google_sheets_robust sheet_name data retries).
Proof.
  unfold write_to_google_sheets_robust. destruct data; [apply remote_only_ret|].
  apply remote_only_write_attempts.
Qed.

(** The loop returns a verdict; when the verdict is success, the world it
    returns is the one left by a cycle whose verification passed. *)
Lemma write_attempts_verdict (sheet_name : string) (data : list row) (retries : nat)
    (attempts : list nat) w :
  exists w' b, write_attempts sheet_name data retries attempts w = (w', Ret b) /\
    (b = true -> exists w1, frame w w1 /\
                   append_verify_cycle sheet_name data w1 = (w', Ret true)).
Proof.
  revert w. induction attempts as [|attempt rest IH]; intros w.
  - exists w, false. by split.
  - rewrite write_attempts_cons, write_attempt_cycle.
    pose proof (remote_only_cycle sheet_name data w) as Hc.
    destruct (append_verify_cycle sheet_name data w) as [w1 [[]|e]] eqn:Ec; simpl in Hc.
    + exists w1, true. split; [done|]. intros _. exists w. split; [apply frame_refl|done].
    + destruct (attempt <? retries - 1)%nat.
      * destruct (IH (sleep (2 ^ Z.of_nat attempt) w1).1) as (w' & b & -> & Hb).
        exists w', b. split; [done|]. intros Ht. destruct (Hb Ht) as (w2 & Hf & Hcy).
        exists w2. split; [|done].
        eapply frame_trans; [exact Hc|]. eapply frame_trans; [apply remote_only_sleep|done].
      * exists w1, false. by split.
    + destruct (attempt <? retries - 1)%nat.
      * destruct (IH (sleep (2 ^ Z.of_nat attempt) w1).1) as (w' & b & -> & Hb).
        exists w', b. split; [done|]. intros Ht. destruct (Hb Ht) as (w2 & Hf & Hcy).
        exists w2. split; [|done].
        eapply frame_trans; [exact Hc|]. eapply frame_trans; [apply remote_only_sleep|done].
      * destruct (IH w1) as (w' & b & -> & Hb).
        exists w', b. split; [done|]. intros Ht. destruct (Hb Ht) as (w2 & Hf & Hcy).
        exists w2. split; [|done]. by eapply frame_trans.
Qed.

(** Three cycles whose verification fails exhaust the retries. *)
Lemma write_robust_three_failures (sheet_name : string) (data : list row) w w1 w2 w3 :
  data <> [] ->
  append_verify_cycle sheet_name data w = (w1, Ret false) ->
  append_verify_cycle sheet_name data (sleep 1 w1).1 = (w2, Ret false) ->
  append_verify_cycle sheet_name data (sleep 2 w2).1 = (w3, Ret false) ->
  write_to_google_sheets_robust sheet_name data 3 w = (w3, Ret false).
Proof.
  intros Hd H1 H2 H3. unfold write_to_google_sheets_robust.
  destruct data as [|r data]; [done|]. change (seq 0 3) with [0; 1; 2]%nat.
  rewrite write_attempts_cons, write_attempt_cycle, H1.
  change (0 <? 3 - 1)%nat with true. cbv beta iota.
  change (2 ^ Z.of_nat 0) with 1.
  rewrite write_attempts_cons, write_attempt_cycle, H2.
  change (1 <? 3 - 1)%nat with true. cbv beta iota.
  change (2 ^ Z.of_nat 1) with 2.
  rewrite write_attempts_cons, write_attempt_cycle, H3. done.
Qed.
End PipelineFacts.

(** ** Append with backup and ledger update *)

Section LedgerFacts.
Context {svc : Type} `{!Sheets svc}.
Implicit Types w : world svc.

Lemma load_local_counters_eq w : load_local_counters w = (w, Ret (ledger_of w)).
Proof.
  unfold load_local_counters, ledger_of.
  by destruct (files w !! CAMPAIGN_COUNTER_FILE) as [[]|].
Qed.

Lemma save_to_csv_eq (data : list row) (filename : string) w :
  data <> [] ->
  save_to_csv data filename w =
  if decide (filename ∈ readonly w) then (w, Raise OSError)
  else (World (remote w) (<[filename := FCsv data]> (files w)) (readonly w) (now w)
          (trace w ++ [ECsvWrite filename data]), Ret tt).
Proof. intros Hd. unfold save_to_csv. by destruct data. Qed.

Lemma save_local_counters_eq (counters : gmap string jval) w :
  save_local_counters counters w =
  if decide (CAMPAIGN_COUNTER_FILE ∈ readonly w) then (w, Ret tt)
  else (World (remote w) (<[CAMPAIGN_COUNTER_FILE := FJson counters]> (files w))
          (readonly w) (now w) (trace w ++ [ECounterSave counters]), Ret tt).
Proof.
  unfold save_local_counters, try_except, write_file. by case_decide.
Qed.

(** What [update_counters_after_processing] stores. *)
Lemma update_counters_spec (counters counters' : gmap string jval)
    (sheet_type campaign environment : string) (n t : Z) :
  update_counters_after_processing counters sheet_type n campaign environment t
    = Ret counters' ->
  exists kind total,
    count_of counters (sheet_type ++ "_count") = Some kind /\
    count_of counters "total_processed" = Some total /\
    counters' !! (sheet_type ++ "_count") = Some (JInt (kind + n)) /\
    counters' !! "total_processed" = Some (JInt (total + n)) /\
    counters' !! "last_updated" = Some (JTime t) /\
    counters' !! "campaign" = Some (JStr campaign) /\
    counters' !! "environment" = Some (JStr environment).
Proof.
  unfold update_counters_after_processing, counter_add, count_of.
  destruct (kind_key_fresh sheet_type) as (H1 & H2 & H3 & H4).
  destruct (default (JInt 0) (counters !! (sheet_type ++ "_count"))) as [kind| |];
    [|done..].
  destruct (default (JInt 0) (counters !! "total_processed")) as [total| |]; [|done..].
  simpl. intros [= <-]. exists kind, total.
  repeat split; by simplify_map_eq.
Qed.

(** The runs of [append_to_sheet] on a batch that is not empty. *)
Lemma append_to_sheet_run (sheet_name : string) (data : list row)
    (sheet_type campaign environment : string) w :
  data <> [] ->
  let f := backup_filename sheet_type in
  ((f ∈ readonly w) /\
   append_to_sheet sheet_name data sheet_type campaign environment w = (w, Ret 0)) \/
  ((f ∉ readonly w) /\
   exists wb w2 b,
     save_to_csv data f w = (wb, Ret tt) /\
     files wb = <[f := FCsv data]> (files w) /\
     trace wb = (trace w ++ [ECsvWrite f data])%list /\
     write_to_google_sheets_robust sheet_name data 3 wb = (w2, Ret b) /\
     frame wb w2 /\
     (b = true -> exists w1, frame wb w1 /\
                    append_verify_cycle sheet_name data w1 = (w2, Ret true)) /\
     exists w' r,
       append_to_sheet sheet_name data sheet_type campaign environment w = (w', Ret r) /\
       (b = false -> r = 0) /\
       ((w' = w2 /\ (b = false \/ CAMPAIGN_COUNTER_FILE ∈ readonly w2 \/
                    exists e, update_counters_after_processing (ledger_of w2) sheet_type
                                (Z.of_nat (length data)) campaign environment (now w2)
                              = Raise e)) \/
        (b = true /\ exists counters',
           update_counters_after_processing (ledger_of w2) sheet_type
             (Z.of_nat (length data)) campaign environment (now w2) = Ret counters' /\
           files w' = <[CAMPAIGN_COUNTER_FILE := FJson counters']> (files w2) /\
           trace w' = (trace w2 ++ [ECounterSave counters'])%list))).
Proof.
  intros Hd f. destruct data as [|first rest] eqn:Ed; [done|]. rewrite <- Ed in *.
  assert (append_to_sheet sheet_name data sheet_type campaign environment w =
          try_except
            (_ ← save_to_csv data f;
             sheets_success ← write_to_google_sheets_robust sheet_name data 3;
             if (sheets_success : bool) then
               counters ← load_local_counters;
               t ← get_now;
               updated_counters ← lift (update_counters_after_processing counters
                                          sheet_type (Z.of_nat (length data))
                                          campaign environment t);
               _ ← save_local_counters updated_counters;
               ret (Z.of_nat (length data) * Z.of_nat (length first))
             else ret 0)
            (fun _ => ret 0) w) as -> by (by subst data).
  unfold try_except. rewrite bind_unfold, save_to_csv_eq by done.
  case_decide as Hro; [by left|right]. split; [done|].
  set (wb := World _ _ _ _ _).
  destruct (write_attempts_verdict sheet_name data 3 (seq 0 3) wb) as (w2 & b & Hw & Hb).
  assert (write_to_google_sheets_robust sheet_name data 3 wb = (w2, Ret b)) as Hrob
    by (unfold write_to_google_sheets_robust; by subst data).
  pose proof (remote_only_write_robust sheet_name data 3 wb) as Hfr.
  rewrite Hrob in Hfr. simpl in Hfr.
  exists wb, w2, b. do 6 (split; [done|]).
  rewrite bind_unfold, Hrob. destruct b.
  - rewrite bind_unfold, load_local_counters_eq, bind_unfold. unfold get_now at 1.
    rewrite bind_unfold. unfold lift at 1.
    destruct (update_counters_after_processing _ _ _ _ _ _) as [counters'|e] eqn:Eu.
    + rewrite bind_unfold, save_local_counters_eq. case_decide as Hro2.
      * eexists _, _. do 2 (split; [done|]). left. split; [done|]. right. by left.
      * eexists _, _. do 2 (split; [done|]). right. split; [done|]. exists counters'. done.
    + eexists _, _. do 2 (split; [done|]). left. split; [done|]. right. right. eauto.
  - eexists _, _. do 2 (split; [done|]). left. split; [done|]. by left.
Qed.

(** C2. For a batch that is not empty: when the append-verify cycle fails
    its verification on each of the three attempts, the write pipeline
    returns failure, [append_to_sheet] reports nothing written and the
    counter file is what it was (counts and time stamp alike); and whenever
    the counter file changes, a cycle whose verification passed has just
    ended, and the per-kind count and the total are the former ones plus
    the size of the batch. *)
Theorem ledger_advances_only_after_verified_write (sheet_name : string)
    (data : list row) (sheet_type campaign environment : string) w :
  data <> [] ->
  let run := append_to_sheet sheet_name data sheet_type campaign environment w in
  (forall wb w1 w2 w3,
     save_to_csv data (backup_filename sheet_type) w = (wb, Ret tt) ->
     append_verify_cycle sheet_name data wb = (w1, Ret false) ->
     append_verify_cycle sheet_name data (sleep 1 w1).1 = (w2, Ret false) ->
     append_verify_cycle sheet_name data (sleep 2 w2).1 = (w3, Ret false) ->
     write_to_google_sheets_robust sheet_name data 3 wb = (w3, Ret false) /\
     run = (w3, Ret 0) /\
     files w3 !! CAMPAIGN_COUNTER_FILE = files w !! CAMPAIGN_COUNTER_FILE) /\
  (files run.1 !! CAMPAIGN_COUNTER_FILE <> files w !! CAMPAIGN_COUNTER_FILE ->
   exists w1 w2 counters' kind total,
     append_verify_cycle sheet_name data w1 = (w2, Ret true) /\
     trace run.1 = (trace w2 ++ [ECounterSave counters'])%list /\
     files run.1 !! CAMPAIGN_COUNTER_FILE = Some (FJson counters') /\
     count_of (ledger_of w) (sheet_type ++ "_count") = Some kind /\
     count_of (ledger_of w) "total_processed" = Some total /\
     counters' !! (sheet_type ++ "_count")
       = Some (JInt (kind + Z.of_nat (length data))) /\
     counters' !! "total_processed" = Some (JInt (total + Z.of_nat (length data))) /\
     counters' !! "last_updated" = Some (JTime (now w2))).
Proof.
  intros Hd run.
  pose proof (backup_filename_not_counter_file sheet_type) as Hne.
  destruct (append_to_sheet_run sheet_name data sheet_type campaign environment w Hd)
    as [[Hro Hrun] | (Hro & wb & w2 & b & Hsave & Hfb & Htb & Hrob & Hfr & Hb
                      & w' & r & Hrun & Hr & Hcases)];
    fold run in Hrun.
  - split.
    + intros wb w1 w2 w3 Hsave. rewrite save_to_csv_eq in Hsave by done.
      by rewrite decide_True in Hsave.
    + rewrite Hrun. done.
  - assert (files w2 !! CAMPAIGN_COUNTER_FILE = files w !! CAMPAIGN_COUNTER_FILE) as Hsame.
    { destruct Hfr as (-> & _). rewrite Hfb. by rewrite lookup_insert_ne. }
    split.
    + intros wb' w1 w2' w3 Hsave' H1 H2 H3. rewrite Hsave in Hsave'.
      injection Hsave' as <-.
      pose proof (write_robust_three_failures sheet_name data wb w1 w2' w3 Hd H1 H2 H3)
        as Hrob'.
      rewrite Hrob in Hrob'. injection Hrob' as -> ->.
      split; [done|]. rewrite Hrun.
      destruct Hcases as [[-> _] | [Hb' _]]; [|done].
      by rewrite Hr.
    + rewrite Hrun. simpl. intros Hchg.
      destruct Hcases as [[-> _] | (-> & counters' & Hupd & Hfiles & Htrace)]; [done|].
      destruct (Hb eq_refl) as (w1 & _ & Hcycle).
      assert (ledger_of w2 = ledger_of w) as Hled by (unfold ledger_of; by rewrite Hsame).
      rewrite Hled in Hupd.
      destruct (update_counters_spec _ _ _ _ _ _ _ Hupd)
        as (kind & total & Hk & Ht & Hk' & Ht' & Hl' & _).
      exists w1, w2, counters', kind, total.
      rewrite Hfiles, lookup_insert_eq. done.
Qed.
End LedgerFacts.

Lemma ledger_advances_only_after_verified_write_witness :
  let run := append_to_sheet "Ctr Course Success" sample_batch "course_success"
               "whd-mar2025" "live" world_write_lost in
  run.2 = Ret 0 /\
  files run.1 !! CAMPAIGN_COUNTER_FILE = Some (FJson sample_ledger).
Proof.
  intros run.
  destruct (ledger_advances_only_after_verified_write "Ctr Course Success" sample_batch
              "course_success" "whd-mar2025" "live" world_write_lost) as [Hfail _];
    [done|].
  set (wb := (save_to_csv sample_batch (backup_filename "course_success")
                world_write_lost).1).
  set (w1 := (append_verify_cycle "Ctr Course Success" sample_batch wb).1).
  set (w2 := (append_verify_cycle "Ctr Course Success" sample_batch (sleep 1 w1).1).1).
  set (w3 := (append_verify_cycle "Ctr Course Success" sample_batch (sleep 2 w2).1).1).
  destruct (Hfail wb w1 w2 w3) as (_ & Hrun & Hfiles); [by vm_compute..|].
  fold run in Hrun. rewrite Hrun. simpl. split; [done|].
  rewrite Hfiles. by vm_compute.
Defined.

(** C7, as stated, fails: a backup file that holds an older row holds only
    the current batch after [append_to_sheet]; the older row is gone. *)
Lemma backup_is_replaced_counterexample :
  let run := append_to_sheet "Ctr Course Success" sample_batch "course_success"
               "whd-mar2025" "live" world_write_ok in
  files world_write_ok !! COURSE_SUCCESS_CSV_BACKUP = Some (FCsv [[PInt 1; PStr "C-201"]]) /\
  files run.1 !! COURSE_SUCCESS_CSV_BACKUP = Some (FCsv sample_batch) /\
  [PInt 1; PStr "C-201"] ∉ sample_batch.
Proof.
  split; [by vm_compute|]. split; [by vm_compute|].
  unfold sample_batch. intros Hin. apply list_elem_of_singleton in Hin. discriminate.
Qed.

(** ** Conversions of cells *)

(** [int(float(v))] raises nothing but these three exceptions. *)
Lemma int_float_exn (v : pyval) (e : exn) :
  int_float v = Raise e -> e = ValueError \/ e = TypeError \/ e = OverflowError.
Proof.
  unfold int_float, py_float, float_of_string, py_int.
  destruct v; simpl; repeat case_match; simpl; intros; simplify_eq; auto.
Qed.

(** ** Rows that the presence check skips *)

Lemma check_written_unverifiable (written_data : list row) (current_ids : gset Z)
    (verification_failed : bool) :
  Forall unverifiable written_data ->
  check_written written_data current_ids verification_failed = Ret verification_failed.
Proof.
  induction 1 as [|r rest Hr _ IH]; [done|]. simpl.
  destruct Hr as [-> | (c & cells & -> & Hc)]; [done|]. by rewrite Hc.
Qed.

Lemma text_batch_unverifiable : Forall unverifiable text_batch.
Proof.
  unfold text_batch.
  repeat (apply List.Forall_cons; [right; eexists _, _; split; [done | by vm_compute]|]).
  apply List.Forall_nil.
Qed.

(** C9, as stated, fails: a batch with no numeric first cell, every append
    accepted, and yet the pipeline reports failure, because the re-read
    returns a cell ([1.2.3]) that passes the digits-and-dots test and that
    [float] rejects outside any per-row handler. *)
Lemma text_batch_rejected_counterexample :
  Forall unverifiable text_batch /\
  appends (remote world_dotted_cell) = [Ret tt; Ret tt; Ret tt] /\
  reread_ids column_with_dotted_cell = Raise ValueError /\
  (verify_write_success "Ad LP Success" text_batch world_dotted_cell).2 = Ret false /\
  (write_to_google_sheets_robust "Ad LP Success" text_batch 3 world_dotted_cell).2
    = Ret false.
Proof.
  split; [apply text_batch_unverifiable | by vm_compute].
Qed.

Section VerificationFacts.
Context {svc : Type} `{!Sheets svc}.
Implicit Types w : world svc.

(** C9, amended. A written row with no cell, or whose first cell makes
    [float] raise [ValueError], is skipped by the presence check; so a
    batch made of such rows passes the verification, and the write is
    reported successful at the first attempt, whenever the append call
    returns, the re-read call returns, and the identifiers of the re-read
    column convert without raising. *)
Theorem unverifiable_batch_passes (sheet_name : string) (data : list row)
    w w1 w2 (values : list row) (current_ids : gset Z) :
  data <> [] ->
  Forall unverifiable data ->
  api_append (sheet_name ++ "!A2") data w = (w1, Ret tt) ->
  api_get (sheet_name ++ "!A:A") (sleep 3 w1).1 = (w2, Ret values) ->
  reread_ids values = Ret current_ids ->
  verify_write_success sheet_name data w1 = (w2, Ret true) /\
  write_to_google_sheets_robust sheet_name data 3 w = (w2, Ret true).
Proof.
  intros Hd Hun Happ Hget Hids.
  assert ((length data <=? 0)%nat = false) as Hlen by (by destruct data).
  assert (write_to_google_sheets_robust sheet_name data 3 w =
          write_attempts sheet_name data 3 [0; 1; 2]%nat w) as Hrob by (by destruct data).
  assert (verify_write_success sheet_name data w1 = (w2, Ret true)) as Hver.
  { unfold verify_write_success, try_except. rewrite Hlen, bind_unfold.
    change (sleep 3 w1) with ((sleep 3 w1).1, @Ret unit tt). cbv beta iota.
    rewrite bind_unfold, Hget. cbv beta iota.
    rewrite bind_unfold. unfold lift at 1. rewrite Hids. cbv beta iota.
    rewrite bind_unfold. unfold lift at 1.
    by rewrite check_written_unverifiable. }
  split; [done|].
  rewrite Hrob, write_attempts_cons, write_attempt_cycle.
  unfold append_verify_cycle. by rewrite bind_unfold, Happ, Hver.
Qed.
End VerificationFacts.

Lemma unverifiable_batch_passes_witness :
  (write_to_google_sheets_robust "Ad LP Success" text_batch 3 world_plain_column).2
    = Ret true.
Proof.
  set (w1 := (api_append "Ad LP Success!A2" text_batch world_plain_column).1).
  set (w2 := (api_get "Ad LP Success!A:A" (sleep 3 w1).1).1).
  destruct (unverifiable_batch_passes "Ad LP Success" text_batch world_plain_column
              w1 w2 column_without_7 {[1]}) as [_ Hw]; [done| |by vm_compute..|].
  - apply text_batch_unverifiable.
  - by rewrite Hw.
Defined.

(** ** Key resolver *)

(** *** The test on a cell, against the words of the specification *)

Lemma blank_is_space (c : ascii) : blank c <-> is_space c = true.
Proof.
  unfold blank.
  assert (is_space c
          = existsb (Nat.eqb (nat_of_ascii c)) [9; 10; 11; 12; 13; 28; 29; 30; 31; 32]%nat)
    as -> by (destruct c as [[] [] [] [] [] [] [] []]; reflexivity).
  rewrite existsb_exists. split.
  - intros Hin. exists (nat_of_ascii c). split; [by apply list_elem_of_In|].
    apply Nat.eqb_refl.
  - intros (n & Hin & ->%Nat.eqb_eq). by apply list_elem_of_In.
Qed.

Lemma decimal_digit_is_digit (c : ascii) : decimal_digit c <-> is_digit c = true.
Proof.
  unfold decimal_digit.
  assert (is_digit c = existsb (Ascii.eqb c) (list_ascii_of_string "0123456789"))
    as -> by (destruct c as [[] [] [] [] [] [] [] []]; reflexivity).
  rewrite existsb_exists. split.
  - intros Hin. exists c. split; [by apply list_elem_of_In|]. apply Ascii.eqb_refl.
  - intros (d & Hin & ->%Ascii.eqb_eq). by apply list_elem_of_In.
Qed.

Lemma filled_truthy (c : pyval) : filled c <-> truthy c = true.
Proof.
  unfold filled. destruct c as [|z|s]; cbn.
  - split; [by intros (? & _)|done].
  - rewrite negb_true_iff, Z.eqb_neq. split; [intros (_ & _ & Hz) ->; done|].
    intros Hz. repeat split; congruence.
  - rewrite negb_true_iff. destruct (String.eqb_spec s "") as [->|Hne].
    + split; [by intros (_ & ? & _)|done].
    + split; [done|]. intros _. repeat split; congruence.
Qed.

Lemma digit_or_dot_not_space (c : ascii) :
  is_digit c || Ascii.eqb c "." = true -> is_space c = false.
Proof. destruct c as [[] [] [] [] [] [] [] []]; by vm_compute. Qed.

Lemma digits_dots_head (c : ascii) (s : string) :
  all_digits (remove_dots (String c s)) = true ->
  is_digit c || Ascii.eqb c "." = true /\ all_digits (remove_dots s) = true.
Proof.
  cbn. destruct (Ascii.eqb c "."); [by rewrite orb_true_r|].
  cbn. rewrite orb_false_r. by intros ?%andb_prop.
Qed.

Lemma lstrip_digits_dots (s : string) :
  all_digits (remove_dots s) = true -> lstrip_by is_space s = s.
Proof.
  destruct s as [|c s]; [done|]. intros [Hc _]%digits_dots_head.
  cbn. by rewrite (digit_or_dot_not_space c Hc).
Qed.

Lemma rstrip_digits_dots (s : string) :
  all_digits (remove_dots s) = true -> rstrip_by is_space s = s.
Proof.
  induction s as [|c s IH]; [done|]. intros [Hc Hs]%digits_dots_head.
  cbn. rewrite (IH Hs), (digit_or_dot_not_space c Hc). by destruct s.
Qed.

(** A text of digits and dots has no white space to strip. *)
Lemma strip_digits_dots (s : string) : isdigit (remove_dots s) = true -> strip s = s.
Proof.
  unfold isdigit. intros [_ Hs]%andb_prop. unfold strip, strip_by.
  by rewrite lstrip_digits_dots, rstrip_digits_dots.
Qed.

(** What the two strips remove is white space. *)
Lemma lstrip_by_split (p : ascii -> bool) (s : string) :
  exists pre, s = pre ++ lstrip_by p s /\
              Forall (fun c => p c = true) (list_ascii_of_string pre).
Proof.
  induction s as [|c s (pre & Hs & Hpre)]; [by exists ""|]. cbn [lstrip_by].
  destruct (p c) eqn:Hc; [|by exists ""].
  exists (String c pre). split; [rewrite append_cons; by f_equal|by constructor].
Qed.

Lemma rstrip_by_split (p : ascii -> bool) (s : string) :
  exists post, s = rstrip_by p s ++ post /\
               Forall (fun c => p c = true) (list_ascii_of_string post).
Proof.
  induction s as [|c s (post & Hs & Hpost)]; [by exists ""|]. cbn [rstrip_by].
  destruct (rstrip_by p s) as [|d t] eqn:Ht.
  - rewrite append_nil_l in Hs. subst post. destruct (p c) eqn:Hc.
    + exists (String c s). split; [done|by constructor].
    + exists s. by split.
  - exists post. split; [|done]. rewrite append_cons. by f_equal.
Qed.

Lemma lstrip_by_app (p : ascii -> bool) (pre s : string) :
  Forall (fun c => p c = true) (list_ascii_of_string pre) ->
  lstrip_by p (pre ++ s) = lstrip_by p s.
Proof.
  induction pre as [|c pre IH]; [done|]. intros [Hc Hpre]%Forall_cons.
  rewrite append_cons. cbn [lstrip_by]. rewrite Hc. by apply IH.
Qed.

Lemma rstrip_by_blank (p : ascii -> bool) (post : string) :
  Forall (fun c => p c = true) (list_ascii_of_string post) -> rstrip_by p post = "".
Proof.
  induction post as [|c post IH]; [done|]. intros [Hc Hpost]%Forall_cons.
  cbn [rstrip_by]. by rewrite IH, Hc.
Qed.

Lemma rstrip_by_app (p : ascii -> bool) (s post : string) :
  Forall (fun c => p c = true) (list_ascii_of_string post) ->
  rstrip_by p (s ++ post) = rstrip_by p s.
Proof.
  intros Hpost. induction s as [|c s IH]; [by apply rstrip_by_blank|].
  rewrite append_cons. cbn [rstrip_by]. by rewrite IH.
Qed.

Lemma all_digits_remove_dots (s : string) :
  all_digits (remove_dots s) = true <->
  Forall (fun c => decimal_digit c \/ c = "."%char) (list_ascii_of_string s).
Proof.
  induction s as [|c s IH]; [by split; [constructor|]|]. cbn.
  rewrite Forall_cons, <- IH. destruct (Ascii.eqb_spec c ".") as [->|Hne].
  - split; [by split; [right|]|by intros [_ ?]].
  - cbn. rewrite andb_true_iff, decimal_digit_is_digit. split.
    + intros [? ?]. split; [by left|done].
    + intros [[?|?] ?]; done.
Qed.

Lemma remove_dots_empty (s : string) :
  all_digits (remove_dots s) = true ->
  remove_dots s <> "" <-> Exists decimal_digit (list_ascii_of_string s).
Proof.
  induction s as [|c s IH]; cbn.
  - intros _. split; [done|]. by intros ?%Exists_nil.
  - rewrite Exists_cons. destruct (Ascii.eqb_spec c ".") as [->|Hne].
    + intros Hs. rewrite (IH Hs). split; [by right|].
      intros [Hd|?]; [|done]. apply decimal_digit_is_digit in Hd. done.
    + cbn. intros [Hc Hs]%andb_prop. split; [|done]. intros _. left.
      by apply decimal_digit_is_digit.
Qed.

(** The test of the resolver on the text of a cell is the specification's
    "decimal-looking". *)
Lemma decimal_looking_test (s : string) :
  decimal_looking s <-> isdigit (remove_dots (strip s)) = true.
Proof.
  assert (forall t, Forall blank (list_ascii_of_string t) <->
                    Forall (fun c => is_space c = true) (list_ascii_of_string t)) as Hblank.
  { intros t. apply Forall_proper; [|done]. intros c. apply blank_is_space. }
  unfold isdigit. rewrite andb_true_iff, negb_true_iff. split.
  - intros (pre & body & post & -> & Hpre & Hpost & Hbody & Hdigit).
    apply Hblank in Hpre, Hpost. apply all_digits_remove_dots in Hbody.
    assert (strip (pre ++ body ++ post) = body) as ->.
    { unfold strip, strip_by. rewrite lstrip_by_app by done.
      assert (lstrip_by is_space (body ++ post) = body ++ post) as ->.
      { destruct body as [|c body]; [by apply Exists_nil in Hdigit|].
        apply digits_dots_head in Hbody as [Hc _].
        rewrite append_cons. cbn [lstrip_by].
        by rewrite (digit_or_dot_not_space c Hc). }
      rewrite rstrip_by_app by done. by apply rstrip_digits_dots. }
    split; [|done]. apply String.eqb_neq. by apply remove_dots_empty.
  - intros [Hne%String.eqb_neq Hall].
    destruct (lstrip_by_split is_space s) as (pre & Hs & Hpre).
    destruct (rstrip_by_split is_space (lstrip_by is_space s)) as (post & Ht & Hpost).
    exists pre, (strip s), post. unfold strip, strip_by in *.
    split; [by rewrite <- Ht|]. split; [by apply Hblank|]. split; [by apply Hblank|].
    split; [by apply all_digits_remove_dots|]. by apply remove_dots_empty.
Qed.

Lemma round_half_even_1 (a : Z) : round_half_even a 1 = a.
Proof.
  unfold round_half_even. rewrite Z.div_1_r, Z.mod_1_r. done.
Qed.

(** A natural number below [2^53] is a double, and truncating that double
    gives the number back. *)
Lemma round_binary64_exact (n : Z) :
  0 <= n < 2 ^ 53 ->
  exists m p, round_binary64 n 1 = Some (m, p) /\
              (if 0 <=? p then m * 2 ^ p else m / 2 ^ (- p)) = n.
Proof.
  intros [Hn0 Hn]. unfold round_binary64.
  destruct (Z.eqb_spec n 0) as [->|Hne]; [by exists 0, 0|].
  assert (Hpos : 0 < n) by lia.
  change (Z.log2 1) with 0. rewrite Z.sub_0_r, Z.mul_1_l.
  pose proof (Z.log2_nonneg n) as He0.
  destruct (Z.log2_spec n Hpos) as [Hlo Hhi].
  assert (He : Z.log2 n < 53).
  { apply (Z.pow_lt_mono_r_iff 2); lia. }
  set (e0 := Z.log2 n) in *.
  destruct (Z.leb_spec 0 e0); [|lia].
  destruct (Z.ltb_spec n (2 ^ e0)); [lia|].
  rewrite Z.max_l by lia.
  destruct (Z.leb_spec 0 (e0 - 52)) as [Hp|Hp].
  - assert (e0 = 52) as -> by lia. change (52 - 52) with 0.
    change (2 ^ 0) with 1. rewrite Z.mul_1_r, round_half_even_1.
    exists n, 0. cbn. split; [done|lia].
  - rewrite round_half_even_1.
    destruct (Z.ltb_spec 971 (e0 - 52)); [lia|].
    destruct (Z.eqb_spec (e0 - 52) 971); [lia|]. cbn [orb andb].
    eexists _, _. split; [reflexivity|].
    destruct (Z.leb_spec 0 (e0 - 52)); [lia|].
    apply Z.div_mul. apply Z.pow_nonzero; lia.
Qed.

(** *** Numerals *)












(** *** The loop over the rows *)

Lemma extract_ids_cons (r : row) (rest : list row) (existing_ids : gset Z) :
  extract_ids (r :: rest) existing_ids =
  match r with
  | c :: _ =>
      if truthy c then
        if isdigit (remove_dots (strip (py_str c))) then
          match int_float c with
          | Ret z => extract_ids rest ({[z]} ∪ existing_ids)
          | Raise ValueError | Raise TypeError | Raise IndexError =>
              extract_ids rest existing_ids
          | Raise e => (existing_ids, Raise e)
          end
        else extract_ids rest existing_ids
      else extract_ids rest existing_ids
  | [] => extract_ids rest existing_ids
  end.
Proof. reflexivity. Qed.

(** One pass through the loop: the row gives an identifier, or stops the
    loop, or is skipped. *)
Lemma extract_ids_step (r : row) (rest : list row) (existing_ids : gset Z) :
  (exists z, numeric_id r z /\
     extract_ids (r :: rest) existing_ids = extract_ids rest ({[z]} ∪ existing_ids)) \/
  (stops r /\ extract_ids (r :: rest) existing_ids = (existing_ids, Raise OverflowError)) \/
  ((forall z, ~ numeric_id r z) /\ ~ stops r /\
   extract_ids (r :: rest) existing_ids = extract_ids rest existing_ids).
Proof.
  rewrite extract_ids_cons. destruct r as [|c cells].
  { right. right. split; [|split; [|done]]; by intros; intros (c & cells & ? & _). }
  destruct (truthy c) eqn:Et; cycle 1.
  { right. right. split; [|split; [|done]].
    - intros z (c' & cells' & [= <- <-] & ?%filled_truthy & _). congruence.
    - intros (c' & cells' & [= <- <-] & ?%filled_truthy & _). congruence. }
  destruct (isdigit (remove_dots (strip (py_str c)))) eqn:Ed; cycle 1.
  { right. right. split; [|split; [|done]].
    - intros z (c' & cells' & [= <- <-] & _ & ?%decimal_looking_test & _). congruence.
    - intros (c' & cells' & [= <- <-] & _ & ?%decimal_looking_test & _). congruence. }
  apply filled_truthy in Et. apply decimal_looking_test in Ed.
  destruct (int_float c) as [z|e] eqn:Ec.
  - left. exists z. split; [|done]. by exists c, cells.
  - assert (forall z, ~ numeric_id (c :: cells) z) as Hnot.
    { intros z (c' & cells' & [= <- <-] & _ & _ & Hz). congruence. }
    destruct (int_float_exn c e Ec) as [-> | [-> | ->]].
    + right. right. split; [done|]. split; [|done].
      intros (c' & cells' & [= <- <-] & _ & _ & Hz). congruence.
    + right. right. split; [done|]. split; [|done].
      intros (c' & cells' & [= <- <-] & _ & _ & Hz). congruence.
    + right. left. split; [|done]. by exists c, cells.
Qed.

(** The loop over rows none of which stops it: it ends normally and adds
    the numeric identifiers, nothing else. *)
Lemma extract_ids_clean (values : list row) (existing_ids : gset Z) :
  Forall (fun r => ~ stops r) values ->
  exists ids, extract_ids values existing_ids = (ids, Ret tt) /\
    forall z, z ∈ ids <-> z ∈ existing_ids \/ exists r, r ∈ values /\ numeric_id r z.
Proof.
  intros Hno. revert existing_ids.
  induction Hno as [|r rest Hr _ IH]; intros acc.
  - exists acc. split; [done|]. intros z. split; [by left|].
    intros [?|(r & Hin & _)]; [done|]. by apply elem_of_nil in Hin.
  - destruct (extract_ids_step r rest acc)
      as [(z0 & Hz0 & ->) | [[Hstop _] | (Hnot & _ & ->)]]; [| done |].
    + destruct (IH ({[z0]} ∪ acc)) as (ids & -> & Hids). exists ids. split; [done|].
      intros z. rewrite Hids, elem_of_union, elem_of_singleton. split.
      * intros [[->|?]|(r' & Hin & Hnum)]; [|by left|].
        -- right. exists r. split; [left|done].
        -- right. exists r'. split; [by right|done].
      * intros [?|(r' & Hin & Hnum)]; [left; by right|].
        apply elem_of_cons in Hin as [->|Hin]; [|right; eauto].
        left. left. destruct Hnum as (c & cells & -> & _ & _ & Hz).
        destruct Hz0 as (c' & cells' & [= <- <-] & _ & _ & Hz'). congruence.
    + destruct (IH acc) as (ids & -> & Hids). exists ids. split; [done|].
      intros z. rewrite Hids. split.
      * intros [?|(r' & Hin & Hnum)]; [by left|]. right. exists r'. split; [by right|done].
      * intros [?|(r' & Hin & Hnum)]; [by left|].
        apply elem_of_cons in Hin as [->|Hin]; [by destruct (Hnot z)|]. right. eauto.
Qed.


(** A row that stops the loop is a row whose conversion overflows. *)
Lemma stops_overflows (r : row) : stops r -> overflows r.
Proof. intros (c & cells & -> & _ & _ & Hc). by exists c, cells. Qed.

(** The loop over the data rows, when no conversion overflows: it ends
    normally and adds the numeric identifiers, nothing else. *)
Lemma extract_ids_spec (values : list row) (existing_ids : gset Z) :
  Forall (fun r => ~ overflows r) values ->
  exists ids, extract_ids values existing_ids = (ids, Ret tt) /\
    forall z, z ∈ ids <-> z ∈ existing_ids \/ exists r, r ∈ values /\ numeric_id r z.
Proof.
  intros Hno. apply extract_ids_clean.
  eapply Forall_impl; [exact Hno|]. intros r Hr Hs. by apply Hr, stops_overflows.
Qed.

Section ResolverFacts.
Context {svc : Type} `{!Sheets svc}.
Implicit Types w : world svc.


Lemma backoff_world (retries attempt : nat) w :
  backoff retries attempt w =
  (if (attempt <? retries - 1)%nat
   then World (remote w) (files w) (readonly w) (now w + 2 ^ Z.of_nat attempt)
          (trace w ++ [ESleep (2 ^ Z.of_nat attempt)])
   else w, Ret tt).
Proof. unfold backoff. by destruct (attempt <? retries - 1)%nat. Qed.

Lemma read_ids_attempts_cons (sheet_name : string) (retries attempt : nat)
    (rest : list nat) (existing_ids : gset Z) w :
  read_ids_attempts sheet_name retries (attempt :: rest) existing_ids w =
  match api_get (sheet_name ++ "!A:A") w with
  | (w1, Ret values) =>
      match extract_ids (tail values) existing_ids with
      | (ids, Ret _) => (w1, Ret ids)
      | (ids, Raise _) =>
          read_ids_attempts sheet_name retries rest ids (backoff retries attempt w1).1
      end
  | (w1, Raise _) =>
      read_ids_attempts sheet_name retries rest existing_ids
        (backoff retries attempt w1).1
  end.
Proof.
  cbn [read_ids_attempts]. destruct (api_get _ w) as [w1 [values|e]].
  - destruct (extract_ids _ _) as [ids [[]|e]]; [done|].
    unfold bind. by rewrite backoff_world.
  - unfold bind. by rewrite backoff_world.
Qed.

End ResolverFacts.








(** ** Merge reconciler *)

(** *** The ordered dictionary and the map it stands for *)






(** *** Padding and keys *)


Lemma pad_row_key (headers r : row) (key : string) :
  row_key r = Some key -> row_key (pad_row headers r) = Some key.
Proof. by destruct r. Qed.


(** *** The map filled from one source *)




Lemma dict_values_keys (d : odict) :
  (forall k v, (k, v) ∈ d -> row_key v = Some k) ->
  row_key <$> dict_values d = Some <$> d.*1.
Proof.
  unfold dict_values. induction d as [|[k v] d IH]; intros Hd; simpl; [done|].
  rewrite (Hd k v) by left. f_equal. apply IH. intros k' v' Hin. apply Hd. by right.
Qed.


(** *** Idempotence *)



Section MergeFacts.
Context {svc : Type} `{!Sheets svc}.
Implicit Types w : world svc.


End MergeFacts.


(** ** Filter builder *)

(** [sep.join(items)] is the concatenation of the standard library. *)
Lemma join_concat (sep : string) (items : list string) :
  join sep items = String.concat sep items.
Proof. induction items as [|x [|y items] IH]; [done..|]. cbn in *. by rewrite IH. Qed.

(** The text of a joined list in front of a part of it that is not empty,
    and what an item put in front of that part adds. *)
Lemma join_insert (sep : string) (a b : list string) :
  b <> [] ->
  exists before : string,
    (before = "" \/ exists c, before = c ++ sep) /\
    join sep (a ++ b) = before ++ join sep b /\
    forall x, join sep (a ++ x :: b) = before ++ x ++ sep ++ join sep b.
Proof.
  intros Hb. induction a as [|y a (before & Hshape & Hnone & Hsome)].
  - exists "". split; [by left|]. split; [done|]. intros x. cbn [app].
    destruct b; [done|]. reflexivity.
  - exists (y ++ sep ++ before). split; [|split].
    + right. destruct Hshape as [->|[c ->]].
      * exists y. by rewrite append_nil_r.
      * exists (y ++ sep ++ c). by rewrite !append_assoc.
    + cbn [app]. destruct (a ++ b)%list as [|z l] eqn:El.
      { by destruct a, b. }
      change (join sep (y :: z :: l)) with (y ++ sep ++ join sep (z :: l)).
      by rewrite Hnone, !append_assoc.
    + intros x. cbn [app]. specialize (Hsome x).
      destruct (a ++ x :: b)%list as [|z l] eqn:El.
      { by destruct a. }
      change (join sep (y :: z :: l)) with (y ++ sep ++ join sep (z :: l)).
      by rewrite Hsome, !append_assoc.
Qed.

Lemma status_clause_known (cfg : config) (status_type : string) :
  status_type = "success" \/ is_Some (status_types cfg !! status_type) ->
  exists c, status_clause cfg status_type = Ret c.
Proof.
  unfold status_clause. intros [->|[code Hc]]; [by eexists|].
  destruct (String.eqb status_type "success"); [by eexists|]. rewrite Hc. by eexists.
Qed.

Lemma status_clause_unknown (cfg : config) (status_type : string) :
  ~ (status_type = "success" \/ is_Some (status_types cfg !! status_type)) ->
  status_clause cfg status_type = Raise KeyError.
Proof.
  unfold status_clause. intros Hn.
  destruct (String.eqb_spec status_type "success") as [->|_]; [by destruct Hn; left|].
  destruct (status_types cfg !! status_type) eqn:E; [|done].
  destruct Hn. right. by eexists.
Qed.

Section BuilderFacts.
Context {order : SetOrder}.

(** A builder that joins its conditions with [AND], the filter on the
    known keys standing before a condition that is always there. *)
Lemma joined_query_excludes (a b : list string) :
  b <> [] ->
  excludes_known_keys
    (fun existing_ids =>
       Ret (sql_head ++ join " AND " (a ++ existing_ids_filter existing_ids ++ b) ++ sql_tail)).
Proof.
  intros Hb. destruct (join_insert " AND " a b Hb) as (before & Hshape & Hnone & Hsome).
  exists before, (join " AND " b). split; [done|]. split.
  - unfold existing_ids_filter. rewrite decide_True by done. cbn [app].
    by rewrite Hnone, !append_assoc.
  - intros known_keys Hne. exists (set_iter known_keys).
    split; [apply set_iter_perm|].
    unfold existing_ids_filter. rewrite decide_False by done. cbn [app].
    rewrite Hsome. unfold exclusion_clause, comma_join.
    by rewrite join_concat, !append_assoc.
Qed.

(** C5. For every campaign and every status name that the builders know
    ([success], or a name of [status_types]), in the course-based builder
    and in the landing-page-based builder alike: the query for a set of
    known keys that is not empty is the query for no known key with the
    clause [(cpd.`id` NOT IN (k1,...,kn))] put into its [WHERE] condition,
    followed by [AND]; the clause lists the numerals of the known keys,
    each key once, and of nothing else; the query for no known key has no
    such clause added.  For another status name both builders raise. *)
Theorem builders_exclude_known_keys (cfg : config) (campaign status_type : string) :
  let known := status_type = "success" \/ is_Some (status_types cfg !! status_type) in
  (known ->
   excludes_known_keys (build_course_query cfg campaign status_type) /\
   excludes_known_keys (build_landing_page_query cfg campaign status_type)) /\
  (~ known ->
   forall known_keys : gset Z,
     build_course_query cfg campaign status_type known_keys = Raise KeyError /\
     build_landing_page_query cfg campaign status_type known_keys = Raise KeyError).
Proof.
  cbv zeta. split.
  - intros [c Hc]%status_clause_known. split.
    + unfold build_course_query, course_where_clauses. rewrite Hc. cbn [mbind res_bind rbind].
      match goal with
      | |- excludes_known_keys
             (fun ids => Ret (_ ++ join _ (?c1 ++ ?c2 ++ _ ++ ?rest)%list ++ _)) =>
          pose proof (joined_query_excludes (c1 ++ c2) rest) as Hq
      end.
      destruct Hq as (before & after & Hshape & Hnone & Hsome); [by destruct (clause_if_in _ _ _)|].
      exists before, after. split; [done|]. split.
      * rewrite <- Hnone. by rewrite <- !app_assoc.
      * intros known_keys Hne. destruct (Hsome known_keys Hne) as (keys & Hperm & Hq).
        exists keys. split; [done|]. rewrite <- Hq. by rewrite <- !app_assoc.
    + unfold build_landing_page_query, landing_page_where_clauses. rewrite Hc.
      cbn [mbind res_bind rbind].
      match goal with
      | |- excludes_known_keys (fun ids => Ret (_ ++ join _ (?c1 ++ _ ++ ?rest)%list ++ _)) =>
          pose proof (joined_query_excludes c1 rest) as Hq
      end.
      destruct Hq as (before & after & Hshape & Hnone & Hsome); [by destruct (clause_if_in _ _ _)|].
      by exists before, after.
  - intros Hc%status_clause_unknown known_keys.
    unfold build_course_query, course_where_clauses, build_landing_page_query,
      landing_page_where_clauses. by rewrite Hc.
Qed.
End BuilderFacts.

Lemma builders_exclude_known_keys_witness :
  excludes_known_keys
    (build_course_query (order := library_order) sample_config "whd-mar2025" "failed") /\
  excludes_known_keys
    (build_landing_page_query (order := library_order) sample_config "whd-mar2025" "failed").
Proof.
  apply (builders_exclude_known_keys (order := library_order) sample_config "whd-mar2025"
           "failed").
  right. by eexists.
Defined.

(** ** Record transformer *)

Lemma getitem_Ret (r : gmap string pyval) (key : string) (v : pyval) :
  getitem r key = Ret v <-> r !! key = Some v.
Proof. unfold getitem. destruct (r !! key); split; congruence. Qed.

Lemma coalesce_Ret (r r' : dbrow) (key : string) (f : pyval -> pyval) :
  coalesce r key f = Ret r' <-> exists v, r !! key = Some v /\ r' = <[key := f v]> r.
Proof.
  unfold coalesce, getitem. destruct (r !! key) as [v|]; cbn; split.
  - intros H. injection H as <-. eauto.
  - intros (v' & Hv & ->). by injection Hv as <-.
  - done.
  - intros (v' & ? & _). done.
Qed.

(** The null-coalescing step succeeds exactly on rows that have the six
    columns, and rewrites only those. *)
Lemma coalesce_row_Ret (r r' : dbrow) :
  coalesce_row r = Ret r' ->
  exists email phone name pincode referal_site reg_utm_url,
    r !! "participant_email" = Some email /\
    r !! "participant_phone" = Some phone /\
    r !! "name" = Some name /\
    r !! "pincode" = Some pincode /\
    r !! "referal_site" = Some referal_site /\
    r !! "reg_utm_url" = Some reg_utm_url /\
    r' = <["reg_utm_url" := py_or reg_utm_url (PStr "")]>
         (<["referal_site" := py_or referal_site (PStr "")]>
         (<["pincode" := py_or pincode (PStr "")]>
         (<["name" := py_or name (PStr "")]>
         (<["participant_phone" := phone_text phone]>
         (<["participant_email" := py_or email (PStr "")]> r))))).
Proof.
  unfold coalesce_row. intros H.
  repeat match type of H with
         | ?m ≫= _ = Ret _ =>
             let E := fresh "E" in
             destruct m as [?|] eqn:E; cbn in H; [|discriminate H];
             apply coalesce_Ret in E as (? & ? & ->)
         end.
  apply coalesce_Ret in H as (? & ? & ->).
  repeat match goal with
         | Hl : <[_ := _]> _ !! _ = Some _ |- _ => rewrite lookup_insert_ne in Hl by done
         end.
  eexists _, _, _, _, _, _. repeat (split; [eassumption|]). reflexivity.
Qed.

Lemma phone_text_idemp (v : pyval) : phone_text (phone_text v) = phone_text v.
Proof.
  unfold phone_text. destruct (truthy v); [|done]. simpl.
  destruct (String.eqb_spec (py_str v) "") as [->|_]; done.
Qed.

Lemma process_rows_length `{!UrlLib} (cfg : config) (lps : list pyval)
    (status_type : string) (rows : list dbrow) (data result : list row) :
  process_rows cfg lps status_type rows data = Ret result ->
  length result = (length data + length rows)%nat.
Proof.
  revert data. induction rows as [|r rows IH]; intros data; simpl.
  - intros [= <-]. lia.
  - destruct (process_row cfg lps status_type r) as [out|]; [|done]. cbn.
    intros Hrest. rewrite (IH _ Hrest), length_app. simpl. lia.
Qed.

(** C8, as stated, fails in two ways.  With a registration address that
    [urlparse] rejects, an exception is raised during the URL extraction,
    and yet the output row is a normal one: its status is [Success] and
    its registration type [Other].  With a row whose status derivation
    raises, the output row is the degraded one, and its last-page cell is
    not blank: it holds the referral site. *)
Lemma degraded_row_counterexample :
  let lps := [PStr "lp/world-happiness-day"] in
  urlparse (UrlLib := failing_urllib) "http://[::1" = Raise ValueError /\
  (exists out,
     process_row (H := failing_urllib) sample_config lps "success" row_bad_url = Ret out /\
     out !! 7%nat = Some (PStr "Success") /\ out !! 19%nat = Some (PStr "Other")) /\
  (exists r' out,
     coalesce_row row_no_payment = Ret r' /\
     format_row (H := failing_urllib) sample_config lps "failed" r' = Raise KeyError /\
     process_row (H := failing_urllib) sample_config lps "failed" row_no_payment = Ret out /\
     out !! 7%nat = Some (PStr "Error") /\ out !! 19%nat = Some (PStr "Error") /\
     out !! 11%nat = Some (PStr "https://partner.example/article")).
Proof.
  intros lps. split; [done|]. split.
  - eexists. split; [by vm_compute|]. by split.
  - eexists _, _. split; [by vm_compute|]. split; [by vm_compute|].
    split; [by vm_compute|]. by repeat split.
Qed.

Section TransformerFacts.
Context `{!UrlLib}.

(** C8, amended. When the steps in the row's [try] let an exception out
    and the row has its identifying columns, the transformer emits one
    output row for it, the degraded row: reference, course id, course name
    and submission time as in the source row, name, e-mail and phone as
    after the null-coalescing step, referral site and registration address
    kept, first page, UTM fields and click id blank, the last-page cell
    holding the referral site, status and registration type [Error]; the
    loop goes on with the next row, and a batch that is returned has one
    row for each source row. *)
Theorem failed_row_degrades (cfg : config) (lps : list pyval) (status_type : string)
    (r r' : dbrow) (e : exn) (ref course_id title submitted_on : pyval)
    (rows : list dbrow) (data : list row) :
  coalesce_row r = Ret r' ->
  format_row cfg lps status_type r' = Raise e ->
  r !! "id" = Some ref ->
  r !! "accounting_course_id_201" = Some course_id ->
  r !! "title" = Some title ->
  r !! "submitted_on" = Some submitted_on ->
  exists name email phone referal_site reg_utm_url,
    r !! "name" = Some name /\
    r !! "participant_email" = Some email /\
    r !! "participant_phone" = Some phone /\
    r !! "referal_site" = Some referal_site /\
    r !! "reg_utm_url" = Some reg_utm_url /\
    let out := degraded_row ref course_id title (py_or name (PStr ""))
                 (py_or email (PStr "")) (phone_text phone) submitted_on
                 (py_or referal_site (PStr "")) (py_or reg_utm_url (PStr "")) in
    process_row cfg lps status_type r = Ret out /\
    process_rows cfg lps status_type (r :: rows) data
      = process_rows cfg lps status_type rows (data ++ [out])%list /\
    forall result,
      process_rows cfg lps status_type (r :: rows) data = Ret result ->
      length result = (length data + 1 + length rows)%nat.
Proof.
  intros Hco Hfmt Hid Hcid Htitle Hsub.
  destruct (coalesce_row_Ret r r' Hco)
    as (email & phone & name & pincode & referal_site & reg_utm_url
        & He & Hp & Hn & Hpi & Hrs & Hu & Hr').
  exists name, email, phone, referal_site, reg_utm_url.
  do 5 (split; [done|]). intros out.
  assert (process_row cfg lps status_type r = Ret out) as Hrow.
  { unfold process_row. rewrite Hco. cbn. rewrite Hfmt.
    unfold fallback_row, getitem. subst r'.
    repeat (rewrite ?lookup_insert_eq; rewrite ?lookup_insert_ne by done;
            rewrite ?Hid, ?Hcid, ?Htitle, ?Hsub; cbn).
    by rewrite phone_text_idemp. }
  split; [done|].
  assert (process_rows cfg lps status_type (r :: rows) data
          = process_rows cfg lps status_type rows (data ++ [out])%list) as Hloop
    by (simpl; by rewrite Hrow).
  split; [done|]. intros result Hres. rewrite Hloop in Hres.
  rewrite (process_rows_length _ _ _ _ _ _ Hres), length_app. simpl. lia.
Qed.
End TransformerFacts.

Lemma failed_row_degrades_witness :
  process_row (H := failing_urllib) sample_config [PStr "lp/world-happiness-day"]
    "failed" row_no_payment
  = Ret (degraded_row (PInt 8) (PStr "C-201") (PStr "Happiness Program") (PStr "")
           (PStr "ravi@example.org") (PStr "9811111111")
           (PStr "2025-03-04 11:00:00") (PStr "https://partner.example/article")
           (PStr "")).
Proof.
  set (r' := match coalesce_row row_no_payment with Ret x => x | Raise _ => ∅ end).
  destruct (failed_row_degrades (H := failing_urllib) sample_config
              [PStr "lp/world-happiness-day"] "failed" row_no_payment r' KeyError
              (PInt 8) (PStr "C-201") (PStr "Happiness Program")
              (PStr "2025-03-04 11:00:00") [] [])
    as (name & email & phone & referal_site & reg_utm_url
        & Hn & He & Hp & Hrs & Hu & Hrow & _); [by vm_compute..|].
  vm_compute in Hn, He, Hp, Hrs, Hu.
  injection Hn as <-. injection He as <-. injection Hp as <-.
  injection Hrs as <-. injection Hu as <-.
  exact Hrow.
Defined.

(** ** Worked examples *)

(** [int(float(cell))] on cells of several shapes: truncation, rounding to
    the nearest double, white space, signs and exponents, and the three
    ways to fail. *)
Example int_float_examples :
  int_float (PStr "12.7") = Ret 12 /\
  int_float (PStr " 45 ") = Ret 45 /\
  int_float (PStr ".5") = Ret 0 /\
  int_float (PStr "9007199254740993") = Ret 9007199254740992 /\
  int_float (PStr "0.99999999999999999999") = Ret 1 /\
  int_float (PStr "-5") = Ret (-5) /\
  int_float (PStr "1e5") = Ret 100000 /\
  int_float (PInt 7) = Ret 7 /\
  int_float (PStr "1.2.3") = Raise ValueError /\
  int_float (PStr "abc") = Raise ValueError /\
  int_float (PStr "nan") = Raise ValueError /\
  int_float (PStr "inf") = Raise OverflowError /\
  int_float (PStr huge_cell) = Raise OverflowError /\
  int_float PNone = Raise TypeError.
Proof. repeat split; by vm_compute. Qed.

(** The digits-and-dots test of the resolver. *)
Example decimal_looking_examples :
  decimal_looking "12.7" /\ decimal_looking " 45 " /\ decimal_looking "1.2.3" /\
  ~ decimal_looking "-5" /\ ~ decimal_looking "1e5" /\ ~ decimal_looking "." /\
  ~ decimal_looking "abc".
Proof.
  repeat split;
    first [ apply decimal_looking_test; by vm_compute
          | intros H%decimal_looking_test; by vm_compute in H ].
Qed.

(** A cell that starts with the separator [0x1c]: [str.strip] removes the
    separator, so the cell passes the digits-and-dots test, but [float]
    does not take it for white space and rejects the cell; the resolver
    skips the row. *)
Example separator_cell_example :
  let cell := String (ascii_of_nat 28) "12" in
  decimal_looking cell /\ int_float (PStr cell) = Raise ValueError /\
  extract_ids [[PStr cell]; [PStr "5"]] ∅ = ({[ 5 ]}, Ret tt).
Proof. split; [apply decimal_looking_test|split]; by vm_compute. Qed.

(** A cell that stops the loop of the resolver: its conversion overflows
    and is not caught by the handler of its row; the read is tried three
    times, with the two pauses, and the references after the cell are not
    collected. *)
Example resolver_huge_cell :
  let run := get_existing_sheet_ids "Ctr Course Success" 3 world_huge_cell in
  run.2 = Ret {[ 3 ]} /\
  trace run.1 = [EGet "Ctr Course Success!A:A"; ESleep 1;
                 EGet "Ctr Course Success!A:A"; ESleep 2;
                 EGet "Ctr Course Success!A:A"].
Proof. split; by vm_compute. Qed.

(** A verified write: the backup is replaced, the batch is appended and
    found by the re-read, and the ledger advances by one. *)
Example ledger_after_verified_write :
  let run := append_to_sheet "Ctr Course Success" sample_batch "course_success"
               "whd-mar2025" "live" world_write_ok in
  run.2 = Ret 20 /\
  count_of (ledger_of world_write_ok) "course_success_count" = Some 4 /\
  count_of (ledger_of run.1) "course_success_count" = Some 5 /\
  count_of (ledger_of run.1) "total_processed" = Some 5 /\
  ledger_of run.1 !! "last_updated" = Some (JTime 3).
Proof. repeat split; by vm_compute. Qed.

(** The query of the course-based builder for a campaign of the sample
    configuration: the text of the exclusion clause occurs in it when keys
    are known, and no [NOT IN] occurs in it when none is. *)
Example course_query_example :
  let build := build_course_query (order := library_order) sample_config "whd-mar2025"
                 "failed" in
  (exists query, build {[ 7; 12 ]} = Ret query /\
     py_in "AND (cpd.`id` NOT IN (7,12)) AND" query = true) /\
  (exists query, build ∅ = Ret query /\ py_in "NOT IN" query = false).
Proof. split; eexists; split; by vm_compute. Qed.

(** The conditions of the course-based builder for a campaign of the
    sample configuration, the exclusion clause among them. *)
Example course_where_clauses_example :
  course_where_clauses (order := library_order) sample_config "whd-mar2025" "failed" {[ 7 ]}
  = Ret ["ce.`event_type_id` IN (684)"; "cpd.`entity_id` IN (834855,834856)";
         "(cpd.`id` NOT IN (7))"; "cpd.`submitted_on` > '2025-03-03'";
         "cpd.`participant_status` = 1"; time_clause].
Proof. by vm_compute. Qed.

(** ** Counter ledger and count verification *)

Lemma append_prefix_inj (s s' t : string) : s ++ t = s' ++ t -> s = s'.
Proof.
  intros H.
  assert (Hlen : String.length s = String.length s').
  { apply (f_equal String.length) in H. rewrite !length_append in H. lia. }
  revert s' H Hlen. induction s as [|c s IH]; intros [|c' s'] H Hlen; try done.
  rewrite !append_cons in H. injection H as -> H.
  f_equal. apply IH; [done|]. simpl in Hlen. lia.
Qed.

Lemma kind_key_inj (k k' : string) : k ++ "_count" = k' ++ "_count" -> k = k'.
Proof. apply append_prefix_inj. Qed.

(** The count check passes exactly when the stored count is a number equal
    to the number of identifiers; a missing count reads as 0. *)
Lemma verify_counts_iff (existing_ids : gset Z) (counters : gmap string jval)
    (sheet_type : string) :
  verify_sheet_counts_against_local existing_ids counters sheet_type = true <->
  count_of counters (sheet_type ++ "_count") = Some (Z.of_nat (size existing_ids)).
Proof.
  unfold verify_sheet_counts_against_local, count_of.
  destruct (default (JInt 0) (counters !! (sheet_type ++ "_count"))) as [z| |]; [|done..].
  cbv zeta. destruct (Z.ltb_spec 0 (Z.abs (Z.of_nat (size existing_ids) - z))); split;
    intros H'; try done.
  - injection H' as ->. lia.
  - f_equal. lia.
Qed.

(** The update leaves every key but its five alone. *)
Lemma update_counters_frame (counters counters' : gmap string jval)
    (sheet_type campaign environment : string) (n t : Z) (key : string) :
  update_counters_after_processing counters sheet_type n campaign environment t
    = Ret counters' ->
  key <> sheet_type ++ "_count" -> key <> "total_processed" -> key <> "last_updated" ->
  key <> "campaign" -> key <> "environment" ->
  counters' !! key = counters !! key.
Proof.
  unfold update_counters_after_processing.
  destruct (counter_add counters (sheet_type ++ "_count") n) as [kc|]; [|done].
  destruct (counter_add counters "total_processed" n) as [tc|]; [|done].
  cbn. intros H ? ? ? ? ?. injection H as <-.
  by rewrite !lookup_insert_ne.
Qed.

Lemma count_of_frame (counters counters' : gmap string jval) (key : string) :
  counters' !! key = counters !! key -> count_of counters' key = count_of counters key.
Proof. unfold count_of. by intros ->. Qed.

(** X1: a ledger that agrees with a sheet still agrees after a batch of
    new identifiers is recorded. *)
Theorem count_verification_preserved (ids new_ids : gset Z)
    (counters counters' : gmap string jval) (sheet_type campaign environment : string)
    (t : Z) :
  verify_sheet_counts_against_local ids counters sheet_type = true ->
  new_ids ## ids ->
  update_counters_after_processing counters sheet_type (Z.of_nat (size new_ids))
    campaign environment t = Ret counters' ->
  verify_sheet_counts_against_local (new_ids ∪ ids) counters' sheet_type = true.
Proof.
  intros Hv Hdisj Hup. apply verify_counts_iff in Hv. apply verify_counts_iff.
  apply update_counters_spec in Hup as (kind & total & Hk & _ & Hk' & _).
  rewrite Hk in Hv. injection Hv as ->.
  unfold count_of. rewrite Hk'. cbn. f_equal.
  rewrite size_union by done. lia.
Qed.

Lemma count_verification_preserved_witness :
  verify_sheet_counts_against_local ({[7]} ∪ {[1; 2; 3; 4]})
    (<["environment" := JStr "live"]>
     (<["campaign" := JStr "whd-mar2025"]>
     (<["last_updated" := JTime 0]>
     (<["total_processed" := JInt 5]>
     (<["course_success_count" := JInt 5]> sample_ledger)))))
    "course_success" = true.
Proof.
  apply (count_verification_preserved {[1; 2; 3; 4]} {[7]} sample_ledger _
           "course_success" "whd-mar2025" "live" 0).
  - by vm_compute.
  - set_solver.
  - reflexivity.
Defined.

(** X2: recording a batch for one kind does not change the outcome of the
    count check of another kind. *)
Theorem count_verification_other_kind (ids : gset Z)
    (counters counters' : gmap string jval)
    (sheet_type other campaign environment : string) (n t : Z) :
  other <> sheet_type ->
  update_counters_after_processing counters sheet_type n campaign environment t
    = Ret counters' ->
  verify_sheet_counts_against_local ids counters' other
  = verify_sheet_counts_against_local ids counters other.
Proof.
  intros Hne Hup.
  destruct (kind_key_fresh other) as (? & ? & ? & ?).
  unfold verify_sheet_counts_against_local.
  rewrite (update_counters_frame _ _ _ _ _ _ _ _ Hup); [done| |done..].
  intros Heq. by apply kind_key_inj in Heq.
Qed.

Lemma count_verification_other_kind_witness :
  verify_sheet_counts_against_local {[1; 2]}
    (<["environment" := JStr "live"]>
     (<["campaign" := JStr "whd-mar2025"]>
     (<["last_updated" := JTime 0]>
     (<["total_processed" := JInt 5]>
     (<["course_success_count" := JInt 5]> sample_ledger)))))
    "ad_failed"
  = verify_sheet_counts_against_local {[1; 2]} sample_ledger "ad_failed".
Proof.
  apply (count_verification_other_kind {[1; 2]} sample_ledger _
           "course_success" "ad_failed" "whd-mar2025" "live" 1 0).
  - done.
  - reflexivity.
Defined.

Lemma counter_add_count (counters : gmap string jval) (key : string) (z n : Z) :
  count_of counters key = Some z -> counter_add counters key n = Ret (JInt (z + n)).
Proof.
  unfold count_of, counter_add.
  destruct (default (JInt 0) (counters !! key)); [|done..]. by intros [= ->].
Qed.

Lemma count_of_insert (counters : gmap string jval) (key : string) (z : Z) :
  count_of (<[key := JInt z]> counters) key = Some z.
Proof. unfold count_of. by rewrite lookup_insert_eq. Qed.

Lemma count_of_insert_ne (counters : gmap string jval) (key key' : string) (v : jval) :
  key <> key' -> count_of (<[key := v]> counters) key' = count_of counters key'.
Proof. intros. apply count_of_frame. by rewrite lookup_insert_ne. Qed.

Lemma zero_counters_balanced : ledger_balanced zero_counters.
Proof. by exists 0, 0, 0, 0. Qed.

Lemma update_keeps_balance (counters : gmap string jval)
    (sheet_type campaign environment : string) (n t : Z) :
  ledger_balanced counters -> sheet_type ∈ sheet_kinds ->
  exists counters',
    update_counters_after_processing counters sheet_type n campaign environment t
      = Ret counters' /\ ledger_balanced counters'.
Proof.
  intros (a & b & c & d & Ha & Hb & Hc & Hd & Ht) Hin.
  unfold update_counters_after_processing.
  rewrite (counter_add_count _ _ _ _ Ht).
  apply list_elem_of_In in Hin. simpl in Hin.
  destruct Hin as [<-|[<-|[<-|[<-|[]]]]];
    repeat rewrite ?append_cons, ?append_nil_l;
    [ rewrite (counter_add_count _ _ _ _ Ha); cbn; eexists; (split; [reflexivity|]);
      exists (a + n), b, c, d
    | rewrite (counter_add_count _ _ _ _ Hb); cbn; eexists; (split; [reflexivity|]);
      exists a, (b + n), c, d
    | rewrite (counter_add_count _ _ _ _ Hc); cbn; eexists; (split; [reflexivity|]);
      exists a, b, (c + n), d
    | rewrite (counter_add_count _ _ _ _ Hd); cbn; eexists; (split; [reflexivity|]);
      exists a, b, c, (d + n) ];
    repeat split;
    repeat first [ rewrite count_of_insert | rewrite count_of_insert_ne by done ];
    try done; f_equal; lia.
Qed.

Section LedgerInvariant.
Context {svc : Type} `{!Sheets svc}.

(** The ledger after [append_to_sheet] is the former one, or the former
    one updated for the batch. *)
Lemma append_to_sheet_ledger (sheet_name : string) (data : list row)
    (sheet_type campaign environment : string) (w : world svc) :
  let w' := (append_to_sheet sheet_name data sheet_type campaign environment w).1 in
  ledger_of w' = ledger_of w \/
  exists t,
    update_counters_after_processing (ledger_of w) sheet_type (Z.of_nat (length data))
      campaign environment t = Ret (ledger_of w').
Proof.
  cbv zeta. destruct data as [|first data']; [by left|].
  pose proof (backup_filename_not_counter_file sheet_type) as Hf.
  destruct (append_to_sheet_run sheet_name (first :: data') sheet_type campaign
              environment w ltac:(done))
    as [[_ ->]|(_ & wb & w2 & b & _ & Hwb & _ & _ & (Hw2 & _) & _ & w' & r & -> & _ & Hw')];
    [by left|].
  assert (Hl2 : ledger_of w2 = ledger_of w).
  { unfold ledger_of. by rewrite Hw2, Hwb, lookup_insert_ne. }
  cbn [fst]. destruct Hw' as [[-> _]|(_ & counters' & Hup & Hfiles & _)]; [by left|].
  right. exists (now w2). rewrite Hl2 in Hup. rewrite Hup. f_equal.
  unfold ledger_of. by rewrite Hfiles, lookup_insert_eq.
Qed.

(** X3: the ledger's total stays the sum of the four per-kind counts
    across [append_to_sheet], whatever the outcome of the write. *)
Theorem append_to_sheet_keeps_balance (sheet_name : string) (data : list row)
    (sheet_type campaign environment : string) (w : world svc) :
  sheet_type ∈ sheet_kinds ->
  ledger_balanced (ledger_of w) ->
  ledger_balanced
    (ledger_of (append_to_sheet sheet_name data sheet_type campaign environment w).1).
Proof.
  intros Hkind Hbal.
  destruct (append_to_sheet_ledger sheet_name data sheet_type campaign environment w)
    as [->|[t Hup]]; [done|].
  destruct (update_keeps_balance (ledger_of w) sheet_type campaign environment
              (Z.of_nat (length data)) t Hbal Hkind) as (counters' & Hup' & Hbal').
  rewrite Hup in Hup'. by injection Hup' as ->.
Qed.

(** X4: what is saved is what the next load returns; a ledger file that
    cannot be written leaves the world as it was, without an exception. *)
Theorem save_then_load_counters (counters : gmap string jval) (w : world svc) :
  let w' := (save_local_counters counters w).1 in
  (save_local_counters counters w).2 = Ret tt /\
  (CAMPAIGN_COUNTER_FILE ∉ readonly w ->
     load_local_counters w' = (w', Ret counters) /\
     forall f, f <> CAMPAIGN_COUNTER_FILE -> files w' !! f = files w !! f) /\
  (CAMPAIGN_COUNTER_FILE ∈ readonly w -> w' = w).
Proof.
  cbv zeta. rewrite save_local_counters_eq.
  destruct (decide (CAMPAIGN_COUNTER_FILE ∈ readonly w)) as [Hro|Hrw]; cbn.
  - by repeat split.
  - repeat split; [|by intros; rewrite lookup_insert_ne|done].
    rewrite load_local_counters_eq. unfold ledger_of. cbn.
    by rewrite lookup_insert_eq.
Qed.
End LedgerInvariant.

Lemma append_to_sheet_keeps_balance_witness :
  ledger_balanced
    (ledger_of (append_to_sheet "Ctr Course Success" sample_batch "course_success"
                  "whd-mar2025" "live" world_write_ok).1).
Proof.
  apply append_to_sheet_keeps_balance.
  - unfold sheet_kinds. set_solver.
  - by exists 4, 0, 0, 0.
Defined.

(** ** The write pipeline: what it sends *)

Section PipelineTrace.
Context {svc : Type} `{!Sheets svc}.
Implicit Types w : world svc.

(** The world after a verification is the world after the pause and the
    re-read. *)
Lemma verify_world (sheet_name : string) (data : list row) w :
  data <> [] ->
  (verify_write_success sheet_name data w).1
  = (api_get (sheet_name ++ "!A:A") (sleep 3 w).1).1.
Proof.
  intros Hd. destruct data as [|r data]; [done|].
  unfold verify_write_success, try_except. cbn [length Nat.leb].
  rewrite bind_unfold. cbn [sleep fst snd]. rewrite bind_unfold.
  destruct (api_get _ _) as [w2 [values|e]]; [|done].
  rewrite bind_unfold. unfold lift at 1.
  destruct (reread_ids values) as [ids|e]; [|done].
  rewrite bind_unfold. unfold lift at 1.
  by destruct (check_written _ _ _) as [b|e].
Qed.

Lemma api_get_trace (range : string) w :
  trace (api_get range w).1 = (trace w ++ [EGet range])%list.
Proof. unfold api_get. by destruct (values_get _ _). Qed.

Lemma api_append_trace (range : string) (values : list row) w :
  trace (api_append range values w).1 = (trace w ++ [EAppend range values])%list.
Proof. unfold api_append. by destruct (values_append _ _ _). Qed.

Lemma verify_trace (sheet_name : string) (data : list row) w :
  data <> [] ->
  trace (verify_write_success sheet_name data w).1
  = (trace w ++ [ESleep 3; EGet (sheet_name ++ "!A:A")])%list.
Proof.
  intros Hd. rewrite verify_world, api_get_trace by done. cbn.
  by rewrite <- app_assoc.
Qed.

Lemma cycle_events (sheet_name : string) (data : list row) w :
  data <> [] ->
  exists evs,
    trace (append_verify_cycle sheet_name data w).1 = (trace w ++ evs)%list /\
    Forall (pipeline_event sheet_name data) evs /\
    length (List.filter is_append evs) = 1%nat.
Proof.
  intros Hd. unfold append_verify_cycle. rewrite bind_unfold.
  pose proof (api_append_trace (sheet_name ++ "!A2") data w) as Ha.
  destruct (api_append _ _ w) as [w0 [[]|e]]; cbn [fst] in Ha.
  - pose proof (verify_trace sheet_name data w0 Hd) as Hv.
    exists [EAppend (sheet_name ++ "!A2") data; ESleep 3; EGet (sheet_name ++ "!A:A")].
    split; [|split; [|done]].
    + rewrite Hv, Ha, <- app_assoc. done.
    + repeat apply List.Forall_cons; try apply List.Forall_nil; unfold pipeline_event; eauto.
  - exists [EAppend (sheet_name ++ "!A2") data]. split; [done|]. split; [|done].
    apply List.Forall_cons; [by left|apply List.Forall_nil].
Qed.

Lemma write_attempt_events (sheet_name : string) (data : list row)
    (retries attempt : nat) w :
  data <> [] ->
  exists evs,
    trace (write_attempt sheet_name data retries attempt w).1 = (trace w ++ evs)%list /\
    Forall (pipeline_event sheet_name data) evs /\
    length (List.filter is_append evs) = 1%nat.
Proof.
  intros Hd. rewrite write_attempt_cycle.
  destruct (cycle_events sheet_name data w Hd) as (evs & Ht & Hall & Hn).
  assert (Hsleep : exists evs',
    trace (sleep (2 ^ Z.of_nat attempt) (append_verify_cycle sheet_name data w).1).1
      = (trace w ++ evs')%list /\
    Forall (pipeline_event sheet_name data) evs' /\
    length (List.filter is_append evs') = 1%nat).
  { exists (evs ++ [ESleep (2 ^ Z.of_nat attempt)])%list. cbn. rewrite Ht, <- app_assoc.
    split; [done|]. split.
    - apply Forall_app. split; [done|].
      apply List.Forall_cons; [|apply List.Forall_nil]. right. right. eauto.
    - rewrite List.filter_app, length_app, Hn. done. }
  destruct (append_verify_cycle sheet_name data w) as [w1 [[]|e]]; cbn [fst] in *;
    try destruct (attempt <? retries - 1)%nat; cbn [fst]; eauto.
Qed.

Lemma write_attempts_events (sheet_name : string) (data : list row) (retries : nat)
    (attempts : list nat) w :
  data <> [] ->
  exists evs,
    trace (write_attempts sheet_name data retries attempts w).1 = (trace w ++ evs)%list /\
    Forall (pipeline_event sheet_name data) evs /\
    (length (List.filter is_append evs) <= length attempts)%nat /\
    (attempts <> [] -> (1 <= length (List.filter is_append evs))%nat).
Proof.
  intros Hd. revert w. induction attempts as [|attempt rest IH]; intros w.
  - exists []. cbn. rewrite app_nil_r. repeat split; done || lia.
  - rewrite write_attempts_cons.
    destruct (write_attempt_events sheet_name data retries attempt w Hd)
      as (evs & Ht & Hall & Hn).
    destruct (write_attempt sheet_name data retries attempt w) as [w1 [[b|]|e]];
      cbn [fst] in *.
    + exists evs. rewrite Hn. cbn. repeat split; done || lia.
    + destruct (IH w1) as (evs' & Ht' & Hall' & Hn' & _).
      exists (evs ++ evs')%list. rewrite Ht', Ht, <- app_assoc.
      split; [done|]. split; [by apply Forall_app|].
      rewrite List.filter_app, length_app, Hn. cbn. split; lia.
    + exists evs. rewrite Hn. cbn. repeat split; done || lia.
Qed.

(** X5: the write pipeline sends nothing but appends of the batch to the
    sheet, re-reads of its identifier column and pauses; it appends the
    batch at most [retries] times, at least once when there is something
    to write, and not at all when the batch is empty. *)
Theorem write_robust_appends_bounded (sheet_name : string) (data : list row)
    (retries : nat) w :
  exists evs,
    trace (write_to_google_sheets_robust sheet_name data retries w).1
      = (trace w ++ evs)%list /\
    Forall (pipeline_event sheet_name data) evs /\
    (length (List.filter is_append evs) <= retries)%nat /\
    (data <> [] -> (0 < retries)%nat -> (1 <= length (List.filter is_append evs))%nat) /\
    (data = [] -> evs = []).
Proof.
  unfold write_to_google_sheets_robust. destruct data as [|r data].
  - exists []. cbn. rewrite app_nil_r. repeat split; done || lia.
  - destruct (write_attempts_events sheet_name (r :: data) retries (seq 0 retries) w
                ltac:(done)) as (evs & Ht & Hall & Hle & Hge).
    exists evs. rewrite length_seq in Hle. repeat split; try done.
    intros _ Hr. apply Hge. destruct retries; [lia|done].
Qed.
End PipelineTrace.

(** ** The write pipeline during an outage *)

Section PipelineOutage.
Context {svc : Type} `{!Sheets svc}.
Implicit Types w : world svc.

Lemma cycle_append_fails (sheet_name : string) (data : list row) w :
  (forall s range values, exists e, (values_append s range values).2 = Raise e) ->
  exists s e,
    append_verify_cycle sheet_name data w
    = (World s (files w) (readonly w) (now w)
         (trace w ++ [EAppend (sheet_name ++ "!A2") data]), Raise e).
Proof.
  intros Hfail. unfold append_verify_cycle. rewrite bind_unfold. unfold api_append.
  destruct (Hfail (remote w) (sheet_name ++ "!A2") data) as [e He].
  destruct (values_append _ _ _) as [s r]. cbn in He. subst r. by exists s, e.
Qed.

(** X6: when every append fails, the pipeline gives up after three
    appends of the batch with pauses of one and two seconds between them,
    re-reads nothing, and leaves the local files alone. *)
Theorem write_robust_when_appends_fail (sheet_name : string) (data : list row) w :
  data <> [] ->
  (forall s range values, exists e, (values_append s range values).2 = Raise e) ->
  let run := write_to_google_sheets_robust sheet_name data 3 w in
  let append := EAppend (sheet_name ++ "!A2") data in
  run.2 = Ret false /\
  trace run.1 = (trace w ++ [append; ESleep 1; append; ESleep 2; append])%list /\
  now run.1 = now w + 3 /\
  files run.1 = files w.
Proof.
  intros Hd Hfail. cbv zeta. unfold write_to_google_sheets_robust.
  destruct data as [|r rest] eqn:Ed; [done|]. rewrite <- Ed. clear Ed Hd.
  change (seq 0 3) with [0; 1; 2]%nat.
  rewrite write_attempts_cons, write_attempt_cycle.
  destruct (cycle_append_fails sheet_name data w Hfail) as (s1 & e1 & ->).
  change (0 <? 3 - 1)%nat with true. cbv beta iota. cbn [sleep fst].
  rewrite write_attempts_cons, write_attempt_cycle.
  match goal with
  | |- context [append_verify_cycle sheet_name data ?w0] =>
      destruct (cycle_append_fails sheet_name data w0 Hfail) as (s2 & e2 & ->)
  end.
  change (1 <? 3 - 1)%nat with true. cbv beta iota. cbn [sleep fst files readonly now trace].
  rewrite write_attempts_cons, write_attempt_cycle.
  match goal with
  | |- context [append_verify_cycle sheet_name data ?w0] =>
      destruct (cycle_append_fails sheet_name data w0 Hfail) as (s3 & e3 & ->)
  end.
  change (2 <? 3 - 1)%nat with false. cbv beta iota. cbn.
  repeat split; [|lia]. by rewrite <- !app_assoc.
Qed.
End PipelineOutage.

Lemma write_robust_when_appends_fail_witness :
  let run := write_to_google_sheets_robust "Ctr Course Success" sample_batch 3
               world_offline in
  let append := EAppend "Ctr Course Success!A2" sample_batch in
  run.2 = Ret false /\
  trace run.1 = [append; ESleep 1; append; ESleep 2; append] /\
  now run.1 = 3 /\
  files run.1 = files world_offline.
Proof.
  apply (write_robust_when_appends_fail (svc := offline) "Ctr Course Success"
           sample_batch world_offline).
  - done.
  - intros [] ? ?. by exists HttpError.
Defined.

(** ** What [append_to_sheet] returns *)

Section AppendOutcome.
Context {svc : Type} `{!Sheets svc}.
Implicit Types w : world svc.

(** The run of [append_to_sheet] on a batch that is not empty, as one
    equation. *)
Lemma append_to_sheet_eq (sheet_name : string) (first : row) (rest : list row)
    (sheet_type campaign environment : string) w :
  let data := first :: rest in
  let f := backup_filename sheet_type in
  append_to_sheet sheet_name data sheet_type campaign environment w =
  if decide (f ∈ readonly w) then (w, Ret 0)
  else
    let wb := World (remote w) (<[f := FCsv data]> (files w)) (readonly w) (now w)
                (trace w ++ [ECsvWrite f data]) in
    match write_to_google_sheets_robust sheet_name data 3 wb with
    | (w2, Ret true) =>
        match update_counters_after_processing (ledger_of w2) sheet_type
                (Z.of_nat (length data)) campaign environment (now w2) with
        | Ret counters' =>
            ((save_local_counters counters' w2).1,
             Ret (Z.of_nat (length data) * Z.of_nat (length first)))
        | Raise _ => (w2, Ret 0)
        end
    | (w2, _) => (w2, Ret 0)
    end.
Proof.
  cbv zeta. unfold append_to_sheet. cbv beta iota.
  unfold try_except. rewrite bind_unfold, save_to_csv_eq by done.
  case_decide as Hro; [done|]. cbv zeta.
  rewrite bind_unfold.
  destruct (write_to_google_sheets_robust _ _ _ _) as [w2 [[]|e]]; [|done..].
  rewrite bind_unfold, load_local_counters_eq, bind_unfold. unfold get_now at 1.
  rewrite bind_unfold. unfold lift at 1.
  destruct (update_counters_after_processing _ _ _ _ _ _) as [counters'|e]; [|done].
  rewrite bind_unfold.
  pose proof (save_local_counters_eq counters' w2) as Hs.
  destruct (save_local_counters counters' w2) as [w3 r]. cbn.
  by case_decide; injection Hs as -> ->.
Qed.

(** X7: [append_to_sheet] never raises; it returns 0 or the number of
    rows times the number of cells of the first row; and when it returns
    something else than 0, the run went through the backup, then through
    calls of the remote side that ended with an append of the batch whose
    verification passed, and then through the save of the counters, which
    left the world of the result. *)
Theorem append_to_sheet_result (sheet_name : string) (data : list row)
    (sheet_type campaign environment : string) w :
  let run := append_to_sheet sheet_name data sheet_type campaign environment w in
  exists r,
    run.2 = Ret r /\
    (r = 0 \/ r = Z.of_nat (length data) * Z.of_nat (length (default [] (head data)))) /\
    (r <> 0 ->
     exists wb w1 w2 counters',
       save_to_csv data (backup_filename sheet_type) w = (wb, Ret tt) /\
       frame wb w1 /\
       append_verify_cycle sheet_name data w1 = (w2, Ret true) /\
       save_local_counters counters' w2 = (run.1, Ret tt)).
Proof.
  cbv zeta. destruct data as [|first rest].
  { exists 0. cbn. split; [done|]. split; [by left|done]. }
  rewrite append_to_sheet_eq. rewrite save_to_csv_eq by done. case_decide as Hro.
  { exists 0. split; [done|]. split; [by left|done]. }
  cbv zeta.
  match goal with
  | |- context [write_to_google_sheets_robust ?s ?d 3 ?wb] =>
      destruct (write_attempts_verdict s d 3 (seq 0 3) wb) as (w2 & b & Hw & Hb);
      change (write_attempts s d 3 (seq 0 3) wb)
        with (write_to_google_sheets_robust s d 3 wb) in Hw; rewrite Hw
  end.
  destruct b; [|exists 0; split; [done|]; split; [by left|done]].
  destruct (update_counters_after_processing _ _ _ _ _ _) as [counters'|e].
  - eexists. split; [reflexivity|]. split; [by right|].
    intros _. destruct (Hb eq_refl) as (w1 & Hf & Hc).
    eexists _, w1, w2, counters'. split; [done|]. split; [done|]. split; [done|].
    cbn [fst]. rewrite save_local_counters_eq. by case_decide.
  - exists 0. split; [done|]. split; [by left|done].
Qed.

(** X8: a ledger whose count for the kind, or whose total, is not a
    number is never advanced: [append_to_sheet] returns 0 and the counter
    file is what it was, even when the batch was appended and verified; the
    world is then the one the write pipeline left. *)
Theorem append_to_sheet_corrupt_ledger (sheet_name : string) (data : list row)
    (sheet_type campaign environment : string) w :
  data <> [] ->
  count_of (ledger_of w) (sheet_type ++ "_count") = None \/
  count_of (ledger_of w) "total_processed" = None ->
  let f := backup_filename sheet_type in
  let run := append_to_sheet sheet_name data sheet_type campaign environment w in
  run.2 = Ret 0 /\
  files run.1 !! CAMPAIGN_COUNTER_FILE = files w !! CAMPAIGN_COUNTER_FILE /\
  (f ∉ readonly w ->
   run.1 = (write_to_google_sheets_robust sheet_name data 3
              (save_to_csv data f w).1).1).
Proof.
  intros Hd Hbad f run. subst run. destruct data as [|first rest]; [done|].
  rewrite append_to_sheet_eq. fold f. rewrite save_to_csv_eq by done.
  case_decide as Hro; [done|]. cbv zeta. cbn [fst].
  set (wb := World _ _ _ _ _).
  pose proof (remote_only_write_robust sheet_name (first :: rest) 3 wb) as (Hf & _).
  destruct (write_to_google_sheets_robust _ _ _ wb) as [w2 r]. cbn [fst] in *.
  assert (Hl : ledger_of w2 = ledger_of w).
  { unfold ledger_of. rewrite Hf. subst wb. cbn.
    by rewrite lookup_insert_ne by apply backup_filename_not_counter_file. }
  assert (Hfile : files w2 !! CAMPAIGN_COUNTER_FILE = files w !! CAMPAIGN_COUNTER_FILE).
  { rewrite Hf. subst wb. cbn.
    by rewrite lookup_insert_ne by apply backup_filename_not_counter_file. }
  destruct r as [[]|e]; [|done..].
  destruct (update_counters_after_processing _ _ _ _ _ _) as [counters'|e] eqn:Hup; [|done].
  exfalso. rewrite Hl in Hup.
  apply update_counters_spec in Hup as (kind & total & Hk & Ht & _).
  destruct Hbad; congruence.
Qed.
End AppendOutcome.

Lemma append_to_sheet_result_witness :
  let run := append_to_sheet "Ctr Course Success" sample_batch "course_success"
               "whd-mar2025" "live" world_write_ok in
  run.2 = Ret 20 /\
  exists wb w1 w2 counters',
    save_to_csv sample_batch COURSE_SUCCESS_CSV_BACKUP world_write_ok = (wb, Ret tt) /\
    frame wb w1 /\
    append_verify_cycle "Ctr Course Success" sample_batch w1 = (w2, Ret true) /\
    save_local_counters counters' w2 = (run.1, Ret tt).
Proof.
  intros run.
  destruct (append_to_sheet_result "Ctr Course Success" sample_batch "course_success"
              "whd-mar2025" "live" world_write_ok) as (r & Hr & _ & Hrun).
  fold run in Hr, Hrun.
  assert (run.2 = Ret 20) as H20 by (by vm_compute).
  split; [done|]. apply Hrun. rewrite H20 in Hr. by injection Hr as <-.
Defined.

Lemma append_to_sheet_corrupt_ledger_witness :
  let run := append_to_sheet "Ctr Course Success" sample_batch "course_success"
               "whd-mar2025" "live" world_corrupt_ledger in
  run.2 = Ret 0 /\
  files run.1 !! CAMPAIGN_COUNTER_FILE = files world_corrupt_ledger !! CAMPAIGN_COUNTER_FILE /\
  (backup_filename "course_success" ∉ readonly world_corrupt_ledger ->
   run.1 = (write_to_google_sheets_robust "Ctr Course Success" sample_batch 3
              (save_to_csv sample_batch (backup_filename "course_success")
                 world_corrupt_ledger).1).1).
Proof.
  apply (append_to_sheet_corrupt_ledger (svc := script)).
  - done.
  - right. reflexivity.
Defined.

(** ** Verification of a batch of integer references *)

Lemma int_float_int (z : Z) : - 2 ^ 53 < z < 2 ^ 53 -> int_float (PInt z) = Ret z.
Proof.
  intros Hz. unfold int_float, py_float.
  destruct (round_binary64_exact (Z.abs z) ltac:(lia)) as (m & p & -> & Hv).
  cbn. rewrite Hv. f_equal. destruct (Z.ltb_spec z 0); lia.
Qed.

Lemma check_written_int (data : list row) (current_ids : gset Z)
    (verification_failed : bool) :
  Forall int_row data ->
  exists failed,
    check_written data current_ids verification_failed = Ret failed /\
    (failed = false <->
     verification_failed = false /\ forall z, written_ref data z -> z ∈ current_ids).
Proof.
  intros Hall. revert verification_failed.
  induction Hall as [|r data (z & rest & -> & Hz) _ IH]; intros vf.
  - exists vf. split; [done|]. split; [|by intros []].
    intros ->. split; [done|]. intros z [rest Hin]. by apply elem_of_nil in Hin.
  - cbn [check_written]. rewrite (int_float_int z Hz).
    destruct (IH (if decide (z ∈ current_ids) then vf else true))
      as (failed & -> & Hiff).
    exists failed. split; [done|]. rewrite Hiff. unfold written_ref. split.
    + intros [Hvf Hrest]. case_decide as Hin; [|done]. split; [done|].
      intros z' [rest' Hin']. apply elem_of_cons in Hin' as [[= -> ->]|Hin']; [done|].
      apply Hrest. eauto.
    + intros [-> Hrefs]. rewrite decide_True.
      * split; [done|]. intros z' [rest' Hin']. apply Hrefs. exists rest'.
        by apply elem_of_cons; right.
      * apply Hrefs. exists rest. by apply elem_of_cons; left.
Qed.

Section VerifyIntBatch.
Context {svc : Type} `{!Sheets svc}.
Implicit Types w : world svc.

(** X9: for a batch whose references are integers below [2^53], the
    verification passes exactly when every written reference is among the
    identifiers of the re-read column. *)
Theorem verify_int_batch (sheet_name : string) (data : list row) w w2
    (values : list row) (current_ids : gset Z) :
  data <> [] ->
  Forall int_row data ->
  api_get (sheet_name ++ "!A:A") (sleep 3 w).1 = (w2, Ret values) ->
  reread_ids values = Ret current_ids ->
  exists passed,
    verify_write_success sheet_name data w = (w2, Ret passed) /\
    (passed = true <-> forall z, written_ref data z -> z ∈ current_ids).
Proof.
  intros Hd Hall Hget Hids.
  destruct (check_written_int data current_ids false Hall) as (failed & Hcw & Hiff).
  exists (negb failed). split.
  - destruct data as [|r rest] eqn:Ed; [done|]. rewrite <- Ed in *.
    unfold verify_write_success, try_except.
    replace (length data <=? 0)%nat with false by (by subst data).
    rewrite bind_unfold. cbn [sleep fst snd] in *. rewrite bind_unfold, Hget.
    rewrite bind_unfold. unfold lift at 1. rewrite Hids.
    rewrite bind_unfold. unfold lift at 1. rewrite Hcw. done.
  - rewrite negb_true_iff, Hiff. naive_solver.
Qed.
End VerifyIntBatch.

Lemma verify_int_batch_witness :
  exists passed,
    verify_write_success "Ctr Course Success" sample_batch
      (world_of (Script [Ret column_with_7] []) ∅)
    = (World (Script [] []) ∅ ∅ 3 [ESleep 3; EGet "Ctr Course Success!A:A"], Ret passed) /\
    (passed = true <-> forall z, written_ref sample_batch z -> z ∈ ({[1; 7]} : gset Z)).
Proof.
  apply (verify_int_batch (svc := script) "Ctr Course Success" sample_batch _ _
           column_with_7).
  - done.
  - apply List.Forall_cons; [|apply List.Forall_nil].
    eexists _, _. split; [reflexivity|]. lia.
  - reflexivity.
  - by vm_compute.
Defined.

(** ** The identifier column as the verification and the resolver read it *)

Lemma current_ids_of_sub (rows : list row) (acc current_ids : gset Z) :
  current_ids_of rows acc = Ret current_ids ->
  forall z, z ∈ current_ids -> z ∈ acc \/ exists r, r ∈ rows /\ numeric_id r z.
Proof.
  revert acc. induction rows as [|r rows IH]; intros acc; cbn [current_ids_of].
  - intros [= <-] z Hz. by left.
  - assert (forall acc', current_ids_of rows acc' = Ret current_ids ->
              (forall z, z ∈ acc' -> z ∈ acc \/ numeric_id r z) ->
              forall z, z ∈ current_ids ->
                z ∈ acc \/ exists r', r' ∈ r :: rows /\ numeric_id r' z) as Hstep.
    { intros acc' Hrun Hacc z Hz.
      destruct (IH acc' Hrun z Hz) as [Hin|(r' & Hin & Hnum)].
      - destruct (Hacc z Hin) as [?|?]; [by left|]. right. exists r.
        split; [apply list_elem_of_here|done].
      - right. exists r'. split; [by apply list_elem_of_further|done]. }
    destruct r as [|c cells]; [intros Hrun; by apply (Hstep acc Hrun); auto|].
    destruct (truthy c && isdigit (remove_dots (py_str c))) eqn:Etest;
      [|intros Hrun; by apply (Hstep acc Hrun); auto].
    apply andb_prop in Etest as [Ht Hd].
    destruct (int_float c) as [z0|e] eqn:Ec; [|done]. cbn.
    intros Hrun. apply (Hstep _ Hrun). intros z [->%elem_of_singleton|Hin]%elem_of_union;
      [|by left].
    right. exists c, cells. split; [done|]. split; [by apply filled_truthy|].
    split; [|done]. apply decimal_looking_test. by rewrite strip_digits_dots.
Qed.

(** X10: every identifier that the verification finds in a re-read column
    is an identifier that the resolver extracts from the same column. *)
Theorem verified_ids_are_resolved (values : list row) (current_ids : gset Z) :
  reread_ids values = Ret current_ids ->
  Forall (fun r => ~ overflows r) (tail values) ->
  exists ids, extract_ids (tail values) ∅ = (ids, Ret tt) /\ current_ids ⊆ ids.
Proof.
  intros Hre Hno. destruct (extract_ids_spec (tail values) ∅ Hno) as (ids & Hex & Hids).
  exists ids. split; [done|]. intros z Hz. apply Hids. right.
  unfold reread_ids in Hre. destruct (1 <? length values)%nat.
  - destruct (current_ids_of_sub _ _ _ Hre z Hz) as [Hin|?]; [|done].
    by apply elem_of_empty in Hin.
  - injection Hre as <-. by apply elem_of_empty in Hz.
Qed.

Lemma verified_ids_are_resolved_witness :
  exists ids, extract_ids (tail column_with_7) ∅ = (ids, Ret tt) /\
              ({[1; 7]} : gset Z) ⊆ ids.
Proof.
  apply (verified_ids_are_resolved column_with_7).
  - by vm_compute.
  - assert (forall c cells, int_float c <> Raise OverflowError -> ~ overflows (c :: cells))
      as Hc by (intros c cells Hne (c' & cells' & [= <- <-] & Hov); done).
    unfold column_with_7, tail.
    repeat (apply List.Forall_cons; [apply Hc; by vm_compute|]).
    apply List.Forall_nil.
Defined.

(** ** The key resolver: what it sends *)

Section ResolverTrace.
Context {svc : Type} `{!Sheets svc} {order : SetOrder}.
Implicit Types w : world svc.

Lemma api_get_world (range : string) w :
  exists s r,
    api_get range w
    = (World s (files w) (readonly w) (now w) (trace w ++ [EGet range]), r).
Proof. unfold api_get. destruct (values_get _ _) as [s r]. by exists s, r. Qed.

Lemma read_ids_attempts_events (sheet_name : string) (retries : nat)
    (attempts : list nat) (existing_ids : gset Z) w :
  exists w' ids evs,
    read_ids_attempts sheet_name retries attempts existing_ids w = (w', Ret ids) /\
    trace w' = (trace w ++ evs)%list /\
    Forall (resolver_event sheet_name) evs /\
    (length (List.filter is_get evs) <= length attempts)%nat /\
    files w' = files w.
Proof.
  revert existing_ids w. induction attempts as [|attempt rest IH]; intros acc w.
  - exists w, acc, []. cbn. rewrite app_nil_r. repeat split; done || lia.
  - rewrite read_ids_attempts_cons.
    destruct (api_get_world (sheet_name ++ "!A:A") w) as (s & r & ->).
    set (w1 := World _ _ _ _ _).
    assert (Hnext : forall ids,
      exists w' ids' evs,
        read_ids_attempts sheet_name retries rest ids (backoff retries attempt w1).1
          = (w', Ret ids') /\
        trace w' = (trace w ++ evs)%list /\
        Forall (resolver_event sheet_name) evs /\
        (length (List.filter is_get evs) <= length (attempt :: rest))%nat /\
        files w' = files w).
    { intros ids. rewrite backoff_world. cbn [fst].
      destruct (attempt <? retries - 1)%nat.
      - destruct (IH ids (World (remote w1) (files w1) (readonly w1)
                            (now w1 + 2 ^ Z.of_nat attempt)
                            (trace w1 ++ [ESleep (2 ^ Z.of_nat attempt)])))
          as (w' & ids' & evs & -> & Ht & Hall & Hn & Hf).
        exists w', ids',
          (EGet (sheet_name ++ "!A:A") :: ESleep (2 ^ Z.of_nat attempt) :: evs).
        split; [done|]. cbn in Ht. rewrite Ht, <- !app_assoc.
        split; [done|]. split.
        + apply List.Forall_cons; [by left|].
          apply List.Forall_cons; [right; eauto|done].
        + cbn. split; [lia|done].
      - destruct (IH ids w1) as (w' & ids' & evs & -> & Ht & Hall & Hn & Hf).
        exists w', ids', (EGet (sheet_name ++ "!A:A") :: evs).
        split; [done|]. cbn in Ht. rewrite Ht, <- !app_assoc.
        split; [done|]. split.
        + apply List.Forall_cons; [by left|done].
        + cbn. split; [lia|done]. }
    destruct r as [values|e]; [|apply Hnext].
    destruct (extract_ids (tail values) acc) as [ids [[]|e]]; [|apply Hnext].
    exists w1, ids, [EGet (sheet_name ++ "!A:A")]. split; [done|]. split; [done|].
    split; [apply List.Forall_cons; [by left|apply List.Forall_nil]|].
    cbn. split; [lia|done].
Qed.

(** X11: the key resolver never raises; it sends nothing but reads of the
    identifier column and pauses, reads at most [retries] times, and
    leaves the local files alone. *)
Theorem resolver_only_reads (sheet_name : string) (retries : nat) w :
  exists w' ids evs,
    get_existing_sheet_ids sheet_name retries w = (w', Ret ids) /\
    trace w' = (trace w ++ evs)%list /\
    Forall (resolver_event sheet_name) evs /\
    (length (List.filter is_get evs) <= retries)%nat /\
    files w' = files w.
Proof.
  unfold get_existing_sheet_ids.
  destruct (read_ids_attempts_events sheet_name retries (seq 0 retries) ∅ w)
    as (w' & ids & evs & Hrun & Ht & Hall & Hn & Hf).
  rewrite length_seq in Hn. by exists w', ids, evs.
Qed.

(** X12: when every read fails, the resolver gives up after three reads
    with pauses of one and two seconds and returns the empty set, so that
    the query built next excludes nothing. *)
Theorem resolver_when_reads_fail (sheet_name : string) w :
  (forall s range, exists e, (values_get s range).2 = Raise e) ->
  let run := get_existing_sheet_ids sheet_name 3 w in
  let read := EGet (sheet_name ++ "!A:A") in
  run.2 = Ret ∅ /\
  trace run.1 = (trace w ++ [read; ESleep 1; read; ESleep 2; read])%list /\
  now run.1 = now w + 3 /\
  existing_ids_filter ∅ = [].
Proof.
  intros Hfail. cbv zeta.
  assert (Hget : forall w0, exists s e,
    api_get (sheet_name ++ "!A:A") w0
    = (World s (files w0) (readonly w0) (now w0)
         (trace w0 ++ [EGet (sheet_name ++ "!A:A")]), Raise e)).
  { intros w0. unfold api_get.
    destruct (Hfail (remote w0) (sheet_name ++ "!A:A")) as [e He].
    destruct (values_get _ _) as [s r]. cbn in He. subst r. by exists s, e. }
  unfold get_existing_sheet_ids. change (seq 0 3) with [0; 1; 2]%nat.
  rewrite read_ids_attempts_cons. destruct (Hget w) as (s1 & e1 & ->).
  rewrite backoff_world. change (0 <? 3 - 1)%nat with true. cbv beta iota. cbn [fst].
  rewrite read_ids_attempts_cons.
  match goal with
  | |- context [api_get _ ?w0] => destruct (Hget w0) as (s2 & e2 & ->)
  end.
  rewrite backoff_world. change (1 <? 3 - 1)%nat with true. cbv beta iota. cbn [fst].
  rewrite read_ids_attempts_cons.
  match goal with
  | |- context [api_get _ ?w0] => destruct (Hget w0) as (s3 & e3 & ->)
  end.
  rewrite backoff_world. change (2 <? 3 - 1)%nat with false. cbv beta iota. cbn.
  repeat split; [|lia]. by rewrite <- !app_assoc.
Qed.
End ResolverTrace.

Lemma resolver_when_reads_fail_witness :
  let run := get_existing_sheet_ids "Ctr Course Success" 3 world_offline in
  let read := EGet "Ctr Course Success!A:A" in
  run.2 = Ret ∅ /\
  trace run.1 = [read; ESleep 1; read; ESleep 2; read] /\
  now run.1 = 3 /\
  existing_ids_filter (order := library_order) ∅ = [].
Proof.
  apply (resolver_when_reads_fail (svc := offline) (order := library_order)
           "Ctr Course Success" world_offline).
  intros [] ?. by exists HttpError.
Defined.

(** ** Query builders: status names and unknown campaigns *)

Section BuilderNames.
Context {order : SetOrder}.

(** X13: both builders return a query for the status name [success]
    and for every name of [status_types], and raise [KeyError] for any
    other name, whatever the campaign and the known keys. *)
Theorem builders_status_names (cfg : config) (campaign status_type : string)
    (existing_ids : gset Z) :
  let known := status_type = "success" \/ is_Some (status_types cfg !! status_type) in
  (known ->
   exists q1 q2,
     build_course_query cfg campaign status_type existing_ids = Ret q1 /\
     build_landing_page_query cfg campaign status_type existing_ids = Ret q2) /\
  (~ known ->
   build_course_query cfg campaign status_type existing_ids = Raise KeyError /\
   build_landing_page_query cfg campaign status_type existing_ids = Raise KeyError).
Proof.
  cbv zeta. unfold build_course_query, build_landing_page_query,
    course_where_clauses, landing_page_where_clauses. split.
  - intros [c ->]%status_clause_known. cbn. by eexists _, _.
  - intros ->%status_clause_unknown. done.
Qed.

(** X14: for a campaign that none of the configuration tables knows,
    the conditions of both queries are the exclusion of the known keys (if
    any), the status and the time limit, and nothing that restricts the
    courses or the landing pages. *)
Theorem builders_unknown_campaign (cfg : config) (campaign status_type : string)
    (existing_ids : gset Z) (status : string) :
  course_types cfg !! campaign = None ->
  course_ids cfg !! campaign = None ->
  landing_pages cfg !! campaign = None ->
  date_filters cfg !! campaign = None ->
  exclude_filters cfg !! campaign = None ->
  status_clause cfg status_type = Ret status ->
  let conditions := (existing_ids_filter existing_ids ++ [status; time_clause])%list in
  build_course_query cfg campaign status_type existing_ids
    = Ret (sql_head ++ join " AND " conditions ++ sql_tail) /\
  build_landing_page_query cfg campaign status_type existing_ids
    = Ret (sql_head ++ join " AND " conditions ++ sql_tail).
Proof.
  intros H1 H2 H3 H4 H5 Hs. cbv zeta.
  unfold build_course_query, build_landing_page_query,
    course_where_clauses, landing_page_where_clauses, clause_if_in.
  rewrite H1, H2, H3, H4, H5, Hs. cbn. done.
Qed.

End BuilderNames.

Lemma builders_status_names_witness :
  let course := build_course_query (order := library_order) sample_config "whd-mar2025" in
  let landing :=
    build_landing_page_query (order := library_order) sample_config "whd-mar2025" in
  (exists q1 q2, course "failed" {[7]} = Ret q1 /\ landing "failed" {[7]} = Ret q2) /\
  course "pending" {[7]} = Raise KeyError /\
  landing "pending" {[7]} = Raise KeyError.
Proof.
  cbv zeta. split.
  - apply (builders_status_names (order := library_order) sample_config "whd-mar2025"
             "failed" {[7]}).
    right. by eexists.
  - apply (builders_status_names (order := library_order) sample_config "whd-mar2025"
             "pending" {[7]}).
    intros [?|[? ?]]; done.
Defined.

Lemma builders_unknown_campaign_witness :
  let conditions :=
    (existing_ids_filter (order := library_order) {[7]}
       ++ ["cpd.`participant_status` = 1"; time_clause])%list in
  build_course_query (order := library_order) sample_config "new-campaign" "failed" {[7]}
    = Ret (sql_head ++ join " AND " conditions ++ sql_tail) /\
  build_landing_page_query (order := library_order) sample_config "new-campaign" "failed"
      {[7]}
    = Ret (sql_head ++ join " AND " conditions ++ sql_tail).
Proof.
  apply (builders_unknown_campaign (order := library_order) sample_config "new-campaign"
           "failed" {[7]} "cpd.`participant_status` = 1"); reflexivity.
Defined.

(** ** URL parameters ([extract_utm_parameters]) *)

Lemma default_params_nine : nine_texts default_params.
Proof.
  split; [by vm_compute|]. intros key v Hv. unfold default_params in Hv.
  apply elem_of_list_to_map_2 in Hv. apply list_elem_of_fmap in Hv as (k & [= -> ->] & _).
  by eexists.
Qed.

Lemma nine_texts_insert (params : gmap string pyval) (key s : string) :
  key ∈ param_keys -> nine_texts params -> nine_texts (<[key := PStr s]> params).
Proof.
  intros Hk [Hdom Hval]. split.
  - rewrite dom_insert_L, Hdom. apply set_eq. intros k.
    rewrite elem_of_union, elem_of_singleton, elem_of_list_to_set.
    split; [by intros [->|?]|by right].
  - intros k v. destruct (decide (k = key)) as [->|Hne].
    + rewrite lookup_insert_eq. intros [= <-]. by eexists.
    + rewrite lookup_insert_ne by done. apply Hval.
Qed.

Lemma take_param_nine (query_params : gmap string (list string))
    (params : gmap string pyval) (key : string) :
  key ∈ param_keys -> nine_texts params -> nine_texts (take_param query_params params key).
Proof.
  intros Hk Hp. unfold take_param.
  destruct (query_params !! key) as [[|v ?]|]; try done. by apply nine_texts_insert.
Qed.

Lemma foldl_take_param_nine (query_params : gmap string (list string))
    (keys : list string) (params : gmap string pyval) :
  Forall (fun key => key ∈ param_keys) keys -> nine_texts params ->
  nine_texts (foldl (take_param query_params) params keys).
Proof.
  intros Hkeys. revert params. induction Hkeys as [|key keys Hk _ IH]; intros params Hp; [done|].
  cbn. apply IH. by apply take_param_nine.
Qed.

Lemma nine_texts_lookup (params : gmap string pyval) (key : string) :
  key ∈ param_keys -> nine_texts params -> exists s, params !! key = Some (PStr s).
Proof.
  intros Hk [Hdom Hval].
  assert (is_Some (params !! key)) as [v Hv].
  { apply elem_of_dom. rewrite Hdom. by apply elem_of_list_to_set. }
  destruct (Hval key v Hv) as [s ->]. by exists s.
Qed.

Lemma param_keys_all : Forall (fun key => key ∈ param_keys) param_keys.
Proof. apply Forall_forall. auto. Qed.

Lemma greferrer_key : "greferrer" ∈ param_keys.
Proof. unfold param_keys. set_solver. Qed.

Lemma first_page_key : "first_page" ∈ param_keys.
Proof. unfold param_keys. set_solver. Qed.

Section UrlFacts.
Context `{!UrlLib}.

Lemma params_from_url_nine (url : pyval) (params params' : gmap string pyval) :
  nine_texts params -> params_from_url url params = Ret params' -> nine_texts params'.
Proof.
  intros Hp. unfold params_from_url. destruct url as [| |u]; [done..|].
  destruct (urlparse u) as [[path query]|]; [|done]. cbn [mbind res_bind rbind].
  destruct (parse_qs query) as [query_params|]; [|done]. cbn [mbind res_bind rbind].
  set (p1 := take_param _ _ _).
  assert (nine_texts p1) as Hp1.
  { apply take_param_nine; [apply greferrer_key|].
    apply foldl_take_param_nine; [apply param_keys_all|done]. }
  destruct (nine_texts_lookup p1 "first_page" first_page_key Hp1) as [s Hs].
  unfold getitem. rewrite Hs. cbn [mbind res_bind rbind truthy]. intros [= <-].
  destruct (negb (negb (String.eqb s "")) && negb (String.eqb path "")); [|done].
  by apply nine_texts_insert; [apply first_page_key|].
Qed.

(** X15: [extract_utm_parameters] never raises, whatever the URL
    library does; its result has exactly the nine parameter names as keys,
    and every value is a text, the last page apart when it is taken from
    the referral site. *)
Theorem extract_utm_parameters_keys (url referal_site : pyval) :
  exists params,
    extract_utm_parameters url referal_site = Ret params /\
    dom params = list_to_set param_keys /\
    forall key v, params !! key = Some v ->
      (exists s, v = PStr s) \/ (key = "greferrer" /\ v = referal_site).
Proof.
  unfold extract_utm_parameters.
  set (p := if truthy url then _ else _).
  assert (nine_texts p) as Hp.
  { subst p. destruct (truthy url); [|apply default_params_nine].
    destruct (params_from_url url default_params) eqn:E; [|apply default_params_nine].
    eapply params_from_url_nine; [apply default_params_nine|done]. }
  destruct (nine_texts_lookup p "greferrer" greferrer_key Hp) as [s Hs].
  unfold getitem. rewrite Hs. cbn [mbind res_bind rbind truthy]. eexists. split; [done|].
  destruct Hp as [Hdom Hval].
  destruct (negb (negb (String.eqb s "")) && truthy referal_site).
  - split.
    + rewrite dom_insert_L, Hdom. apply set_eq. intros k.
      rewrite elem_of_union, elem_of_singleton, elem_of_list_to_set.
      split; [intros [->|?]; [apply greferrer_key|done]|by right].
    + intros key v. destruct (decide (key = "greferrer")) as [->|Hne].
      * rewrite lookup_insert_eq. intros [= <-]. by right.
      * rewrite lookup_insert_ne by done. intros Hv. left. by eapply Hval.
  - split; [done|]. intros key v Hv. left. by eapply Hval.
Qed.
End UrlFacts.

Lemma take_param_lookup (query_params : gmap string (list string))
    (params : gmap string pyval) (key k : string) :
  take_param query_params params key !! k =
  if decide (k = key)
  then match query_params !! k with
       | Some (v :: _) => Some (PStr v)
       | _ => params !! k
       end
  else params !! k.
Proof.
  unfold take_param. case_decide as Hk.
  - subst k. destruct (query_params !! key) as [[|v ?]|]; try done.
    by rewrite lookup_insert_eq.
  - destruct (query_params !! key) as [[|v ?]|]; try done.
    by rewrite lookup_insert_ne.
Qed.

Lemma foldl_take_param_lookup (query_params : gmap string (list string))
    (keys : list string) (params : gmap string pyval) (k : string) :
  foldl (take_param query_params) params keys !! k =
  if decide (k ∈ keys)
  then match query_params !! k with
       | Some (v :: _) => Some (PStr v)
       | _ => params !! k
       end
  else params !! k.
Proof.
  revert params. induction keys as [|key keys IH]; intros params.
  - cbn. by rewrite decide_False by apply not_elem_of_nil.
  - cbn [foldl]. rewrite IH, take_param_lookup.
    destruct (decide (k = key)) as [->|Hne].
    + rewrite (decide_True (P := key ∈ key :: keys)) by apply list_elem_of_here.
      case_decide; by destruct (query_params !! key) as [[|v ?]|].
    + destruct (decide (k ∈ keys)) as [Hin|Hnin].
      * by rewrite decide_True by (by apply list_elem_of_further).
      * rewrite decide_False; [done|]. by intros [?|?]%elem_of_cons.
Qed.

Lemma default_params_lookup (key : string) :
  key ∈ param_keys -> default_params !! key = Some (PStr "").
Proof.
  intros Hk. destruct (nine_texts_lookup default_params key Hk default_params_nine)
    as [s Hs]. rewrite Hs. unfold default_params in Hs.
  apply elem_of_list_to_map_2 in Hs. by apply list_elem_of_fmap in Hs as (k & [= -> ->] & _).
Qed.

Lemma taken_params_lookup (query_params : gmap string (list string)) (key : string) :
  key ∈ param_keys ->
  take_param query_params (foldl (take_param query_params) default_params param_keys)
    "greferrer" !! key
  = Some (PStr (first_value query_params key)).
Proof.
  intros Hk. rewrite take_param_lookup, foldl_take_param_lookup.
  rewrite (decide_True (P := key ∈ param_keys)) by done.
  rewrite (default_params_lookup key Hk). unfold first_value.
  by case_decide; destruct (query_params !! key) as [[|v ?]|].
Qed.

Section UrlValues.
Context `{!UrlLib}.

(** X16: for an address that the library parses, each parameter is the
    first value of the address's parameter of that name, blank when there
    is none; the first page falls back to the path without its outer
    slashes, and the last page to the referral site. *)
Theorem extract_utm_parameters_parsed (u path query : string)
    (query_params : gmap string (list string)) (referal_site : pyval) :
  u <> "" ->
  urlparse u = Ret (path, query) ->
  parse_qs query = Ret query_params ->
  let first_page := first_value query_params "first_page" in
  let greferrer := first_value query_params "greferrer" in
  exists params,
    extract_utm_parameters (PStr u) referal_site = Ret params /\
    (forall key, key ∈ param_keys -> key <> "first_page" -> key <> "greferrer" ->
       params !! key = Some (PStr (first_value query_params key))) /\
    params !! "first_page"
      = Some (PStr (if String.eqb first_page "" && negb (String.eqb path "")
                    then strip_slashes path else first_page)) /\
    params !! "greferrer"
      = Some (if negb (String.eqb greferrer "") then PStr greferrer
              else if truthy referal_site then referal_site else PStr "").
Proof.
  intros Hu Hparse Hqs. cbv zeta. unfold extract_utm_parameters.
  replace (truthy (PStr u)) with true
    by (cbn; by destruct (String.eqb_spec u "")).
  unfold params_from_url. rewrite Hparse. cbn [mbind res_bind rbind]. rewrite Hqs.
  cbn [mbind res_bind rbind].
  pose proof (taken_params_lookup query_params) as Hl.
  set (p1 := take_param _ _ _) in *.
  unfold getitem. rewrite (Hl "first_page" first_page_key).
  cbn [mbind res_bind rbind truthy]. rewrite !negb_involutive.
  match goal with
  | |- context [if ?c then ?a else p1] => set (p2 := if c then a else p1)
  end.
  assert (Hp2 : forall key, key <> "first_page" -> p2 !! key = p1 !! key).
  { intros key Hne. subst p2. destruct (_ && _); [|done]. by rewrite lookup_insert_ne. }
  rewrite (Hp2 "greferrer") by done. rewrite (Hl "greferrer" greferrer_key).
  cbn [mbind res_bind rbind truthy]. rewrite !negb_involutive.
  eexists. split; [reflexivity|]. split; [|split].
  - intros key Hk Hn1 Hn2.
    destruct (_ && truthy referal_site); rewrite ?lookup_insert_ne by done;
      rewrite Hp2 by done; by apply Hl.
  - assert (p2 !! "first_page"
            = Some (PStr (if String.eqb (first_value query_params "first_page") ""
                             && negb (String.eqb path "")
                          then strip_slashes path
                          else first_value query_params "first_page"))) as Hfp.
    { subst p2. destruct (_ && _); [by rewrite lookup_insert_eq|].
      apply Hl, first_page_key. }
    destruct (_ && truthy referal_site); by rewrite ?lookup_insert_ne by done.
  - destruct (String.eqb (first_value query_params "greferrer") "") eqn:Eg; cbn.
    + destruct (truthy referal_site); [by rewrite lookup_insert_eq|].
      rewrite Hp2 by done. rewrite (Hl "greferrer" greferrer_key).
      by apply String.eqb_eq in Eg as ->.
    + rewrite Hp2 by done. apply Hl, greferrer_key.
Qed.
End UrlValues.

Lemma extract_utm_parameters_parsed_witness :
  exists params,
    extract_utm_parameters (H := sample_urllib)
      (PStr "https://example.org/lp/world-happiness-day/?utm_source=fb") (PStr "") = Ret params /\
    params !! "utm_source" = Some (PStr "fb") /\
    params !! "first_page" = Some (PStr "lp/world-happiness-day") /\
    params !! "greferrer" = Some (PStr "").
Proof.
  destruct (extract_utm_parameters_parsed (H := sample_urllib)
              "https://example.org/lp/world-happiness-day/?utm_source=fb"
              "/lp/world-happiness-day/" "utm_source=fb" {[ "utm_source" := ["fb"] ]}
              (PStr "") ltac:(done) eq_refl eq_refl)
    as (params & Hrun & Hkeys & Hfp & Hg).
  exists params. split; [done|]. split; [|split].
  - rewrite Hkeys; [done| |done..]. unfold param_keys. set_solver.
  - rewrite Hfp. by vm_compute.
  - rewrite Hg. by vm_compute.
Defined.

(** ** Record transformer: shape of the output, rows that abort the batch *)

Ltac split_binds H :=
  repeat match type of H with
         | ?m ≫= _ = Ret _ =>
             let E := fresh "E" in
             destruct m eqn:E; cbn [mbind res_bind rbind] in H; [|discriminate H]
         end.

Lemma coalesce_row_id (r r' : dbrow) (key : string) :
  coalesce_row r = Ret r' -> key ∉ coalesced_columns -> r' !! key = r !! key.
Proof.
  intros (? & ? & ? & ? & ? & ? & _ & _ & _ & _ & _ & _ & ->)%coalesce_row_Ret Hk.
  unfold coalesced_columns in Hk.
  rewrite !lookup_insert_ne; [done|intros <-; apply Hk; set_solver..].
Qed.

Section TransformerShape.
Context `{!UrlLib}.

Lemma format_row_shape (cfg : config) (lps : list pyval) (status_type : string)
    (r : dbrow) (out : row) :
  format_row cfg lps status_type r = Ret out -> output_of r out.
Proof.
  unfold format_row. intros Hrun. split_binds Hrun. injection Hrun as <-.
  split; [done|]. split.
  - cbn. symmetry. by apply getitem_Ret.
  - eexists. split; [done|]. apply determine_reg_type_total.
Qed.

Lemma fallback_row_shape (r : dbrow) (out : row) :
  fallback_row r = Ret out -> output_of r out.
Proof.
  unfold fallback_row. intros Hrun. split_binds Hrun. injection Hrun as <-.
  split; [done|]. split.
  - cbn. symmetry. by apply getitem_Ret.
  - exists "Error". split; [done|]. unfold reg_types. set_solver.
Qed.

Lemma process_row_shape (cfg : config) (lps : list pyval) (status_type : string)
    (r : dbrow) (out : row) :
  process_row cfg lps status_type r = Ret out -> output_of r out.
Proof.
  unfold process_row. destruct (coalesce_row r) as [r'|] eqn:Ec; [|done].
  cbn [mbind res_bind rbind]. intros Hrun.
  assert (output_of r' out) as (Hlen & Hhead & Hlast).
  { destruct (format_row cfg lps status_type r') eqn:Ef.
    - injection Hrun as <-. by eapply format_row_shape.
    - by apply fallback_row_shape. }
  split; [done|]. split; [|done]. rewrite Hhead.
  apply (coalesce_row_id r r' "id" Ec). unfold coalesced_columns. set_solver.
Qed.

Lemma process_rows_shape (cfg : config) (lps : list pyval) (status_type : string)
    (rows : list dbrow) (data result : list row) :
  process_rows cfg lps status_type rows data = Ret result ->
  exists outs, result = (data ++ outs)%list /\ Forall2 output_of rows outs.
Proof.
  revert data. induction rows as [|r rows IH]; intros data; cbn [process_rows].
  - intros [= <-]. exists []. by rewrite app_nil_r.
  - destruct (process_row cfg lps status_type r) as [out|] eqn:Er; [|done].
    cbn [mbind res_bind rbind]. intros (outs & -> & Hall)%IH.
    exists (out :: outs). rewrite <- app_assoc. split; [done|].
    apply Forall2_cons. split; [|done]. by eapply process_row_shape.
Qed.

(** X17: a batch that the transformer returns has one output row for
    each source row, in the same order; every output row has the twenty
    cells of the column headers, the reference of its source row in the
    first cell and one of the four registration types in the last. *)
Theorem process_query_results_shape (cursor : string -> res (list dbrow)) (cfg : config)
    (campaign status_type sheet_type sql : string) (rows : list dbrow) (data : list row) :
  cursor sql = Ret rows ->
  process_query_results cursor cfg campaign status_type sheet_type sql = Ret data ->
  Forall2 output_of rows data.
Proof.
  unfold process_query_results. intros ->. destruct rows as [|r rows].
  - intros [= <-]. constructor.
  - intros (outs & -> & Hall)%process_rows_shape. done.
Qed.
End TransformerShape.

Lemma process_query_results_shape_witness :
  exists data,
    process_query_results (H := failing_urllib) (fun _ => Ret [row_bad_url]) sample_config
      "whd-mar2025" "success" "course" "q" = Ret data /\
    Forall2 output_of [row_bad_url] data.
Proof.
  eexists. split; [reflexivity|].
  apply (process_query_results_shape (H := failing_urllib) (fun _ => Ret [row_bad_url])
           sample_config "whd-mar2025" "success" "course" "q"); reflexivity.
Defined.

Lemma getitem_raises (r : gmap string pyval) (key : string) (e : exn) :
  getitem r key = Raise e -> e = KeyError.
Proof. unfold getitem. destruct (r !! key); [done|]. by intros [= <-]. Qed.

Lemma coalesce_raises (r : dbrow) (key : string) (f : pyval -> pyval) (e : exn) :
  coalesce r key f = Raise e -> e = KeyError.
Proof.
  unfold coalesce. destruct (getitem r key) eqn:E; cbn [mbind res_bind rbind]; [done|].
  intros [= <-]. by eapply getitem_raises.
Qed.

Lemma coalesce_row_raises (r : dbrow) (e : exn) : coalesce_row r = Raise e -> e = KeyError.
Proof.
  unfold coalesce_row. intros H.
  repeat match type of H with
         | ?m ≫= _ = Raise _ =>
             let E := fresh "E" in
             destruct m eqn:E; cbn [mbind res_bind rbind] in H;
             [|injection H as <-; by eapply coalesce_raises]
         end.
  by eapply coalesce_raises.
Qed.

Lemma fallback_row_raises (r : dbrow) (e : exn) : fallback_row r = Raise e -> e = KeyError.
Proof.
  unfold fallback_row. intros H.
  repeat match type of H with
         | ?m ≫= _ = Raise _ =>
             let E := fresh "E" in
             destruct m eqn:E; cbn [mbind res_bind rbind] in H;
             [|injection H as <-; by eapply getitem_raises]
         end.
  discriminate H.
Qed.

Lemma coalesce_row_total (r : dbrow) :
  (forall key, key ∈ coalesced_columns -> is_Some (r !! key)) ->
  exists r', coalesce_row r = Ret r'.
Proof.
  intros Hcols.
  assert (forall key, key ∈ coalesced_columns -> exists v, r !! key = Some v) as Hv
    by (intros key Hk; by destruct (Hcols key Hk) as [v ?]; exists v).
  unfold coalesced_columns in Hv.
  destruct (Hv "participant_email") as [v1 H1]; [set_solver|].
  destruct (Hv "participant_phone") as [v2 H2]; [set_solver|].
  destruct (Hv "name") as [v3 H3]; [set_solver|].
  destruct (Hv "pincode") as [v4 H4]; [set_solver|].
  destruct (Hv "referal_site") as [v5 H5]; [set_solver|].
  destruct (Hv "reg_utm_url") as [v6 H6]; [set_solver|].
  unfold coalesce_row, coalesce, getitem.
  repeat (rewrite ?lookup_insert_ne by done;
          rewrite ?H1, ?H2, ?H3, ?H4, ?H5, ?H6; cbn [mbind res_bind rbind]).
  by eexists.
Qed.

Lemma coalesce_row_keeps_columns (r r' : dbrow) (key : string) :
  coalesce_row r = Ret r' -> is_Some (r !! key) -> is_Some (r' !! key).
Proof.
  intros (? & ? & ? & ? & ? & ? & _ & _ & _ & _ & _ & _ & ->)%coalesce_row_Ret Hk.
  rewrite !lookup_insert_is_Some'. auto 10.
Qed.

Lemma fallback_row_total (r : dbrow) :
  has_columns r -> exists out, fallback_row r = Ret out.
Proof.
  intros Hcols.
  assert (forall key, key ∈ (coalesced_columns ++ identifying_columns)%list ->
                      exists v, r !! key = Some v) as Hv
    by (intros key Hk; by destruct (Hcols key Hk) as [v ?]; exists v).
  unfold coalesced_columns, identifying_columns in Hv.
  destruct (Hv "id") as [v1 H1]; [set_solver|].
  destruct (Hv "accounting_course_id_201") as [v2 H2]; [set_solver|].
  destruct (Hv "title") as [v3 H3]; [set_solver|].
  destruct (Hv "name") as [v4 H4]; [set_solver|].
  destruct (Hv "participant_email") as [v5 H5]; [set_solver|].
  destruct (Hv "participant_phone") as [v6 H6]; [set_solver|].
  destruct (Hv "submitted_on") as [v7 H7]; [set_solver|].
  destruct (Hv "referal_site") as [v8 H8]; [set_solver|].
  destruct (Hv "reg_utm_url") as [v9 H9]; [set_solver|].
  unfold fallback_row, getitem.
  rewrite H1, H2, H3, H4, H5, H6, H7, H8, H9. by eexists.
Qed.

Section TransformerTotal.
Context `{!UrlLib}.

Lemma process_row_total (cfg : config) (lps : list pyval) (status_type : string)
    (r : dbrow) :
  has_columns r -> exists out, process_row cfg lps status_type r = Ret out.
Proof.
  intros Hcols. unfold process_row.
  destruct (coalesce_row_total r) as [r' Hr'].
  { intros key Hk. apply Hcols. apply elem_of_app. by left. }
  rewrite Hr'. cbn [mbind res_bind rbind].
  destruct (format_row cfg lps status_type r'); [by eexists|].
  apply fallback_row_total. intros key Hk.
  by apply (coalesce_row_keeps_columns r r' key Hr'), Hcols.
Qed.

Lemma process_row_raises (cfg : config) (lps : list pyval) (status_type : string)
    (r : dbrow) (e : exn) :
  process_row cfg lps status_type r = Raise e -> e = KeyError.
Proof.
  unfold process_row. destruct (coalesce_row r) as [r'|e'] eqn:Ec;
    cbn [mbind res_bind rbind].
  - destruct (format_row cfg lps status_type r'); [done|]. apply fallback_row_raises.
  - intros [= <-]. by eapply coalesce_row_raises.
Qed.

Lemma process_rows_total (cfg : config) (lps : list pyval) (status_type : string)
    (rows : list dbrow) (data : list row) :
  Forall has_columns rows ->
  exists result, process_rows cfg lps status_type rows data = Ret result.
Proof.
  intros Hall. revert data. induction Hall as [|r rows Hr _ IH]; intros data.
  - by eexists.
  - cbn [process_rows]. destruct (process_row_total cfg lps status_type r Hr) as [out ->].
    cbn [mbind res_bind rbind]. apply IH.
Qed.

Lemma process_rows_missing_column (cfg : config) (lps : list pyval) (status_type : string)
    (rows : list dbrow) (data : list row) (r : dbrow) (key : string) :
  r ∈ rows -> key ∈ coalesced_columns -> r !! key = None ->
  process_rows cfg lps status_type rows data = Raise KeyError.
Proof.
  intros Hin Hk Hnone. revert data.
  induction rows as [|r0 rows IH]; intros data; [by apply elem_of_nil in Hin|].
  cbn [process_rows].
  destruct (process_row cfg lps status_type r0) as [out|e] eqn:Er;
    cbn [mbind res_bind rbind].
  - apply elem_of_cons in Hin as [->|Hin]; [|by apply IH].
    exfalso. unfold process_row in Er.
    destruct (coalesce_row r0) as [r'|] eqn:Ec; [|done].
    apply coalesce_row_Ret in Ec as (? & ? & ? & ? & ? & ? & ? & ? & ? & ? & ? & ? & _).
    unfold coalesced_columns in Hk. set_unfold in Hk. naive_solver.
  - by rewrite (process_row_raises _ _ _ _ _ Er).
Qed.

(** X18: source rows that have the ten columns read outside of the row's
    [try] never abort the batch: the transformer returns one output row
    for each of them, whatever else they lack and whatever the URL library
    does. *)
Theorem process_query_results_total (cursor : string -> res (list dbrow)) (cfg : config)
    (campaign status_type sheet_type sql : string) (rows : list dbrow) :
  cursor sql = Ret rows ->
  Forall has_columns rows ->
  exists data,
    process_query_results cursor cfg campaign status_type sheet_type sql = Ret data /\
    Forall2 output_of rows data.
Proof.
  intros Hc Hall. unfold process_query_results. rewrite Hc.
  destruct rows as [|r rows]; [exists []; split; [done|constructor]|].
  destruct (process_rows_total cfg (default [] (landing_pages cfg !! campaign))
              status_type (r :: rows) [] Hall) as [result Hres].
  exists result. split; [done|].
  by apply process_rows_shape in Hres as (outs & -> & ?).
Qed.

(** X19: a source row without one of the six columns of the
    null-coalescing step aborts the whole batch: [KeyError] leaves
    [process_query_results], which catches the connector's error only. *)
Theorem missing_column_aborts_batch (cursor : string -> res (list dbrow)) (cfg : config)
    (campaign status_type sheet_type sql : string) (rows : list dbrow) (r : dbrow)
    (key : string) :
  cursor sql = Ret rows ->
  r ∈ rows -> key ∈ coalesced_columns -> r !! key = None ->
  process_query_results cursor cfg campaign status_type sheet_type sql = Raise KeyError.
Proof.
  intros Hc Hin Hk Hnone. unfold process_query_results. rewrite Hc.
  destruct rows as [|r0 rows]; [by apply elem_of_nil in Hin|].
  by eapply process_rows_missing_column.
Qed.
End TransformerTotal.

Lemma row_bad_url_has_columns : has_columns row_bad_url.
Proof.
  intros key Hk. unfold coalesced_columns, identifying_columns in Hk.
  apply list_elem_of_In in Hk. cbn in Hk.
  repeat (destruct Hk as [<-|Hk]; [by eexists|]). done.
Qed.

Lemma process_query_results_total_witness :
  exists data,
    process_query_results (H := failing_urllib) (fun _ => Ret [row_bad_url]) sample_config
      "whd-mar2025" "failed" "course" "q" = Ret data /\
    Forall2 output_of [row_bad_url] data.
Proof.
  apply (process_query_results_total (H := failing_urllib) (fun _ => Ret [row_bad_url])
           sample_config "whd-mar2025" "failed" "course" "q").
  - reflexivity.
  - apply List.Forall_cons; [apply row_bad_url_has_columns|apply List.Forall_nil].
Defined.

Lemma missing_column_aborts_batch_witness :
  process_query_results (H := failing_urllib)
    (fun _ => Ret [row_bad_url; {[ "id" := PInt 9 ]}]) sample_config
    "whd-mar2025" "success" "course" "q" = Raise KeyError.
Proof.
  apply (missing_column_aborts_batch (H := failing_urllib)
           (fun _ => Ret [row_bad_url; {[ "id" := PInt 9 ]}]) sample_config
           "whd-mar2025" "success" "course" "q" [row_bad_url; {[ "id" := PInt 9 ]}]
           {[ "id" := PInt 9 ]} "pincode").
  - reflexivity.
  - apply list_elem_of_further, list_elem_of_here.
  - unfold coalesced_columns. set_solver.
  - reflexivity.
Defined.

(** ** Merge reconciler: the order of the appended rows *)

Lemma dict_set_keys_list (key : string) (v : row) (d : odict) :
  (dict_set key v d).*1 = if decide (key ∈ d.*1) then d.*1 else (d.*1 ++ [key])%list.
Proof.
  induction d as [|[k0 v0] d IH]; cbn [dict_set fmap list_fmap fst].
  - by rewrite decide_False by apply not_elem_of_nil.
  - destruct (decide (key = k0)) as [<-|Hk]; cbn [fmap list_fmap fst].
    + by rewrite decide_True by apply list_elem_of_here.
    + change (list_fmap _ _ fst (dict_set key v d)) with ((dict_set key v d).*1).
      rewrite IH. change (list_fmap _ _ fst d) with (d.*1).
      destruct (decide (key ∈ d.*1)) as [Hin|Hnin].
      * by rewrite decide_True by (by apply list_elem_of_further).
      * rewrite decide_False; [done|]. by intros [?|?]%elem_of_cons.
Qed.

Lemma dict_set_elem (key : string) (v : row) (d : odict) (k' : string) (v' : row) :
  (k', v') ∈ dict_set key v d -> (k', v') = (key, v) \/ (k', v') ∈ d.
Proof.
  induction d as [|[k0 v0] d IH]; cbn [dict_set].
  - intros ->%list_elem_of_singleton. by left.
  - case_decide as Hk.
    + intros [->|?]%elem_of_cons; [by left|]. right. by apply list_elem_of_further.
    + intros [->|Hin]%elem_of_cons; [right; apply list_elem_of_here|].
      destruct (IH Hin) as [?|?]; [by left|]. right. by apply list_elem_of_further.
Qed.

Lemma add_rows_keys (headers : row) (existing_keys : gset string) (data : list row)
    (d : odict) :
  (add_rows headers existing_keys data d).*1
  = (d.*1 ++ first_occurrences d.*1 (eligible_keys existing_keys data))%list.
Proof.
  revert d. induction data as [|r data IH]; intros d; cbn [add_rows].
  - cbn. by rewrite app_nil_r.
  - unfold eligible_keys. cbn [omap list_omap]. fold (eligible_keys existing_keys data).
    destruct (row_key r) as [key|]; [|apply IH].
    case_decide as Hk; [apply IH|]. cbn [first_occurrences].
    rewrite IH, dict_set_keys_list. case_decide; [done|]. by rewrite <- app_assoc.
Qed.

Lemma add_rows_keyed (headers : row) (existing_keys : gset string) (data : list row)
    (d : odict) :
  (forall k v, (k, v) ∈ d -> row_key v = Some k) ->
  forall k v, (k, v) ∈ add_rows headers existing_keys data d -> row_key v = Some k.
Proof.
  revert d. induction data as [|r data IH]; intros d Hd; cbn [add_rows]; [done|].
  destruct (row_key r) as [key|] eqn:Er; [|by apply IH].
  case_decide; apply IH; [done|].
  intros k v [[= -> ->]|?]%dict_set_elem; [by apply pad_row_key|by apply Hd].
Qed.

Lemma first_occurrences_app (seen l1 l2 : list string) :
  first_occurrences seen (l1 ++ l2)
  = (first_occurrences seen l1
     ++ first_occurrences (seen ++ first_occurrences seen l1) l2)%list.
Proof.
  revert seen. induction l1 as [|k l1 IH]; intros seen; cbn.
  - by rewrite app_nil_r.
  - case_decide; [apply IH|]. cbn. rewrite IH. by rewrite <- app_assoc.
Qed.

(** X20: the rows that a merge appends come in the order in which their
    keys first occur, going through source A and then through source B:
    a key of both sources keeps the place it has in source A. *)
Theorem merged_rows_order (headers : row) (existing_keys : gset string)
    (course_data ad_data : list row) :
  row_key <$> new_merged_rows headers existing_keys course_data ad_data
  = Some <$> first_occurrences []
               (eligible_keys existing_keys course_data
                ++ eligible_keys existing_keys ad_data).
Proof.
  unfold new_merged_rows. rewrite dict_values_keys.
  - f_equal. rewrite !add_rows_keys, first_occurrences_app. done.
  - do 2 apply add_rows_keyed. intros k v Hin. by apply elem_of_nil in Hin.
Qed.

(** ** Merge reconciler: local files and result *)

Section MergeFrame.
Context {svc : Type} `{!Sheets svc}.
Implicit Types w : world svc.

Lemma remote_only_http_retry {A : Type} (call : M (svc := svc) A) (attempts : list nat) :
  remote_only call -> remote_only (http_retry call attempts).
Proof.
  intros Hcall. induction attempts as [|attempt rest IH]; intros w; [apply frame_refl|].
  cbn [http_retry]. specialize (Hcall w).
  destruct (call w) as [w1 [a|e]]; [done|].
  destruct e; try done.
  eapply frame_trans; [exact Hcall|].
  apply (remote_only_bind (if (attempt <? 2)%nat then sleep (2 ^ Z.of_nat attempt) else ret tt)
           (fun _ => http_retry call rest)); [|done].
  destruct (attempt <? 2)%nat; [apply remote_only_sleep|apply remote_only_ret].
Qed.

Ltac remote_only_walk :=
  repeat first
    [ apply remote_only_ret
    | apply remote_only_lift
    | apply remote_only_sleep
    | apply remote_only_api_get
    | apply remote_only_api_append
    | apply remote_only_api_update
    | apply remote_only_api_add_sheet
    | apply remote_only_write_robust
    | apply remote_only_http_retry
    | apply remote_only_bind; [|intros ?]
    | apply remote_only_try_except; [|intros ?]
    | match goal with
      | |- remote_only (match ?x with _ => _ end) => destruct x
      end ].

Lemma remote_only_read_merge_target (merge_sheet_name : string) :
  remote_only (read_merge_target merge_sheet_name).
Proof. unfold read_merge_target. remote_only_walk. Qed.

Lemma remote_only_merge_class (cfg : config) (campaign : string)
    (merge_sheets_config : gmap string string) (merge_type : string) :
  remote_only (merge_class cfg campaign merge_sheets_config merge_type).
Proof.
  unfold merge_class. remote_only_walk; try apply remote_only_read_merge_target.
Qed.

Lemma nonneg_ret (n : Z) : 0 <= n -> nonneg_result (ret (svc := svc) n).
Proof. intros Hn w n' [= <-]. done. Qed.

Lemma nonneg_bind {A : Type} (m : M (svc := svc) A) (k : A -> M (svc := svc) Z) :
  (forall a, nonneg_result (k a)) -> nonneg_result (m ≫= k).
Proof.
  intros Hk w n. rewrite bind_unfold. destruct (m w) as [w1 [a|e]]; [apply Hk|done].
Qed.

Ltac nonneg_walk :=
  repeat first
    [ apply nonneg_ret; lia
    | apply nonneg_bind; intros ?
    | match goal with
      | |- nonneg_result (match ?x with _ => _ end) => destruct x
      end ].

Lemma nonneg_merge_class (cfg : config) (campaign : string)
    (merge_sheets_config : gmap string string) (merge_type : string) :
  nonneg_result (merge_class cfg campaign merge_sheets_config merge_type).
Proof. unfold merge_class. nonneg_walk. Qed.

Lemma remote_only_merge_sheets (cfg : config) (campaign : string) :
  remote_only (merge_sheets cfg campaign).
Proof.
  intros w. unfold merge_sheets.
  destruct (merge_sheet cfg !! campaign) as [merge_sheets_config|]; [|apply frame_refl].
  pose proof (remote_only_merge_class cfg campaign merge_sheets_config "success" w) as Hf1.
  destruct (merge_class cfg campaign merge_sheets_config "success" w) as [w1 [n1|e1]];
    cbn [fst] in *; [|done].
  pose proof (remote_only_merge_class cfg campaign merge_sheets_config "failed" w1) as Hf2.
  destruct (merge_class cfg campaign merge_sheets_config "failed" w1) as [w2 [n2|e2]];
    cbn [fst] in *; by eapply frame_trans.
Qed.

(** X21: [merge_sheets] never raises and its count is not negative; it
    touches no local file, so that merged rows are neither backed up nor
    counted in the ledger; without a merge configuration for the campaign
    it does nothing at all. *)
Theorem merge_sheets_local_files (cfg : config) (campaign : string) w :
  (exists n, (merge_sheets cfg campaign w).2 = Ret n /\ 0 <= n) /\
  frame w (merge_sheets cfg campaign w).1 /\
  (merge_sheet cfg !! campaign = None -> merge_sheets cfg campaign w = (w, Ret 0)).
Proof.
  split; [|split; [apply remote_only_merge_sheets|]].
  - unfold merge_sheets.
    destruct (merge_sheet cfg !! campaign) as [merge_sheets_config|]; [|by exists 0].
    pose proof (nonneg_merge_class cfg campaign merge_sheets_config "success" w) as Hn1.
    destruct (merge_class cfg campaign merge_sheets_config "success" w) as [w1 [n1|e1]];
      cbn [fst snd] in *; [|by exists 0].
    pose proof (nonneg_merge_class cfg campaign merge_sheets_config "failed" w1) as Hn2.
    destruct (merge_class cfg campaign merge_sheets_config "failed" w1) as [w2 [n2|e2]];
      cbn [fst snd] in *.
    + specialize (Hn1 n1 eq_refl). specialize (Hn2 n2 eq_refl).
      exists (n1 + n2). split; [done|lia].
    + exists n1. split; [done|]. by apply Hn1.
  - unfold merge_sheets. by intros ->.
Qed.
End MergeFrame.

(** ** The run of the script *)

Section RunFacts.
Context {svc : Type} `{!Sheets svc} `{!UrlLib} {order : SetOrder}.
Implicit Types w : world svc.

Lemma remote_only_backoff (retries attempt : nat) :
  remote_only (backoff (svc := svc) retries attempt).
Proof.
  unfold backoff. destruct (attempt <? retries - 1)%nat;
    [apply remote_only_sleep|apply remote_only_ret].
Qed.

Lemma remote_only_read_ids_attempts (sheet_name : string) (retries : nat)
    (attempts : list nat) (existing_ids : gset Z) :
  remote_only (read_ids_attempts sheet_name retries attempts existing_ids).
Proof.
  revert existing_ids. induction attempts as [|attempt rest IH]; intros acc w;
    [apply frame_refl|].
  rewrite read_ids_attempts_cons.
  pose proof (remote_only_api_get (sheet_name ++ "!A:A") w) as Hg.
  destruct (api_get _ w) as [w1 [values|e]]; cbn [fst] in Hg.
  - destruct (extract_ids (tail values) acc) as [ids [[]|e]]; [done|].
    eapply frame_trans; [exact Hg|].
    eapply frame_trans; [apply remote_only_backoff|apply IH].
  - eapply frame_trans; [exact Hg|].
    eapply frame_trans; [apply remote_only_backoff|apply IH].
Qed.

Lemma remote_only_resolver (sheet_name : string) (retries : nat) :
  remote_only (get_existing_sheet_ids sheet_name retries).
Proof. apply remote_only_read_ids_attempts. Qed.

(** *** Files written *)

Lemma writes_within_remote_only {A : Type} (allowed : list string) (m : M (svc := svc) A) :
  remote_only m -> writes_within allowed m.
Proof. intros Hm w f _. destruct (Hm w) as (-> & _). done. Qed.

Lemma writes_within_bind {A B : Type} (allowed : list string) (m : M (svc := svc) A)
    (k : A -> M (svc := svc) B) :
  writes_within allowed m -> (forall a, writes_within allowed (k a)) ->
  writes_within allowed (m ≫= k).
Proof.
  intros Hm Hk w f Hf. rewrite bind_unfold. specialize (Hm w f Hf).
  destruct (m w) as [w1 [a|e]]; [|done]. cbn [fst] in Hm. by rewrite Hk.
Qed.

Lemma writes_within_try_except {A : Type} (allowed : list string) (m : M (svc := svc) A)
    (h : exn -> M (svc := svc) A) :
  writes_within allowed m -> (forall e, writes_within allowed (h e)) ->
  writes_within allowed (try_except m h).
Proof.
  intros Hm Hh w f Hf. unfold try_except. specialize (Hm w f Hf).
  destruct (m w) as [w1 [a|e]]; [done|]. cbn [fst] in Hm. by rewrite Hh.
Qed.

Lemma writes_within_append_to_sheet (allowed : list string) (sheet_name : string)
    (data : list row) (sheet_type campaign environment : string) :
  backup_filename sheet_type ∈ allowed -> CAMPAIGN_COUNTER_FILE ∈ allowed ->
  writes_within allowed (append_to_sheet sheet_name data sheet_type campaign environment).
Proof.
  intros Hb Hc w f Hf. destruct data as [|first rest]; [done|].
  destruct (append_to_sheet_run sheet_name (first :: rest) sheet_type campaign
              environment w ltac:(done))
    as [[_ ->]|(_ & wb & w2 & b & _ & Hwb & _ & _ & (Hw2 & _) & _ & w' & r & -> & _ & Hw')];
    [done|].
  cbn [fst].
  assert (files w2 !! f = files w !! f) as H2.
  { rewrite Hw2, Hwb. apply lookup_insert_ne. by intros <-. }
  destruct Hw' as [[-> _]|(_ & counters' & _ & -> & _)]; [done|].
  rewrite lookup_insert_ne; [done|]. by intros <-.
Qed.

Lemma status_backup_files (status : string) :
  status = "success" \/ status = "failed" ->
  backup_filename ("course_" ++ status) ∈ script_files /\
  backup_filename ("ad_" ++ status) ∈ script_files.
Proof.
  intros [->| ->]; split; vm_compute; set_solver.
Qed.

Ltac writes_within_walk :=
  repeat first
    [ apply writes_within_append_to_sheet
    | apply writes_within_remote_only;
      first [ apply remote_only_ret | apply remote_only_lift | apply remote_only_resolver ]
    | apply writes_within_bind; [|intros ?]
    | progress cbv zeta ].

Lemma writes_within_main_status (cursor : string -> res (list dbrow)) (cfg : config)
    (campaign environment : string) (counters : gmap string jval) (status : string) :
  status = "success" \/ status = "failed" ->
  writes_within script_files (main_status cursor cfg campaign environment counters status).
Proof.
  intros [Hc Ha]%status_backup_files.
  assert (CAMPAIGN_COUNTER_FILE ∈ script_files) by (unfold script_files; set_solver).
  unfold main_status. writes_within_walk; done.
Qed.


Lemma remote_only_load_local_counters : remote_only (load_local_counters (svc := svc)).
Proof. intros w. rewrite load_local_counters_eq. apply frame_refl. Qed.

Lemma writes_within_main_try (sheet_ids : gmap string string)
    (cursor : string -> res (list dbrow)) (cfg : config) (campaign environment : string) :
  writes_within script_files (main_try sheet_ids cursor cfg campaign environment).
Proof.
  unfold main_try, main_body.
  apply writes_within_try_except;
    [|intros ?; apply writes_within_remote_only, remote_only_ret].
  apply writes_within_bind;
    [|intros ?; apply writes_within_remote_only, remote_only_ret].
  apply writes_within_bind;
    [apply writes_within_remote_only, remote_only_lift|intros spreadsheet_id].
  apply writes_within_bind;
    [apply writes_within_remote_only, remote_only_load_local_counters|intros counters].
  apply writes_within_bind; [apply writes_within_main_status; by left|intros ?].
  apply writes_within_bind; [apply writes_within_main_status; by right|intros ?].
  apply writes_within_bind;
    [|intros ?; apply writes_within_remote_only, remote_only_ret].
  apply writes_within_remote_only.
  destruct (merge_sheet cfg !! campaign); [apply remote_only_merge_sheets|apply remote_only_ret].
Qed.

(** The exit status of the [try] block. *)
Lemma main_try_status (sheet_ids : gmap string string)
    (cursor : string -> res (list dbrow)) (cfg : config) (campaign environment : string) w :
  (main_try sheet_ids cursor cfg campaign environment w).2 = Ret 0 \/
  (main_try sheet_ids cursor cfg campaign environment w).2 = Ret 1.
Proof.
  unfold main_try, try_except. rewrite bind_unfold.
  destruct (main_body sheet_ids cursor cfg campaign environment w) as [w1 [n|e]]; auto.
Qed.

(** [main] as the [try] block, the log and the [finally] block. *)
Lemma main_eq (logged : option fcontent -> fcontent) (close : res unit)
    (sheet_ids : gmap string string) (cursor : string -> res (list dbrow))
    (cfg : config) (campaign environment : string) w :
  main logged close sheet_ids cursor cfg campaign environment w =
  ((write_log logged (main_try sheet_ids cursor cfg campaign environment w).1).1,
   match close with
   | Ret _ => (main_try sheet_ids cursor cfg campaign environment w).2
   | Raise e => Raise e
   end).
Proof.
  unfold main. destruct (main_try sheet_ids cursor cfg campaign environment w) as [w1 r].
  by destruct close.
Qed.

Lemma write_log_files (logged : option fcontent -> fcontent) w (f : string) :
  f <> LOG_FILE -> files (write_log logged w).1 !! f = files w !! f.
Proof. intros Hf. cbn. by rewrite lookup_insert_ne. Qed.

(** X22: after the set-up, a run ends with status 0 or 1 unless closing
    the cursor or the connection raises in the [finally] block, in which
    case that exception leaves [main]; the only local files that a run
    can change are the four backups, the ledger and the log. *)
Theorem main_writes_script_files (logged : option fcontent -> fcontent)
    (close : res unit) (sheet_ids : gmap string string)
    (cursor : string -> res (list dbrow)) (cfg : config)
    (campaign environment : string) w :
  let run := main logged close sheet_ids cursor cfg campaign environment w in
  (close = Ret tt -> run.2 = Ret 0 \/ run.2 = Ret 1) /\
  (forall e, close = Raise e -> run.2 = Raise e) /\
  forall f, f ∉ LOG_FILE :: script_files -> files run.1 !! f = files w !! f.
Proof.
  cbv zeta. rewrite main_eq. cbn [fst snd]. split; [|split].
  - intros ->. apply main_try_status.
  - by intros e ->.
  - intros f Hf. apply not_elem_of_cons in Hf as [Hlog Hf].
    rewrite write_log_files by done. by apply writes_within_main_try.
Qed.

(** *** The balance of the ledger *)

Lemma keeps_balance_remote_only {A : Type} (m : M (svc := svc) A) :
  remote_only m -> keeps_balance m.
Proof. intros Hm w Hb. destruct (Hm w) as (Hf & _). unfold ledger_of. by rewrite Hf. Qed.

Lemma keeps_balance_bind {A B : Type} (m : M (svc := svc) A) (k : A -> M (svc := svc) B) :
  keeps_balance m -> (forall a, keeps_balance (k a)) -> keeps_balance (m ≫= k).
Proof.
  intros Hm Hk w Hb. rewrite bind_unfold. specialize (Hm w Hb).
  destruct (m w) as [w1 [a|e]]; [|done]. by apply Hk.
Qed.

Lemma keeps_balance_try_except {A : Type} (m : M (svc := svc) A)
    (h : exn -> M (svc := svc) A) :
  keeps_balance m -> (forall e, keeps_balance (h e)) -> keeps_balance (try_except m h).
Proof.
  intros Hm Hh w Hb. unfold try_except. specialize (Hm w Hb).
  destruct (m w) as [w1 [a|e]]; [done|]. by apply Hh.
Qed.

Lemma keeps_balance_append_to_sheet (sheet_name : string) (data : list row)
    (sheet_type campaign environment : string) :
  sheet_type ∈ sheet_kinds ->
  keeps_balance (append_to_sheet sheet_name data sheet_type campaign environment).
Proof.
  intros Hkind w Hbal.
  destruct (append_to_sheet_ledger sheet_name data sheet_type campaign environment w)
    as [->|[t Hup]]; [done|].
  destruct (update_keeps_balance (ledger_of w) sheet_type campaign environment
              (Z.of_nat (length data)) t Hbal Hkind) as (counters' & Hup' & Hbal').
  rewrite Hup in Hup'. by injection Hup' as ->.
Qed.

Ltac keeps_balance_walk :=
  repeat first
    [ apply keeps_balance_append_to_sheet
    | apply keeps_balance_remote_only;
      first [ apply remote_only_ret | apply remote_only_lift | apply remote_only_resolver
            | apply remote_only_load_local_counters ]
    | apply keeps_balance_bind; [|intros ?]
    | progress cbv zeta ].

Lemma keeps_balance_main_status (cursor : string -> res (list dbrow)) (cfg : config)
    (campaign environment : string) (counters : gmap string jval) (status : string) :
  status = "success" \/ status = "failed" ->
  keeps_balance (main_status cursor cfg campaign environment counters status).
Proof.
  intros Hs.
  assert ("course_" ++ status ∈ sheet_kinds /\ "ad_" ++ status ∈ sheet_kinds) as [Hc Ha]
    by (destruct Hs as [->| ->]; split; vm_compute; set_solver).
  unfold main_status. keeps_balance_walk; done.
Qed.

Lemma keeps_balance_main_try (sheet_ids : gmap string string)
    (cursor : string -> res (list dbrow)) (cfg : config) (campaign environment : string) :
  keeps_balance (main_try sheet_ids cursor cfg campaign environment).
Proof.
  unfold main_try, main_body.
  apply keeps_balance_try_except;
    [|intros ?; apply keeps_balance_remote_only, remote_only_ret].
  apply keeps_balance_bind;
    [|intros ?; apply keeps_balance_remote_only, remote_only_ret].
  apply keeps_balance_bind;
    [apply keeps_balance_remote_only, remote_only_lift|intros spreadsheet_id].
  apply keeps_balance_bind;
    [apply keeps_balance_remote_only, remote_only_load_local_counters|intros counters].
  apply keeps_balance_bind; [apply keeps_balance_main_status; by left|intros ?].
  apply keeps_balance_bind; [apply keeps_balance_main_status; by right|intros ?].
  apply keeps_balance_bind;
    [|intros ?; apply keeps_balance_remote_only, remote_only_ret].
  apply keeps_balance_remote_only.
  destruct (merge_sheet cfg !! campaign); [apply remote_only_merge_sheets|apply remote_only_ret].
Qed.

(** X23: a run keeps the ledger balanced: when the total is the sum of
    the four per-kind counts before the run, it is so after it, whatever
    the remote side and the source did. *)
Theorem main_keeps_balance (logged : option fcontent -> fcontent)
    (close : res unit) (sheet_ids : gmap string string)
    (cursor : string -> res (list dbrow)) (cfg : config)
    (campaign environment : string) w :
  ledger_balanced (ledger_of w) ->
  ledger_balanced
    (ledger_of (main logged close sheet_ids cursor cfg campaign environment w).1).
Proof.
  intros Hbal. rewrite main_eq. cbn [fst].
  apply (keeps_balance_main_try sheet_ids cursor cfg campaign environment) in Hbal.
  unfold ledger_of in *. by rewrite write_log_files.
Qed.

(** *** A run without new rows *)

Lemma process_query_results_empty (cursor : string -> res (list dbrow)) (cfg : config)
    (campaign status_type sheet_type sql : string) :
  cursor sql = Ret [] \/ cursor sql = Raise MySQLError ->
  process_query_results cursor cfg campaign status_type sheet_type sql = Ret [].
Proof. unfold process_query_results. by intros [->| ->]. Qed.

Lemma remote_only_bind_lift {A B : Type} (r : res A) (k : A -> M (svc := svc) B) :
  (forall a, r = Ret a -> remote_only (k a)) -> remote_only (lift r ≫= k).
Proof.
  intros Hk w. rewrite bind_unfold. unfold lift. destruct r as [a|e]; [|apply frame_refl].
  by apply Hk.
Qed.

Lemma remote_only_main_status (cursor : string -> res (list dbrow)) (cfg : config)
    (campaign environment : string) (counters : gmap string jval) (status : string) :
  (forall sql, cursor sql = Ret [] \/ cursor sql = Raise MySQLError) ->
  remote_only (main_status cursor cfg campaign environment counters status).
Proof.
  intros Hcur. unfold main_status. cbv zeta.
  repeat first
    [ apply remote_only_ret
    | apply remote_only_resolver
    | match goal with
      | |- remote_only (lift (process_query_results _ _ _ _ _ ?sql) ≫= _) =>
          apply remote_only_bind_lift; intros data Hd;
          rewrite (process_query_results_empty _ _ _ _ _ _ (Hcur sql)) in Hd;
          injection Hd as <-
      end
    | apply remote_only_bind; [first [apply remote_only_lift|apply remote_only_resolver
                                     |apply remote_only_ret]|intros ?] ].
Qed.

Lemma remote_only_main_try (sheet_ids : gmap string string)
    (cursor : string -> res (list dbrow)) (cfg : config) (campaign environment : string) :
  (forall sql, cursor sql = Ret [] \/ cursor sql = Raise MySQLError) ->
  remote_only (main_try sheet_ids cursor cfg campaign environment).
Proof.
  intros Hcur. unfold main_try, main_body.
  apply remote_only_try_except; [|intros ?; apply remote_only_ret].
  apply remote_only_bind; [|intros ?; apply remote_only_ret].
  apply remote_only_bind; [apply remote_only_lift|intros spreadsheet_id].
  apply remote_only_bind; [apply remote_only_load_local_counters|intros counters].
  apply remote_only_bind; [by apply remote_only_main_status|intros ?].
  apply remote_only_bind; [by apply remote_only_main_status|intros ?].
  apply remote_only_bind; [|intros ?; apply remote_only_ret].
  destruct (merge_sheet cfg !! campaign); [apply remote_only_merge_sheets|apply remote_only_ret].
Qed.

(** X24: when the source has no new rows (every query returns nothing,
    or the connector fails), a run writes no local file but the log: the
    backups and the ledger stay as they were, and all that the run adds to
    the trace is calls of the remote side and pauses. *)
Theorem main_without_new_rows (logged : option fcontent -> fcontent)
    (close : res unit) (sheet_ids : gmap string string)
    (cursor : string -> res (list dbrow)) (cfg : config)
    (campaign environment : string) w :
  (forall sql, cursor sql = Ret [] \/ cursor sql = Raise MySQLError) ->
  frame_but_log w (main logged close sheet_ids cursor cfg campaign environment w).1.
Proof.
  intros Hcur. rewrite main_eq. cbn [fst].
  destruct (remote_only_main_try sheet_ids cursor cfg campaign environment Hcur w)
    as (Hfiles & Hro & Htrace).
  split; [|by split].
  intros f Hf. rewrite write_log_files by done. by rewrite Hfiles.
Qed.

End RunFacts.

(** ** The classifier on lists of texts and on other lists *)

(** X25: with a list of texts the classifier never answers [Error],
    whatever the two pages are (texts, numbers or [None]); with a list
    whose first entry is not a text it always does. *)
Theorem determine_reg_type_error (first_page last_page : pyval) :
  (forall ids : list string,
     determine_reg_type first_page last_page (PStr <$> ids)
       ∈ ["Direct"; "Indirect"; "Other"]) /\
  (forall (v : pyval) (rest : list pyval),
     (forall s, v <> PStr s) ->
     determine_reg_type first_page last_page (v :: rest) = "Error").
Proof.
  split.
  - intros ids. unfold determine_reg_type.
    destruct (lp_match_strings ids
                match first_page with PNone => "" | v => py_str v end) as (b1 & -> & _).
    destruct (lp_match_strings ids
                match last_page with PNone => "" | v => py_str v end) as (b2 & -> & _).
    cbn [mbind res_bind rbind].
    destruct (String.eqb _ _), b1, b2; cbn; set_solver.
  - intros v rest Hv. unfold determine_reg_type.
    destruct v as [| |s]; [done..|]. by destruct (Hv s).
Qed.

Lemma determine_reg_type_error_witness :
  determine_reg_type PNone (PInt 3) (PStr <$> ["lp/anand-utsav"])
    ∈ ["Direct"; "Indirect"; "Other"] /\
  determine_reg_type PNone (PInt 3) [PInt 7; PStr "lp/anand-utsav"] = "Error".
Proof.
  destruct (determine_reg_type_error PNone (PInt 3)) as [Htexts Hother].
  split; [apply Htexts|]. apply Hother. done.
Defined.

(** ** A retry after an accepted append *)

Lemma append_event_in (sheet_name : string) (data : list row) (evs : list event) :
  Forall (pipeline_event sheet_name data) evs ->
  (1 <= length (List.filter is_append evs))%nat ->
  EAppend (sheet_name ++ "!A2") data ∈ evs.
Proof.
  induction 1 as [|e evs He _ IH]; cbn; [lia|].
  destruct e; cbn; try (intros Hn; apply list_elem_of_further; by apply IH).
  intros _. destruct He as [->|[?|[? ?]]]; [apply list_elem_of_here|done..].
Qed.

Section RetryFacts.
Context {svc : Type} `{!Sheets svc}.
Implicit Types w : world svc.

(** X26: when the service accepts the append and the verification then
    fails, the pipeline sends the same batch a second time. *)
Theorem failed_verification_appends_again (sheet_name : string) (data : list row)
    w wa w1 :
  data <> [] ->
  api_append (sheet_name ++ "!A2") data w = (wa, Ret tt) ->
  verify_write_success sheet_name data wa = (w1, Ret false) ->
  let run := write_to_google_sheets_robust sheet_name data 3 w in
  let append := EAppend (sheet_name ++ "!A2") data in
  exists evs, trace run.1 = (trace w1 ++ ESleep 1 :: evs)%list /\
              append ∈ trace w1 /\ append ∈ evs.
Proof.
  intros Hd Ha Hv. cbv zeta.
  assert (append_verify_cycle sheet_name data w = (w1, Ret false)) as Hc.
  { unfold append_verify_cycle. by rewrite bind_unfold, Ha. }
  unfold write_to_google_sheets_robust.
  destruct data as [|r rest] eqn:Ed; [done|]. rewrite <- Ed in *. clear Ed.
  change (seq 0 3) with [0; 1; 2]%nat.
  rewrite write_attempts_cons, write_attempt_cycle, Hc.
  change (0 <? 3 - 1)%nat with true. cbv beta iota.
  destruct (write_attempts_events sheet_name data 3 [1; 2]%nat
              (sleep (2 ^ Z.of_nat 0) w1).1 Hd) as (evs & Ht & Hall & _ & Hge).
  exists evs. split; [|split].
  - rewrite Ht. cbn. by rewrite <- app_assoc.
  - pose proof (f_equal (fun p => trace p.1) Hv) as Htv. cbn in Htv.
    rewrite verify_trace in Htv by done. rewrite <- Htv.
    pose proof (f_equal (fun p => trace p.1) Ha) as Hta. cbn in Hta.
    rewrite api_append_trace in Hta. rewrite <- Hta.
    apply elem_of_app. left. apply elem_of_app. right. apply list_elem_of_here.
  - apply (append_event_in sheet_name data evs Hall). by apply Hge.
Qed.
End RetryFacts.

Lemma failed_verification_appends_again_witness :
  let run := write_to_google_sheets_robust "Ctr Course Success" sample_batch 3
               world_write_lost in
  exists (w1 : world script) evs,
    trace run.1 = (trace w1 ++ ESleep 1 :: evs)%list /\
    EAppend "Ctr Course Success!A2" sample_batch ∈ trace w1 /\
    EAppend "Ctr Course Success!A2" sample_batch ∈ evs.
Proof.
  eexists.
  eapply (failed_verification_appends_again (svc := script) "Ctr Course Success"
           sample_batch world_write_lost).
  - done.
  - reflexivity.
  - reflexivity.
Defined.

(** ** A run that cannot name its first sheet *)

Section RunErrors.
Context {svc : Type} `{!Sheets svc} `{!UrlLib} {order : SetOrder}.
Implicit Types w : world svc.

(** X27: when neither the campaign's table nor the default table names
    the course sheet for successes, the run ends with status 1 (or with
    the exception of the [finally] block); it sends nothing to the remote
    side and changes no local file but the log. *)
Theorem main_unknown_sheet_kind (logged : option fcontent -> fcontent)
    (close : res unit) (sheet_ids : gmap string string)
    (cursor : string -> res (list dbrow)) (cfg : config)
    (campaign environment : string) w :
  get_sheet_name cfg campaign "course_success" = Raise KeyError ->
  let run := main logged close sheet_ids cursor cfg campaign environment w in
  run.2 = match close with Ret _ => Ret 1 | Raise e => Raise e end /\
  trace run.1 = trace w /\
  remote run.1 = remote w /\
  forall f, f <> LOG_FILE -> files run.1 !! f = files w !! f.
Proof.
  intros Hname. cbv zeta. rewrite main_eq.
  assert (main_try sheet_ids cursor cfg campaign environment w = (w, Ret 1)) as ->.
  { unfold main_try, main_body, try_except. rewrite !bind_unfold. unfold lift at 1.
    destruct (spreadsheet_of sheet_ids campaign) as [spreadsheet_id|e]; [|done].
    rewrite !bind_unfold, load_local_counters_eq.
    unfold main_status. cbv zeta. rewrite !bind_unfold.
    change ("course_" ++ "success") with "course_success". rewrite Hname. done. }
  cbn [fst snd]. do 3 (split; [done|]).
  intros f Hf. by apply write_log_files.
Qed.
End RunErrors.

Lemma main_unknown_sheet_kind_witness :
  let run := main (svc := offline) (H := failing_urllib) (order := library_order)
               sample_logged (Ret tt) sample_sheet_ids (fun _ => Ret [])
               (Config ∅ ∅ ∅ ∅ ∅ ∅ ∅ ∅ ∅ ∅) "whd-mar2025" "live" world_offline in
  run.2 = Ret 1 /\
  trace run.1 = trace world_offline /\
  remote run.1 = remote world_offline /\
  forall f, f <> LOG_FILE -> files run.1 !! f = files world_offline !! f.
Proof.
  apply (main_unknown_sheet_kind (svc := offline) (H := failing_urllib)
           (order := library_order) sample_logged (Ret tt)).
  reflexivity.
Defined.

Lemma main_writes_script_files_witness :
  let run := main (svc := offline) (H := failing_urllib) (order := library_order)
               sample_logged (Raise MySQLError) sample_sheet_ids (fun _ => Ret [])
               sample_config "whd-mar2025" "live" world_offline in
  run.2 = Raise MySQLError /\
  files run.1 !! "token.pickle" = files world_offline !! "token.pickle".
Proof.
  intros run.
  destruct (main_writes_script_files (svc := offline) (H := failing_urllib)
              (order := library_order) sample_logged (Raise MySQLError) sample_sheet_ids
              (fun _ => Ret []) sample_config "whd-mar2025" "live" world_offline)
    as (_ & Hraise & Hfiles).
  split; [by apply Hraise|]. apply Hfiles.
  apply (bool_decide_unpack _). by vm_compute.
Defined.

Lemma main_keeps_balance_witness :
  ledger_balanced
    (ledger_of (main (svc := offline) (H := failing_urllib) (order := library_order)
                  sample_logged (Ret tt) sample_sheet_ids (fun _ => Ret [])
                  sample_config "whd-mar2025" "live" world_offline).1).
Proof. apply main_keeps_balance. by exists 4, 0, 0, 0. Defined.

Lemma main_without_new_rows_witness :
  frame_but_log world_offline
    (main (svc := offline) (H := failing_urllib) (order := library_order)
       sample_logged (Ret tt) sample_sheet_ids (fun _ => Ret [])
       sample_config "whd-mar2025" "live" world_offline).1.
Proof. apply main_without_new_rows. intros sql. by left. Defined.

(** ** Merge reconciler: the sheets it writes *)

Section MergeTargets.
Context {svc : Type} `{!Sheets svc}.
Implicit Types w : world svc.
Variable P : event -> Prop.

Lemma adds_only_ret {A : Type} (a : A) : adds_only P (ret (svc := svc) a).
Proof. intros w. exists []. cbn. by rewrite app_nil_r. Qed.

Lemma adds_only_lift {A : Type} (r : res A) : adds_only P (lift (svc := svc) r).
Proof. intros w. exists []. cbn. by rewrite app_nil_r. Qed.

Lemma adds_only_event {A : Type} (m : M (svc := svc) A) (e : event) :
  (forall w, trace (m w).1 = (trace w ++ [e])%list) -> P e -> adds_only P m.
Proof.
  intros Hm He w. exists [e]. split; [apply Hm|].
  apply List.Forall_cons; [done|apply List.Forall_nil].
Qed.

Lemma adds_only_sleep (n : Z) : P (ESleep n) -> adds_only P (sleep (svc := svc) n).
Proof. by apply adds_only_event. Qed.

Lemma adds_only_api_get (range : string) : P (EGet range) -> adds_only P (api_get range).
Proof. apply adds_only_event. apply api_get_trace. Qed.

Lemma adds_only_api_append (range : string) (values : list row) :
  P (EAppend range values) -> adds_only P (api_append range values).
Proof. apply adds_only_event. apply api_append_trace. Qed.

Lemma adds_only_api_update (range : string) (values : list row) :
  P (EUpdate range values) -> adds_only P (api_update range values).
Proof.
  apply adds_only_event. intros w. unfold api_update. by destruct (values_update _ _ _).
Qed.

Lemma adds_only_api_add_sheet (title : string) :
  P (EAddSheet title) -> adds_only P (api_add_sheet title).
Proof.
  apply adds_only_event. intros w. unfold api_add_sheet. by destruct (add_sheet _ _).
Qed.

Lemma adds_only_bind {A B : Type} (m : M (svc := svc) A) (k : A -> M (svc := svc) B) :
  adds_only P m -> (forall a, adds_only P (k a)) -> adds_only P (m ≫= k).
Proof.
  intros Hm Hk w. rewrite bind_unfold. destruct (Hm w) as (evs & Ht & Hall).
  destruct (m w) as [w1 [a|e]]; cbn [fst] in *; [|by exists evs].
  destruct (Hk a w1) as (evs' & Ht' & Hall'). exists (evs ++ evs')%list.
  rewrite Ht', Ht, <- app_assoc. split; [done|]. by apply Forall_app.
Qed.

Lemma adds_only_try_except {A : Type} (m : M (svc := svc) A)
    (h : exn -> M (svc := svc) A) :
  adds_only P m -> (forall e, adds_only P (h e)) -> adds_only P (try_except m h).
Proof.
  intros Hm Hh w. unfold try_except. destruct (Hm w) as (evs & Ht & Hall).
  destruct (m w) as [w1 [a|e]]; cbn [fst] in *; [by exists evs|].
  destruct (Hh e w1) as (evs' & Ht' & Hall'). exists (evs ++ evs')%list.
  rewrite Ht', Ht, <- app_assoc. split; [done|]. by apply Forall_app.
Qed.

Lemma adds_only_http_retry {A : Type} (call : M (svc := svc) A) (attempts : list nat) :
  (forall n, P (ESleep n)) -> adds_only P call -> adds_only P (http_retry call attempts).
Proof.
  intros Hsleep Hcall. induction attempts as [|attempt rest IH]; [apply adds_only_ret|].
  intros w. cbn [http_retry]. destruct (Hcall w) as (evs & Ht & Hall).
  destruct (call w) as [w1 [a|e]]; cbn [fst] in *; [by exists evs|].
  assert (exists evs', trace w1 = (trace w ++ evs')%list /\ Forall P evs') as Hw1
    by (by exists evs).
  destruct e; try done.
  destruct (adds_only_bind
              (if (attempt <? 2)%nat then sleep (2 ^ Z.of_nat attempt) else ret tt)
              (fun _ => http_retry call rest)
              ltac:(destruct (attempt <? 2)%nat;
                    [apply adds_only_sleep, Hsleep|apply adds_only_ret])
              (fun _ => IH) w1) as (evs' & Ht' & Hall').
  exists (evs ++ evs')%list. split; [|by apply Forall_app].
  etrans; [exact Ht'|]. by rewrite Ht, <- app_assoc.
Qed.

Lemma adds_only_write_robust (sheet_name : string) (data : list row) (retries : nat) :
  (forall e, pipeline_event sheet_name data e -> P e) ->
  adds_only P (write_to_google_sheets_robust sheet_name data retries).
Proof.
  intros HP w. unfold write_to_google_sheets_robust.
  destruct data as [|r rest] eqn:Ed; [apply adds_only_ret|]. rewrite <- Ed in *.
  destruct (write_attempts_events sheet_name data retries (seq 0 retries) w
              ltac:(by subst data)) as (evs & Ht & Hall & _).
  exists evs. split; [done|]. eapply Forall_impl; [exact Hall|done].
Qed.
End MergeTargets.

Section MergeWrites.
Context {svc : Type} `{!Sheets svc}.
Implicit Types w : world svc.

Ltac adds_only_walk :=
  repeat first
    [ apply adds_only_ret
    | apply adds_only_lift
    | apply adds_only_sleep; exact I
    | apply adds_only_api_get; exact I
    | apply adds_only_api_update; cbn; eauto
    | apply adds_only_api_add_sheet; cbn; eauto
    | apply adds_only_http_retry; [intros ?; exact I|]
    | apply adds_only_write_robust; intros ? [->|[->|[? ->]]]; cbn; eauto
    | apply adds_only_bind; [|intros ?]
    | apply adds_only_try_except; [|intros ?]
    | match goal with
      | |- adds_only _ (match ?x with _ => _ end) => destruct x
      end ].

Lemma adds_only_merge_class (cfg : config) (campaign : string)
    (merge_sheets_config : gmap string string) (merge_type : string)
    (is_target : string -> Prop) :
  (forall key name, merge_sheets_config !! key = Some name -> is_target name) ->
  adds_only (merge_event is_target)
    (merge_class cfg campaign merge_sheets_config merge_type).
Proof.
  intros Htarget. unfold merge_class.
  apply adds_only_bind; [apply adds_only_lift|intros course_sheet_name].
  apply adds_only_bind; [apply adds_only_lift|intros ad_sheet_name].
  destruct (merge_sheets_config !! ("merge_" ++ merge_type)) as [name|] eqn:Hcfg;
    [|apply adds_only_ret].
  apply Htarget in Hcfg. destruct name as [|c name]; [apply adds_only_ret|].
  unfold read_merge_target. adds_only_walk.
Qed.

(** X28: whatever the sheets hold, [merge_sheets] writes to the merge
    sheets of the campaign's configuration only: every append goes to
    [A2] of a merge sheet, every header write to [A1] of a merge sheet,
    every sheet it creates is a merge sheet; the source sheets are only
    read. *)
Theorem merge_sheets_writes_targets (cfg : config) (campaign : string) w :
  exists evs,
    trace (merge_sheets cfg campaign w).1 = (trace w ++ evs)%list /\
    Forall (merge_event (merge_target cfg campaign)) evs.
Proof.
  unfold merge_sheets.
  destruct (merge_sheet cfg !! campaign) as [merge_sheets_config|] eqn:Hcfg.
  2: { exists []. cbn. by rewrite app_nil_r. }
  assert (forall key name, merge_sheets_config !! key = Some name ->
                           merge_target cfg campaign name) as Htarget
    by (intros key name Hk; by exists merge_sheets_config, key).
  destruct (adds_only_merge_class cfg campaign merge_sheets_config "success" _ Htarget w)
    as (evs1 & Ht1 & Hall1).
  destruct (merge_class cfg campaign merge_sheets_config "success" w) as [w1 [n1|e1]];
    cbn [fst] in *; [|by exists evs1].
  destruct (adds_only_merge_class cfg campaign merge_sheets_config "failed" _ Htarget w1)
    as (evs2 & Ht2 & Hall2).
  destruct (merge_class cfg campaign merge_sheets_config "failed" w1) as [w2 [n2|e2]];
    cbn [fst] in *; exists (evs1 ++ evs2)%list; rewrite Ht2, Ht1, <- app_assoc;
    (split; [done|by apply Forall_app]).
Qed.
End MergeWrites.

(** ** Record transformer: complete rows *)

Lemma getitem_is_Some (m : gmap string pyval) (key : string) :
  is_Some (m !! key) -> exists v, getitem m key = Ret v.
Proof. intros [v Hv]. exists v. by apply getitem_Ret. Qed.

Lemma status_text_total (cfg : config) (status_type : string) (r : dbrow) :
  (status_type = "failed" ->
   is_Some (r !! "pg_res_msg") /\ is_Some (r !! "pg_res_code")) ->
  exists status_text,
    status_text_of cfg status_type r = Ret status_text /\ status_text <> "Error".
Proof.
  intros Hpay. unfold status_text_of.
  destruct (String.eqb_spec status_type "failed") as [->|_].
  - destruct (Hpay eq_refl) as [Hm Hc].
    apply getitem_is_Some in Hm as [msg Hmsg]. apply getitem_is_Some in Hc as [code Hcode].
    rewrite Hmsg. cbn [mbind res_bind rbind]. destruct (truthy msg).
    + rewrite Hcode. cbn [mbind res_bind rbind]. eexists. split; [done|].
      by rewrite append_cons.
    + by eexists.
  - destruct (String.eqb status_type "success"); by eexists.
Qed.

Lemma status_text_coalesced (cfg : config) (status_type : string) (r r' : dbrow) :
  coalesce_row r = Ret r' ->
  status_text_of cfg status_type r' = status_text_of cfg status_type r.
Proof.
  intros Hc. unfold status_text_of, getitem.
  rewrite (coalesce_row_id r r' "pg_res_msg" Hc), (coalesce_row_id r r' "pg_res_code" Hc);
    [done|unfold coalesced_columns; set_solver..].
Qed.

Section CompleteRows.
Context `{!UrlLib}.

Lemma extract_utm_parameters_returns (url referal_site : pyval) :
  exists params,
    extract_utm_parameters url referal_site = Ret params /\
    forall key, key ∈ param_keys -> is_Some (params !! key).
Proof.
  unfold extract_utm_parameters.
  match goal with
  | |- context [getitem ?p0 "greferrer"] => set (p := p0)
  end.
  assert (nine_texts p) as Hp.
  { subst p. destruct (truthy url); [|apply default_params_nine].
    destruct (params_from_url url default_params) eqn:E; [|apply default_params_nine].
    eapply params_from_url_nine; [apply default_params_nine|done]. }
  destruct (nine_texts_lookup p "greferrer" greferrer_key Hp) as [s Hs].
  unfold getitem. rewrite Hs. cbn [mbind res_bind rbind truthy]. eexists. split; [done|].
  intros key Hk. destruct (nine_texts_lookup p key Hk Hp) as [s' Hs'].
  destruct (_ && truthy referal_site); [|by rewrite Hs'].
  apply lookup_insert_is_Some'. right. by rewrite Hs'.
Qed.

Lemma format_row_total (cfg : config) (lps : list pyval) (status_type : string)
    (r : dbrow) (status_text : string) :
  has_columns r ->
  status_text_of cfg status_type r = Ret status_text ->
  exists out,
    format_row cfg lps status_type r = Ret out /\
    out !! 7%nat = Some (PStr status_text).
Proof.
  intros Hcols Hst. unfold format_row.
  assert (forall key, key ∈ (coalesced_columns ++ identifying_columns)%list ->
                      exists v, getitem r key = Ret v) as Hr
    by (intros key Hk; by apply getitem_is_Some, Hcols).
  unfold coalesced_columns, identifying_columns in Hr.
  destruct (Hr "reg_utm_url") as [reg_utm_url ->]; [set_solver|].
  destruct (Hr "referal_site") as [referal_site ->]; [set_solver|].
  cbn [mbind res_bind rbind].
  destruct (extract_utm_parameters_returns reg_utm_url referal_site)
    as (params & -> & Hkeys).
  cbn [mbind res_bind rbind]. rewrite Hst. cbn [mbind res_bind rbind].
  assert (forall key, key ∈ param_keys -> exists v, getitem params key = Ret v) as Hp
    by (intros key Hk; by apply getitem_is_Some, Hkeys).
  unfold param_keys in Hp.
  destruct (Hp "first_page") as [? ->]; [set_solver|].
  destruct (Hp "greferrer") as [? ->]; [set_solver|].
  destruct (Hr "id") as [? ->]; [set_solver|].
  destruct (Hr "accounting_course_id_201") as [? ->]; [set_solver|].
  destruct (Hr "title") as [? ->]; [set_solver|].
  destruct (Hr "name") as [? ->]; [set_solver|].
  destruct (Hr "participant_email") as [? ->]; [set_solver|].
  destruct (Hr "participant_phone") as [? ->]; [set_solver|].
  destruct (Hr "submitted_on") as [? ->]; [set_solver|].
  destruct (Hp "utm_campaign") as [? ->]; [set_solver|].
  destruct (Hp "utm_id") as [? ->]; [set_solver|].
  destruct (Hp "utm_source") as [? ->]; [set_solver|].
  destruct (Hp "utm_medium") as [? ->]; [set_solver|].
  destruct (Hp "utm_term") as [? ->]; [set_solver|].
  destruct (Hp "utm_content") as [? ->]; [set_solver|].
  destruct (Hp "fbclid") as [? ->]; [set_solver|].
  cbn [mbind res_bind rbind]. by eexists.
Qed.

(** X29: a source row that has the columns of the query is never
    degraded: the transformer returns a normal row for it, whose status
    cell holds [Success], [Failed] or [Failed: <message> (<description>)]
    by the status name and the payment columns, and never [Error],
    whatever the addresses in the row and whatever the URL library does. *)
Theorem complete_row_not_degraded (cfg : config) (lps : list pyval)
    (status_type : string) (r : dbrow) :
  has_columns r ->
  (status_type = "failed" ->
   is_Some (r !! "pg_res_msg") /\ is_Some (r !! "pg_res_code")) ->
  exists out status_text,
    process_row cfg lps status_type r = Ret out /\
    status_text_of cfg status_type r = Ret status_text /\
    out !! 7%nat = Some (PStr status_text) /\
    status_text <> "Error".
Proof.
  intros Hcols Hpay.
  destruct (status_text_total cfg status_type r Hpay) as (status_text & Hst & Hne).
  destruct (coalesce_row_total r) as [r' Hr'].
  { intros key Hk. apply Hcols. apply elem_of_app. by left. }
  destruct (format_row_total cfg lps status_type r' status_text) as (out & Hout & H7).
  { intros key Hk. by apply (coalesce_row_keeps_columns r r' key Hr'), Hcols. }
  { by rewrite (status_text_coalesced cfg status_type r r' Hr'). }
  exists out, status_text. unfold process_row. rewrite Hr'. cbn [mbind res_bind rbind].
  by rewrite Hout.
Qed.
End CompleteRows.

Lemma complete_row_not_degraded_witness :
  exists out status_text,
    process_row (H := failing_urllib) sample_config [PStr "lp/world-happiness-day"]
      "failed" row_bad_url = Ret out /\
    status_text_of sample_config "failed" row_bad_url = Ret status_text /\
    out !! 7%nat = Some (PStr status_text) /\
    status_text <> "Error".
Proof.
  apply (complete_row_not_degraded (H := failing_urllib)).
  - apply row_bad_url_has_columns.
  - intros _. split; by eexists.
Defined.

(** ** A ledger file that cannot be written *)

Section ReadonlyLedger.
Context {svc : Type} `{!Sheets svc}.
Implicit Types w : world svc.

(** X30: when the batch is appended and verified and the ledger file
    cannot be written, the failure to save is swallowed: [append_to_sheet]
    reports the cells as written and the ledger stays as it was, so the
    batch is in the sheet and not in the counts. *)
Theorem append_to_sheet_readonly_ledger (sheet_name : string) (first : row)
    (rest : list row) (sheet_type campaign environment : string) w w2 (kind total : Z) :
  let data := first :: rest in
  let f := backup_filename sheet_type in
  f ∉ readonly w ->
  CAMPAIGN_COUNTER_FILE ∈ readonly w ->
  count_of (ledger_of w) (sheet_type ++ "_count") = Some kind ->
  count_of (ledger_of w) "total_processed" = Some total ->
  write_to_google_sheets_robust sheet_name data 3 (save_to_csv data f w).1
    = (w2, Ret true) ->
  append_to_sheet sheet_name data sheet_type campaign environment w
    = (w2, Ret (Z.of_nat (length data) * Z.of_nat (length first))) /\
  ledger_of w2 = ledger_of w.
Proof.
  intros data f Hf Hro Hk Ht Hrun. subst data f.
  rewrite save_to_csv_eq in Hrun by done. rewrite decide_False in Hrun by done.
  cbn [fst] in Hrun.
  match type of Hrun with
  | write_to_google_sheets_robust _ _ _ ?wb = _ =>
      pose proof (remote_only_write_robust sheet_name (first :: rest) 3 wb)
        as (Hfiles & Hro2 & _)
  end.
  rewrite Hrun in Hfiles, Hro2. cbn [fst files readonly] in Hfiles, Hro2.
  assert (ledger_of w2 = ledger_of w) as Hl.
  { unfold ledger_of. rewrite Hfiles.
    by rewrite lookup_insert_ne by apply backup_filename_not_counter_file. }
  split; [|done].
  rewrite append_to_sheet_eq. rewrite decide_False by done. cbv zeta. rewrite Hrun.
  unfold update_counters_after_processing. rewrite Hl.
  rewrite (counter_add_count _ _ _ _ Hk), (counter_add_count _ _ _ _ Ht).
  cbn [mbind res_bind rbind]. rewrite save_local_counters_eq.
  rewrite decide_True by (by rewrite Hro2). done.
Qed.
End ReadonlyLedger.

Lemma append_to_sheet_readonly_ledger_witness :
  exists w2,
    append_to_sheet "Ctr Course Success" sample_batch "course_success" "whd-mar2025"
      "live" world_readonly_ledger = (w2, Ret 20) /\
    ledger_of w2 = ledger_of world_readonly_ledger.
Proof.
  eexists.
  apply (append_to_sheet_readonly_ledger (svc := script) "Ctr Course Success"
           (hd [] sample_batch) (tl sample_batch) "course_success" "whd-mar2025" "live"
           world_readonly_ledger _ 4 4).
  - by vm_compute.
  - by vm_compute.
  - reflexivity.
  - reflexivity.
  - reflexivity.
Defined.

(** ** The first append of the write pipeline *)

Section FirstAppend.
Context {svc : Type} `{!Sheets svc}.
Implicit Types w : world svc.

(** What happens after the append of a cycle touches the remote side and
    the clock only. *)
Lemma cycle_after_append (sheet_name : string) (data : list row) w :
  frame (api_append (sheet_name ++ "!A2") data w).1 (append_verify_cycle sheet_name data w).1.
Proof.
  unfold append_verify_cycle. rewrite bind_unfold.
  destruct (api_append _ _ w) as [wa [[]|e]]; cbn [fst]; [|apply frame_refl].
  apply remote_only_verify.
Qed.

(** The pipeline starts with the append of the batch; what follows are
    events of the pipeline. *)
Lemma write_robust_first_append (sheet_name : string) (data : list row) w :
  data <> [] ->
  exists rest,
    trace (write_to_google_sheets_robust sheet_name data 3 w).1
      = (trace w ++ EAppend (sheet_name ++ "!A2") data :: rest)%list /\
    Forall (pipeline_event sheet_name data) rest.
Proof.
  intros Hd.
  assert (frame (api_append (sheet_name ++ "!A2") data w).1
            (write_to_google_sheets_robust sheet_name data 3 w).1) as Hframe.
  { unfold write_to_google_sheets_robust. destruct data as [|r rest] eqn:Ed; [done|].
    rewrite <- Ed. change (seq 0 3) with [0; 1; 2]%nat.
    rewrite write_attempts_cons, write_attempt_cycle.
    pose proof (cycle_after_append sheet_name data w) as Hc.
    change (0 <? 3 - 1)%nat with true.
    destruct (append_verify_cycle sheet_name data w) as [w1 [[]|e]]; cbn [fst] in *;
      cbv beta iota; [done|..];
      (eapply frame_trans; [exact Hc|];
       eapply frame_trans; [apply remote_only_sleep|apply remote_only_write_attempts]). }
  destruct Hframe as (_ & _ & rest & Ht & _).
  rewrite api_append_trace, <- app_assoc in Ht. exists rest. split; [done|].
  unfold write_to_google_sheets_robust in *. destruct data as [|r data'] eqn:Ed; [done|].
  rewrite <- Ed in *.
  destruct (write_attempts_events sheet_name data 3 (seq 0 3) w Hd) as (evs & Ht' & Hall & _).
  rewrite Ht' in Ht. apply app_inv_head in Ht. subst evs.
  by apply Forall_cons in Hall as [_ ?].
Qed.

(** C7, amended. For a batch that is not empty [append_to_sheet] writes
    the batch to the backup file once, as the first thing it does.  When
    the backup cannot be written, nothing else happens: no remote append
    is attempted and the result is 0.  Otherwise the trace grows by the
    backup write, then by the first remote append of the batch, then by
    events among which there is no other backup write (a retry does not
    write the backup again), and the backup file then holds the batch and
    nothing else. *)
Theorem backup_written_before_remote_append (sheet_name : string) (data : list row)
    (sheet_type campaign environment : string) w :
  data <> [] ->
  let f := backup_filename sheet_type in
  let run := append_to_sheet sheet_name data sheet_type campaign environment w in
  (f ∈ readonly w -> run = (w, Ret 0)) /\
  (f ∉ readonly w ->
   exists rest,
     trace run.1
       = (trace w ++ ECsvWrite f data :: EAppend (sheet_name ++ "!A2") data :: rest)%list /\
     (forall e, e ∈ rest -> forall f' d, e <> ECsvWrite f' d) /\
     files run.1 !! f = Some (FCsv data)).
Proof.
  intros Hd f run. subst run.
  pose proof (backup_filename_not_counter_file sheet_type) as Hne.
  destruct (append_to_sheet_run sheet_name data sheet_type campaign environment w Hd)
    as [[Hro Hrun] | (Hro & wb & w2 & b & Hsave & Hfb & Htb & Hrob & Hfr & Hb
                      & w'' & r & Hrun & Hr & Hcases)];
    (split; [by intros ?|intros ?; try done]).
  rewrite Hrun. cbn [fst].
  destruct (write_robust_first_append sheet_name data wb Hd) as (evs & Ht2 & Hevs).
  rewrite Hrob in Ht2. cbn [fst] in Ht2.
  destruct Hfr as (Hf2 & _).
  assert (forall e, e ∈ evs -> forall f' d, e <> ECsvWrite f' d) as Hrem.
  { intros e Hin f' d ->. rewrite Forall_forall in Hevs.
    destruct (Hevs _ Hin) as [?|[?|[? ?]]]; done. }
  destruct Hcases as [[-> _] | (_ & counters' & _ & Hfiles & Htrace)].
  - exists evs. rewrite Ht2, Htb, <- app_assoc. split; [done|]. split; [done|].
    rewrite Hf2, Hfb. by rewrite lookup_insert_eq.
  - exists (evs ++ [ECounterSave counters'])%list.
    rewrite Htrace, Ht2, Htb, <- !app_assoc. split; [done|]. split.
    + intros e Hin f' d ->. apply elem_of_app in Hin as [Hin|Hin].
      * by eapply Hrem.
      * by apply list_elem_of_singleton in Hin.
    + rewrite Hfiles, lookup_insert_ne by done. rewrite Hf2, Hfb.
      by rewrite lookup_insert_eq.
Qed.
End FirstAppend.

Lemma backup_written_before_remote_append_witness :
  let w' := (append_to_sheet "Ctr Course Success" sample_batch "course_success"
               "whd-mar2025" "live" world_write_ok).1 in
  exists rest,
    trace w' = ECsvWrite COURSE_SUCCESS_CSV_BACKUP sample_batch
               :: EAppend "Ctr Course Success!A2" sample_batch :: rest /\
    (forall e, e ∈ rest -> forall f' d, e <> ECsvWrite f' d) /\
    files w' !! COURSE_SUCCESS_CSV_BACKUP = Some (FCsv sample_batch).
Proof.
  apply (backup_written_before_remote_append "Ctr Course Success" sample_batch
           "course_success" "whd-mar2025" "live" world_write_ok).
  - done.
  - cbn. set_solver.
Defined.

(** ** The rows that a merge appends *)





Section MergeAppends.
Context {svc : Type} `{!Sheets svc}.
Implicit Types w : world svc.



End MergeAppends.


